(** * BrewMetric: the authorization and accountability core

    A shallow embedding of [auth/auth.py] (class [AuthManager]),
    [database/database.py] (the ORM models), [ui/waste_log.py]
    (the waste write-off), [ui/main_window.py] ([log_audit_action]) and
    [ui/login_window.py] (the login path), and the properties of the
    design document stated over it. *)

From Stdlib Require Import ZArith NArith List Bool String Ascii Lia.
From Stdlib Require Import DecimalString.
From Stdlib Require Import Sorting.Permutation Sorting.Sorted.
From Stdlib Require PrimFloat Uint63.
Import ListNotations.

Set Implicit Arguments.
Open Scope bool_scope.
Open Scope list_scope.

(* ================================================================== *)
(** ** Python values: [str] and [bytes] *)
(* ================================================================== *)

(** A Python [str] is a sequence of code points; [len] counts code points.
    A [bytes] value is a sequence of numbers below 256. *)
Definition char := N.
Definition str := list char.
Definition bytes := list N.

Definition ch (a : ascii) : char := N_of_ascii a.

(** A literal of the source, written with Rocq's string notation. *)
Definition lit (s : string) : str := map ch (list_ascii_of_string s).
Arguments lit : simpl never.

Fixpoint str_eqb (a b : str) : bool :=
  match a, b with
  | [], [] => true
  | x :: a', y :: b' => N.eqb x y && str_eqb a' b'
  | _, _ => false
  end.

(** [x in xs] on a list of strings. *)
Definition str_in (x : str) (xs : list str) : bool := existsb (str_eqb x) xs.

(** [str(n)] for a non-negative integer. *)
Definition str_of_nat (n : nat) : str := lit (NilZero.string_of_uint (Nat.to_uint n)).

Definition in_range (lo hi : ascii) (c : char) : bool :=
  N.leb (ch lo) c && N.leb c (ch hi).

Definition is_char (a : ascii) (c : char) : bool := N.eqb c (ch a).

(** *** [str.encode('utf-8')] and [bytes.decode('utf-8')]

    Both are strict: encoding raises on a lone surrogate, decoding raises on
    an ill-formed sequence.  [None] stands for the raised exception. *)

Definition utf8_encode_char (c : char) : option bytes :=
  if N.ltb c 128 then Some [c]
  else if N.ltb c 2048 then Some [192 + c / 64; 128 + c mod 64]%N
  else if N.leb 55296 c && N.leb c 57343 then None
  else if N.ltb c 65536 then
    Some [224 + c / 4096; 128 + (c / 64) mod 64; 128 + c mod 64]%N
  else if N.leb c 1114111 then
    Some [240 + c / 262144; 128 + (c / 4096) mod 64;
          128 + (c / 64) mod 64; 128 + c mod 64]%N
  else None.

Fixpoint utf8_encode (s : str) : option bytes :=
  match s with
  | [] => Some []
  | c :: s' =>
      match utf8_encode_char c, utf8_encode s' with
      | Some b, Some bs => Some (b ++ bs)
      | _, _ => None
      end
  end.

Definition is_cont (b : N) : bool := N.leb 128 b && N.leb b 191.
Definition between (lo hi b : N) : bool := N.leb lo b && N.leb b hi.

Fixpoint utf8_decode (bs : bytes) : option str :=
  match bs with
  | [] => Some []
  | b0 :: t0 =>
      if N.ltb b0 128 then option_map (cons b0) (utf8_decode t0)
      else if between 194 223 b0 then
        match t0 with
        | b1 :: t1 =>
            if is_cont b1
            then option_map (cons ((b0 - 192) * 64 + (b1 - 128))%N) (utf8_decode t1)
            else None
        | _ => None
        end
      else if between 224 239 b0 then
        match t0 with
        | b1 :: b2 :: t2 =>
            if between (if N.eqb b0 224 then 160 else 128)
                       (if N.eqb b0 237 then 159 else 191) b1 && is_cont b2
            then option_map
                   (cons ((b0 - 224) * 4096 + (b1 - 128) * 64 + (b2 - 128))%N)
                   (utf8_decode t2)
            else None
        | _ => None
        end
      else if between 240 244 b0 then
        match t0 with
        | b1 :: b2 :: b3 :: t3 =>
            if between (if N.eqb b0 240 then 144 else 128)
                       (if N.eqb b0 244 then 143 else 191) b1
               && is_cont b2 && is_cont b3
            then option_map
                   (cons ((b0 - 240) * 262144 + (b1 - 128) * 4096
                          + (b2 - 128) * 64 + (b3 - 128))%N)
                   (utf8_decode t3)
            else None
        | _ => None
        end
      else None
  end.

(* ================================================================== *)
(** ** The [re] patterns of the validators *)
(* ================================================================== *)

Module Re.

(** Regular expressions over code points, matched by derivatives: a word
    is accepted exactly when the backtracking matcher finds a match that
    consumes all of it. *)
Inductive regex : Type :=
| Void
| Eps
| Class (p : char -> bool)
| Seq (r1 r2 : regex)
| Alt (r1 r2 : regex)
| Star (r : regex).

Fixpoint nullable (r : regex) : bool :=
  match r with
  | Void => false
  | Eps => true
  | Class _ => false
  | Seq r1 r2 => nullable r1 && nullable r2
  | Alt r1 r2 => nullable r1 || nullable r2
  | Star _ => true
  end.

Fixpoint deriv (c : char) (r : regex) : regex :=
  match r with
  | Void => Void
  | Eps => Void
  | Class p => if p c then Eps else Void
  | Seq r1 r2 =>
      if nullable r1
      then Alt (Seq (deriv c r1) r2) (deriv c r2)
      else Seq (deriv c r1) r2
  | Alt r1 r2 => Alt (deriv c r1) (deriv c r2)
  | Star r1 => Seq (deriv c r1) (Star r1)
  end.

Definition fullmatch (r : regex) (s : str) : bool :=
  nullable (fold_left (fun r' c => deriv c r') s r).

(** [r+] and [r{2,}]. *)
Definition Plus (r : regex) : regex := Seq r (Star r).
Definition AtLeast2 (r : regex) : regex := Seq r (Seq r (Star r)).

(** [re.match('^' body '$', s)]: [$] matches at the end of the string and
    also just before a newline that ends the string. *)
Definition match_anchored (body : regex) (s : str) : bool :=
  fullmatch body s
  || match rev s with
     | c :: t => N.eqb c 10 && fullmatch body (rev t)
     | [] => false
     end.

(** [re.search('[...]', s)] for a single character class. *)
Definition search_class (p : char -> bool) (s : str) : bool := existsb p s.

End Re.

(** What the code takes from Python's Unicode database: [\d] in a [str]
    pattern matches every character of category Nd. *)
Class UnicodeDb : Type :=
  { is_decimal : char -> bool;
    (** [str.isspace], the characters [str.strip] removes. *)
    is_space : char -> bool }.

(** The ASCII digits are decimal digits. *)
Class UnicodeDbLaws (U : UnicodeDb) : Prop :=
  { ascii_digit_is_decimal : forall c, in_range "0" "9" c = true -> is_decimal c = true }.

(* ================================================================== *)
(** ** [config] *)
(* ================================================================== *)

(** Modelled from the spec: [config.py] is not among the sources.  The role
    tags are the two of the data model (role is one of admin, staff; the
    column comment of [User.role] gives the same two strings). *)
Definition ROLE_ADMIN : str := lit "admin".
Definition ROLE_STAFF : str := lit "staff".

(** Modelled from the spec: [config.py] is not among the sources.  The
    minimum length is the default of the strength check, 8, which is also
    what the docstring of [validate_password_strength] says. *)
Definition PASSWORD_MIN_LENGTH : nat := 8.

(** The remaining settings of [config.py] are parameters. *)
Class Config : Type :=
  { WASTE_REASONS : list str;
    BCRYPT_ROUNDS : Z }.

(* ================================================================== *)
(** ** [database/database.py]: the models *)
(* ================================================================== *)

(** Columns whose value is a column default timestamp ([created_at],
    [updated_at]) are left out; [last_login] is kept.  Times are seconds.
    The item's [description] and [expiration_date] are not in the row
    either; module [Dated] below pairs a row with its expiration date. *)

Module User.
Record t : Type := mk
  { id : Z;
    username : str;
    email : str;
    password_hash : str;
    full_name : str;
    role : str;
    is_active : bool;
    last_login : option Z }.
End User.

(** Quantities are [Float] columns fed by two-decimal spin boxes; they are
    counted here in hundredths of a unit.  Comparisons and the clamping of
    the spin boxes are those of the program; a sum or a difference on this
    grid is exact, where the program rounds (see [Binary64] below). *)
Module InventoryItem.
Record t : Type := mk
  { id : Z;
    name : str;
    category : str;
    quantity : Z;
    unit : str;
    min_threshold : Z;
    unit_cost : Z;
    location : option str;
    is_deleted : bool }.

Definition is_below_threshold (self : t) : bool :=
  Z.ltb (quantity self) (min_threshold self).

Definition set_quantity (self : t) (q : Z) : t :=
  mk (id self) (name self) (category self) q (unit self)
     (min_threshold self) (unit_cost self) (location self) (is_deleted self).

Definition get_stock_value (self : t) : Z := (quantity self * unit_cost self)%Z.
End InventoryItem.

Module WasteLog.
Record t : Type := mk
  { id : Z;
    inventory_item_id : Z;
    user_id : Z;
    quantity : Z;
    reason : str;
    notes : str }.
End WasteLog.

Module AuditTrail.
Record t : Type := mk
  { id : Z;
    user_id : Z;
    inventory_item_id : option Z;
    action : str;
    entity_type : str;
    entity_id : Z;
    old_values : option str;
    new_values : option str;
    description : option str }.
End AuditTrail.

(** The tables, in row order. *)
Record DB : Type := mkDB
  { users : list User.t;
    inventory_items : list InventoryItem.t;
    waste_logs : list WasteLog.t;
    audit_trails : list AuditTrail.t }.

(* ================================================================== *)
(** ** The SQLAlchemy session *)
(* ================================================================== *)

(** A session bound to the database: [persisted] is what is committed,
    [working] is the session's unit of work (the committed rows with the
    changes made since the last commit or rollback).  [faults] is the
    schedule of the storage layer: every statement sent to the database
    takes the next entry, and [true] makes that statement raise. *)
Record Session : Type := mkSession
  { persisted : DB;
    working : DB;
    faults : list bool }.

(** [DatabaseManager.get_session]: a fresh session on the committed rows. *)
Definition get_session (db : DB) (fs : list bool) : Session :=
  mkSession db db fs.

Definition clean (s : Session) : Prop := working s = persisted s.
Definition reliable (s : Session) : Prop := Forall (fun f => f = false) (faults s).

Inductive exn : Type :=
| OperationalError      (* the storage layer failed *)
| AttributeError        (* attribute access on None *)
| UnicodeEncodeError
| UnicodeDecodeError
| ValueError.           (* bcrypt refuses the password *)

Definition exn_str (e : exn) : str :=
  match e with
  | OperationalError => lit "database error"
  | AttributeError => lit "'NoneType' object has no attribute 'quantity'"
  | UnicodeEncodeError => lit "'utf-8' codec can't encode character"
  | UnicodeDecodeError => lit "'utf-8' codec can't decode byte"
  | ValueError =>
      lit "password cannot be longer than 72 bytes, truncate manually if necessary (e.g. my_password[:72])"
  end.

Inductive result (A : Type) : Type :=
| Ok (a : A)
| Raise (e : exn).
Arguments Ok {A} a.
Arguments Raise {A} e.

(** Code that runs against a session and may raise. *)
Definition M (A : Type) : Type := Session -> result A * Session.

Definition ret {A} (a : A) : M A := fun s => (Ok a, s).
Definition raise {A} (e : exn) : M A := fun s => (Raise e, s).

Definition bind {A B} (m : M A) (k : A -> M B) : M B :=
  fun s =>
    match m s with
    | (Ok a, s') => k a s'
    | (Raise e, s') => (Raise e, s')
    end.

(** [try: body  except Exception as e: handler(e)]. *)
Definition try_except {A} (body : M A) (handler : exn -> M A) : M A :=
  fun s =>
    match body s with
    | (Ok a, s') => (Ok a, s')
    | (Raise e, s') => handler e s'
    end.

Definition lift_result {A} (r : result A) : M A := fun s => (r, s).

Declare Scope session_scope.
Delimit Scope session_scope with session.
Notation "x <- m ;; k" := (bind m (fun x => k))
  (at level 100, m at next level, right associativity) : session_scope.
Notation "m ;;; k" := (bind m (fun _ => k))
  (at level 100, right associativity) : session_scope.
Open Scope session_scope.

(** One statement sent to the database. *)
Definition execute : M unit :=
  fun s =>
    match faults s with
    | [] => (Ok tt, s)
    | f :: fs =>
        let s' := mkSession (persisted s) (working s) fs in
        if f then (Raise OperationalError, s') else (Ok tt, s')
    end.

Definition get_working : M DB := fun s => (Ok (working s), s).

Definition set_working (db : DB) : M unit :=
  fun s => (Ok tt, mkSession (persisted s) db (faults s)).

(** [session.commit()]: the unit of work becomes the committed state, in
    one statement; when the statement raises nothing is committed.  (After
    a commit that raised, SQLAlchemy takes no further work from the
    session until it is rolled back; the properties below start from a
    session with nothing pending.) *)
Definition session_commit : M unit :=
  execute ;;;
  fun s => (Ok tt, mkSession (working s) (working s) (faults s)).

(** A window takes a session of its own with [db_manager.get_session()]: it
    starts from the committed rows. *)
Definition fresh_session : M unit :=
  fun s => (Ok tt, get_session (persisted s) (faults s)).

(** [session.rollback()]: the unit of work is dropped. *)
Definition session_rollback : M unit :=
  fun s => (Ok tt, mkSession (persisted s) (persisted s) (faults s)).

(** [session.close()]: what was not committed is dropped. *)
Definition session_close : M unit :=
  fun s => (Ok tt, mkSession (persisted s) (persisted s) (faults s)).

(** Primary keys are the next row id of the table; the model gives the key
    at [session.add], the database gives it at the flush of the commit, and
    nothing reads it in between. *)
Definition next_id (ids : list Z) : Z := (1 + fold_right Z.max 0 ids)%Z.

(** [session.query(User).filter(p).first()]. *)
Definition query_user_first (p : User.t -> bool) : M (option User.t) :=
  execute ;;;
  db <- get_working ;;
  ret (find p (users db)).

(** [session.query(InventoryItem).get(item_id)]. *)
Definition query_item_get (item_id : Z) : M (option InventoryItem.t) :=
  execute ;;;
  db <- get_working ;;
  ret (find (fun i => Z.eqb (InventoryItem.id i) item_id) (inventory_items db)).

(** [session.add(new_user)]; the row as the session holds it is returned. *)
Definition session_add_user (mk_row : Z -> User.t) : M User.t :=
  db <- get_working ;;
  let u := mk_row (next_id (map User.id (users db))) in
  set_working (mkDB (users db ++ [u]) (inventory_items db)
                    (waste_logs db) (audit_trails db)) ;;;
  ret u.

Definition session_add_waste_log (mk_row : Z -> WasteLog.t) : M WasteLog.t :=
  db <- get_working ;;
  let w := mk_row (next_id (map WasteLog.id (waste_logs db))) in
  set_working (mkDB (users db) (inventory_items db)
                    (waste_logs db ++ [w]) (audit_trails db)) ;;;
  ret w.

Definition session_add_audit_trail (mk_row : Z -> AuditTrail.t) : M AuditTrail.t :=
  db <- get_working ;;
  let a := mk_row (next_id (map AuditTrail.id (audit_trails db))) in
  set_working (mkDB (users db) (inventory_items db)
                    (waste_logs db) (audit_trails db ++ [a])) ;;;
  ret a.

(** [session.refresh(obj)]: one SELECT. *)
Definition session_refresh : M unit := execute.

(** [item.quantity = q] on the row loaded with key [item_id]. *)
Fixpoint update_item_quantity (item_id q : Z) (l : list InventoryItem.t)
  : list InventoryItem.t :=
  match l with
  | [] => []
  | i :: l' =>
      if Z.eqb (InventoryItem.id i) item_id
      then InventoryItem.set_quantity i q :: l'
      else i :: update_item_quantity item_id q l'
  end.

Definition set_item_quantity (item_id q : Z) : M unit :=
  db <- get_working ;;
  set_working (mkDB (users db) (update_item_quantity item_id q (inventory_items db))
                    (waste_logs db) (audit_trails db)).

(* ================================================================== *)
(** ** The [bcrypt] package *)
(* ================================================================== *)

(** [gensalt] draws the salt from the operating system's randomness, here
    the [entropy] argument.  [hashpw] raises [ValueError] ([None]) on a
    password it refuses: bcrypt 5 refuses a password of more than 72
    bytes, earlier versions cut it there.  [checkpw] raises ([None]) on a
    stored value that is not a bcrypt hash, and where [hashpw] would. *)
Class Bcrypt : Type :=
  { entropy : Type;
    salt : Type;
    bcrypt_gensalt : Z -> entropy -> salt;
    bcrypt_hashpw : bytes -> salt -> option bytes;
    bcrypt_checkpw : bytes -> bytes -> option bool }.

(** bcrypt reads at most 72 bytes of a password. *)
Definition BCRYPT_MAX_BYTES : nat := 72.

(** The contract of the package that the code relies on: a password of at
    most 72 bytes is hashed, a password checks against a hash made of it,
    and a hash is a string of ASCII characters. *)
Class BcryptLaws (B : Bcrypt) : Prop :=
  { hashpw_accepts :
      forall pw sl, (List.length pw <= BCRYPT_MAX_BYTES)%nat ->
                    bcrypt_hashpw pw sl <> None;
    checkpw_hashpw :
      forall pw sl h, bcrypt_hashpw pw sl = Some h ->
                      bcrypt_checkpw pw h = Some true;
    hashpw_ascii :
      forall pw sl h, bcrypt_hashpw pw sl = Some h ->
                      Forall (fun b => (b < 128)%N) h }.

(* ================================================================== *)
(** ** [auth/auth.py]: class [AuthManager] *)
(* ================================================================== *)

(** The sessions the windows hold; [AuthManager.current_session] keeps a
    reference to one of them. *)
Inductive session_handle : Type :=
| LoginSession
| MainSession
| PageSession.

Module AuthManager.
Section Methods.
Context {U : UnicodeDb} {B : Bcrypt} {C : Config}.

(** The class attributes [current_user] and [current_session]. *)
Record state : Type := mkState
  { current_user : option User.t;
    current_session : option session_handle }.

Definition hash_password (password : str) (e : entropy) : result str :=
  let sl := bcrypt_gensalt BCRYPT_ROUNDS e in
  match utf8_encode password with
  | None => Raise UnicodeEncodeError
  | Some pw =>
      match bcrypt_hashpw pw sl with
      | None => Raise ValueError
      | Some h =>
          match utf8_decode h with
          | Some hashed => Ok hashed
          | None => Raise UnicodeDecodeError
          end
      end
  end.

Definition verify_password (plain_password hashed_password : str) : bool :=
  match utf8_encode plain_password, utf8_encode hashed_password with
  | Some pw, Some h =>
      match bcrypt_checkpw pw h with
      | Some b => b
      | None => false
      end
  | _, _ => false
  end.

Definition special_char (c : char) : bool :=
  existsb (N.eqb c) (lit "!@#$%^&*").

Definition validate_password_strength (password : str) : bool * str :=
  if Nat.ltb (List.length password) PASSWORD_MIN_LENGTH then
    (false, lit "Password must be at least " ++ str_of_nat PASSWORD_MIN_LENGTH
            ++ lit " characters long")
  else if negb (Re.search_class (in_range "a" "z") password) then
    (false, lit "Password must contain at least one lowercase letter")
  else if negb (Re.search_class (in_range "A" "Z") password) then
    (false, lit "Password must contain at least one uppercase letter")
  else if negb (Re.search_class is_decimal password) then
    (false, lit "Password must contain at least one digit")
  else if negb (Re.search_class special_char password) then
    (false, lit "Password must contain at least one special character (!@#$%^&*)")
  else (true, lit "Password is strong").

(** [[a-zA-Z_]] and [[a-zA-Z0-9_]]. *)
Definition name_start (c : char) : bool :=
  in_range "a" "z" c || in_range "A" "Z" c || is_char "_" c.
Definition name_char (c : char) : bool :=
  in_range "a" "z" c || in_range "A" "Z" c || in_range "0" "9" c || is_char "_" c.

Definition username_re : Re.regex :=
  Re.Seq (Re.Class name_start) (Re.Star (Re.Class name_char)).

Definition validate_username (username : str) : bool * str :=
  if Nat.ltb (List.length username) 3 || Nat.ltb 50 (List.length username) then
    (false, lit "Username must be between 3 and 50 characters")
  else if negb (Re.match_anchored username_re username) then
    (false, lit "Username can only contain letters, numbers, and underscores (must start with letter or underscore)")
  else (true, lit "Username is valid").

(** [[a-zA-Z0-9._%+-]], [[a-zA-Z0-9.-]] and [[a-zA-Z]]. *)
Definition alnum (c : char) : bool :=
  in_range "a" "z" c || in_range "A" "Z" c || in_range "0" "9" c.
Definition local_char (c : char) : bool :=
  alnum c || is_char "." c || is_char "_" c || is_char "%" c
  || is_char "+" c || is_char "-" c.
Definition domain_char (c : char) : bool :=
  alnum c || is_char "." c || is_char "-" c.
Definition alpha (c : char) : bool :=
  in_range "a" "z" c || in_range "A" "Z" c.

Definition email_re : Re.regex :=
  Re.Seq (Re.Plus (Re.Class local_char))
    (Re.Seq (Re.Class (is_char "@"))
       (Re.Seq (Re.Plus (Re.Class domain_char))
          (Re.Seq (Re.Class (is_char "."))
             (Re.AtLeast2 (Re.Class alpha))))).

Definition validate_email (email : str) : bool * str :=
  if negb (Re.match_anchored email_re email) then
    (false, lit "Invalid email format")
  else (true, lit "Email is valid").

Definition authenticate_user (username password : str) : M (option User.t) :=
  try_except
    (user <- query_user_first (fun u => str_eqb (User.username u) username) ;;
     match user with
     | None => ret None
     | Some u =>
         if negb (User.is_active u) then ret None
         else if negb (verify_password password (User.password_hash u)) then ret None
         else ret (Some u)
     end)
    (fun _ => ret None).

Definition create_user (username email password full_name role : str)
           (e : entropy) : M (bool * str * option User.t) :=
  let '(is_valid, msg) := validate_username username in
  if negb is_valid then ret (false, lit "Invalid username: " ++ msg, None) else
  let '(is_valid, msg) := validate_email email in
  if negb is_valid then ret (false, lit "Invalid email: " ++ msg, None) else
  let '(is_valid, msg) := validate_password_strength password in
  if negb is_valid then ret (false, lit "Weak password: " ++ msg, None) else
  existing_user <- query_user_first (fun u => str_eqb (User.username u) username) ;;
  match existing_user with
  | Some _ => ret (false, lit "Username already exists", None)
  | None =>
  existing_email <- query_user_first (fun u => str_eqb (User.email u) email) ;;
  match existing_email with
  | Some _ => ret (false, lit "Email already exists", None)
  | None =>
      try_except
        (hashed <- lift_result (hash_password password e) ;;
         new_user <- session_add_user
                       (fun id => User.mk id username email hashed full_name
                                          role true None) ;;
         session_commit ;;;
         session_refresh ;;;
         ret (true, lit "User created successfully", Some new_user))
        (fun ex =>
           session_rollback ;;;
           ret (false, lit "Error creating user: " ++ exn_str ex, None))
  end
  end.

Definition create_default_admin (e : entropy) : M (option User.t) :=
  existing_admin <- query_user_first (fun u => str_eqb (User.role u) ROLE_ADMIN) ;;
  match existing_admin with
  | Some a => ret (Some a)
  | None =>
      r <- create_user (lit "admin") (lit "admin@brewmetric.local")
                       (lit "Admin@123456") (lit "Administrator") ROLE_ADMIN e ;;
      let '(success, msg, admin) := r in
      if (success : bool) then ret admin else ret None
  end.

Definition staff_allowed : list str :=
  [ lit "view_inventory";
    lit "add_item";
    lit "adjust_stock";
    lit "record_waste";
    lit "view_activity";
    lit "export_inventory" ].

Definition has_permission (user : option User.t) (action : str) : bool :=
  match user with
  | None => false
  | Some u =>
      if str_eqb (User.role u) ROLE_ADMIN then true
      else if str_eqb (User.role u) ROLE_STAFF then str_in action staff_allowed
      else false
  end.

Definition set_current_user (user : User.t) (session : session_handle) (_ : state)
  : state :=
  mkState (Some user) (Some session).

Definition get_current_user (st : state) : option User.t := current_user st.
Definition get_current_session (st : state) : option session_handle :=
  current_session st.

Definition logout (_ : state) : state := mkState None None.

End Methods.
End AuthManager.

(* ================================================================== *)
(** ** The Qt widgets the dialogs read *)
(* ================================================================== *)

Module Qt.

(** A [QComboBox] that is not editable: entries of text and data, and the
    current entry; [None] is index -1, which only an empty box has. *)
Record QComboBox (D : Type) : Type := mkCombo
  { entries : list (str * D);
    current : option nat }.

Definition combo_new {D} (es : list (str * D)) : QComboBox D :=
  mkCombo es (match es with [] => None | _ => Some 0%nat end).

(** The operator picks an entry of the list. *)
Definition combo_pick {D} (n : nat) (c : QComboBox D) : QComboBox D :=
  if Nat.ltb n (List.length (entries c)) then mkCombo (entries c) (Some n) else c.

Definition currentIndex {D} (c : QComboBox D) : Z :=
  match current c with
  | None => (-1)%Z
  | Some n => Z.of_nat n
  end.

Definition currentData {D} (c : QComboBox D) : option D :=
  match current c with
  | None => None
  | Some n => option_map snd (nth_error (entries c) n)
  end.

Definition currentText {D} (c : QComboBox D) : str :=
  match current c with
  | None => []
  | Some n => match nth_error (entries c) n with Some e => fst e | None => [] end
  end.

(** A [QDoubleSpinBox] with the default range and two decimals: the value
    is kept between 0.00 and 99.99; values are in hundredths. *)
Definition spin_minimum : Z := 0.
Definition spin_maximum : Z := 9999.
Definition spin_setValue (v : Z) : Z := Z.max spin_minimum (Z.min spin_maximum v).

End Qt.

(* ================================================================== *)
(** ** [database/database.py]: [InventoryQueries] *)
(* ================================================================== *)

Fixpoint str_leb (a b : str) : bool :=
  match a, b with
  | [], _ => true
  | _ :: _, [] => false
  | x :: a', y :: b' => N.ltb x y || (N.eqb x y && str_leb a' b')
  end.

Fixpoint insert_by_name (i : InventoryItem.t) (l : list InventoryItem.t)
  : list InventoryItem.t :=
  match l with
  | [] => [i]
  | j :: l' =>
      if str_leb (InventoryItem.name i) (InventoryItem.name j)
      then i :: l
      else j :: insert_by_name i l'
  end.

(** [ORDER BY name ASC]. *)
Definition order_by_name (l : list InventoryItem.t) : list InventoryItem.t :=
  fold_right insert_by_name [] l.

Module InventoryQueries.

Definition get_all_items (exclude_deleted : bool) : M (list InventoryItem.t) :=
  execute ;;;
  db <- get_working ;;
  let rows :=
    if exclude_deleted
    then filter (fun i => negb (InventoryItem.is_deleted i)) (inventory_items db)
    else inventory_items db in
  ret (order_by_name rows).


Fixpoint insert_by_quantity (i : InventoryItem.t) (l : list InventoryItem.t)
  : list InventoryItem.t :=
  match l with
  | [] => [i]
  | j :: l' =>
      if Z.leb (InventoryItem.quantity i) (InventoryItem.quantity j)
      then i :: l
      else j :: insert_by_quantity i l'
  end.

(** [ORDER BY quantity ASC]. *)
Definition order_by_quantity (l : list InventoryItem.t) : list InventoryItem.t :=
  fold_right insert_by_quantity [] l.

(** [LIMIT n]: SQLite reads a negative [n] as no limit. *)
Definition sql_limit {A} (n : Z) (l : list A) : list A :=
  if Z.ltb n 0 then l else firstn (Z.to_nat n) l.

Definition get_low_stock_items (limit : Z) : M (list InventoryItem.t) :=
  execute ;;;
  db <- get_working ;;
  ret (sql_limit limit
         (order_by_quantity
            (filter (fun i => negb (InventoryItem.is_deleted i))
               (filter (fun i => Z.ltb (InventoryItem.quantity i)
                                       (InventoryItem.min_threshold i))
                  (inventory_items db))))).

Definition get_by_category (category : str) : M (list InventoryItem.t) :=
  execute ;;;
  db <- get_working ;;
  ret (order_by_name
         (filter (fun i => negb (InventoryItem.is_deleted i))
            (filter (fun i => str_eqb (InventoryItem.category i) category)
               (inventory_items db)))).

(** [sum(...)] over a list of numbers. *)
Definition py_sum (l : list Z) : Z := fold_left Z.add l 0%Z.

Definition get_total_inventory_value : M Z :=
  execute ;;;
  db <- get_working ;;
  let items := filter (fun i => negb (InventoryItem.is_deleted i)) (inventory_items db) in
  ret (py_sum (map InventoryItem.get_stock_value items)).
End InventoryQueries.

(* ================================================================== *)
(** ** [database/database.py]: the expiry methods of [InventoryItem] *)
(* ================================================================== *)

(** An inventory row together with its [expiration_date] column.  A
    [datetime] is a number of microseconds; [utcnow()] is an argument. *)
Module Dated.

Record t : Type := mk
  { row : InventoryItem.t;
    expiration_date : option Z }.

(** One day, the unit of [timedelta.days]. *)
Definition day : Z := 86400000000.

(** [(a - b).days]: the whole days of the difference, rounded down. *)
Definition days_between (a b : Z) : Z := ((a - b) / day)%Z.

Definition is_expiring_soon (self : t) (utcnow days : Z) : bool :=
  match expiration_date self with
  | None => false
  | Some e =>
      let days_until_expiration := days_between e utcnow in
      Z.leb 0 days_until_expiration && Z.leb days_until_expiration days
  end.

Definition is_expired (self : t) (utcnow : Z) : bool :=
  match expiration_date self with
  | None => false
  | Some e => Z.ltb e utcnow
  end.

Fixpoint insert_by_expiration (i : t) (l : list t) : list t :=
  match l with
  | [] => [i]
  | j :: l' =>
      match expiration_date i, expiration_date j with
      | Some a, Some b => if Z.leb a b then i :: l else j :: insert_by_expiration i l'
      | None, _ => i :: l
      | Some _, None => j :: insert_by_expiration i l'
      end
  end.

(** [InventoryQueries.get_expiring_items] on the rows of the table.  The
    clock is read twice: [utcnow1] for the cutoff, then [utcnow2] in the
    filter.  A comparison with a NULL date does not hold. *)
Definition get_expiring_items (rows : list t) (utcnow1 utcnow2 days : Z) : list t :=
  let cutoff_date := (utcnow1 + days * day)%Z in
  fold_right insert_by_expiration []
    (filter (fun i => negb (InventoryItem.is_deleted (row i)))
       (filter (fun i => match expiration_date i with
                         | Some e => Z.leb utcnow2 e
                         | None => false
                         end)
          (filter (fun i => match expiration_date i with
                            | Some e => Z.leb e cutoff_date
                            | None => false
                            end)
             rows))).

(** The status column of [InventoryPage.display_items]; each method reads
    the clock when it is called. *)
Definition status (self : t) (utcnow1 utcnow2 : Z) : str :=
  if is_expired self utcnow1 then lit "EXPIRED"
  else if is_expiring_soon self utcnow2 7 then lit "EXPIRING"
  else if InventoryItem.is_below_threshold (row self) then lit "LOW"
  else lit "OK".

End Dated.

(* ================================================================== *)
(** ** [ui/waste_log.py] *)
(* ================================================================== *)

(** What the operator does with an open waste dialog before closing it. *)
Record WasteInput : Type := mkWasteInput
  { pick_item : nat;
    enter_quantity : Z;
    pick_reason : nat;
    enter_notes : str;
    press_record : bool }.

Module WasteDialog.
Section Methods.
Context {C : Config}.

Record t : Type := mk
  { item_combo : Qt.QComboBox Z;
    qty_input : Z;
    reason_combo : Qt.QComboBox unit;
    notes_input : str;
    item_id : option Z;
    quantity : Z;
    reason : str;
    notes : str }.

(** [__init__] and [init_ui]. *)
Definition init : M t :=
  items <- try_except (InventoryQueries.get_all_items true) (fun _ => ret []) ;;
  ret (mk (Qt.combo_new
             (map (fun i => (InventoryItem.name i, InventoryItem.id i)) items))
          (Qt.spin_setValue 100)
          (Qt.combo_new (map (fun r => (r, tt)) WASTE_REASONS))
          []
          None 0%Z [] []).

Definition edit (input : WasteInput) (d : t) : t :=
  mk (Qt.combo_pick (pick_item input) (item_combo d))
     (Qt.spin_setValue (enter_quantity input))
     (Qt.combo_pick (pick_reason input) (reason_combo d))
     (enter_notes input)
     (item_id d) (quantity d) (reason d) (notes d).

(** [accept]: the flag tells whether the dialog closed as accepted. *)
Definition accept (d : t) : bool * t :=
  if Z.ltb (Qt.currentIndex (item_combo d)) 0 then (false, d)
  else
    (true,
     mk (item_combo d) (qty_input d) (reason_combo d) (notes_input d)
        (Qt.currentData (item_combo d))
        (qty_input d)
        (Qt.currentText (reason_combo d))
        (notes_input d)).

(** [dialog.exec()]: the operator edits the form and presses Record or
    Cancel; a Record that [accept] refuses leaves the dialog open, and it
    can then only be closed by Cancel. *)
Definition exec (input : WasteInput) (d : t) : bool * t :=
  let d' := edit input d in
  if press_record input then accept d' else (false, d').

End Methods.
End WasteDialog.

Inductive waste_outcome : Type :=
| Cancelled
| Recorded             (* "Waste entry recorded" *)
| Failed (e : exn).    (* "Failed to record waste" *)

Module WasteLogPage.
Section Methods.
Context {C : Config}.

Record t : Type := mk { user : User.t }.

Definition load_waste_logs (self : t) : M unit :=
  try_except execute (fun _ => ret tt).

Definition show_add_waste_dialog (self : t) (input : WasteInput) : M waste_outcome :=
  dialog0 <- WasteDialog.init ;;
  let '(accepted, dialog) := WasteDialog.exec input dialog0 in
  if (accepted : bool) then
    try_except
      (match WasteDialog.item_id dialog with
       | None => raise AttributeError
       | Some dialog_item_id =>
           item <- query_item_get dialog_item_id ;;
           match item with
           | None => raise AttributeError
           | Some it =>
               set_item_quantity dialog_item_id
                 (Z.max 0 (InventoryItem.quantity it - WasteDialog.quantity dialog)) ;;;
               session_add_waste_log
                 (fun id => WasteLog.mk id dialog_item_id (User.id (user self))
                                        (WasteDialog.quantity dialog)
                                        (WasteDialog.reason dialog)
                                        (WasteDialog.notes dialog)) ;;;
               session_commit ;;;
               load_waste_logs self ;;;
               ret Recorded
           end
       end)
      (fun e => session_rollback ;;; ret (Failed e))
  else ret Cancelled.

(** The operator uses the dialog several times in a row. *)
Fixpoint run (self : t) (inputs : list WasteInput) : M (list waste_outcome) :=
  match inputs with
  | [] => ret []
  | i :: rest =>
      o <- show_add_waste_dialog self i ;;
      os <- run self rest ;;
      ret (o :: os)
  end.

End Methods.
End WasteLogPage.

(* ================================================================== *)
(** ** The quantities as the program holds them *)
(* ================================================================== *)

(** The [quantity] columns are [Float] and the spin boxes return doubles:
    the numbers of the program are binary64 floats, and [quantity] above
    counts hundredths.  This is the decrement of [show_add_waste_dialog]
    on the floats themselves. *)
Module Binary64.








End Binary64.

(* ================================================================== *)
(** ** [ui/main_window.py], [ui/login_window.py], [main.py] *)
(* ================================================================== *)

Module MainWindow.

Record t : Type := mk { user : User.t }.

Definition log_audit_action (self : t) (action entity_type : str) (entity_id : Z)
           (description old_values new_values : option str) : M unit :=
  try_except
    (session_add_audit_trail
       (fun id => AuditTrail.mk id (User.id (user self)) None action entity_type
                                entity_id old_values new_values description) ;;;
     session_commit)
    (fun _ => ret tt).

(** [__init__]: the window takes a session of its own, builds its pages
    (which only read) and logs the login. *)
Definition init (u : User.t) : M t :=
  fresh_session ;;;
  let self := mk u in
  log_audit_action self (lit "LOGIN") (lit "User") (User.id u)
    (Some (lit "User '" ++ User.username u ++ lit "' logged in")) None None ;;;
  ret self.

Definition handle_logout (self : t) (confirmed : bool) (st : AuthManager.state)
  : M AuthManager.state :=
  if negb confirmed then ret st
  else
    log_audit_action self (lit "LOGOUT") (lit "User") (User.id (user self))
      (Some (lit "User '" ++ User.username (user self) ++ lit "' logged out"))
      None None ;;;
    ret (AuthManager.logout st).


(** The navigation: the keys of the sidebar buttons, the keys of the pages
    and the page that is shown. *)
Record ui : Type := mkUi
  { nav_buttons : list str;
    pages : list str;
    current_page : option str }.

Definition create_sidebar (self : t) : list str :=
  [lit "dashboard"; lit "inventory"; lit "waste"; lit "reports"]
  ++ (if str_eqb (User.role (user self)) ROLE_ADMIN then [lit "audit"] else []).

Definition switch_page (w : ui) (page_key : str) : ui :=
  if negb (str_in page_key (pages w)) then w
  else mkUi (nav_buttons w) (pages w) (Some page_key).

Definition create_content_pages (self : t) (nav : list str) : ui :=
  let pages :=
    [lit "dashboard"; lit "inventory"; lit "waste"; lit "reports"]
    ++ (if str_eqb (User.role (user self)) ROLE_ADMIN then [lit "audit"] else []) in
  switch_page (mkUi nav pages None) (lit "dashboard").

Definition init_ui (self : t) : ui :=
  create_content_pages self (create_sidebar self).
End MainWindow.

Module BrewMetricApp.

Definition on_login_success (u : User.t) : M (option MainWindow.t) :=
  try_except (w <- MainWindow.init u ;; ret (Some w)) (fun _ => ret None).


Section Startup.
Context {U : UnicodeDb} {B : Bcrypt} {C : Config}.

(** [initialize_database]: the tables are created with one statement, then
    the default admin is looked for in a session of its own, which is
    closed afterwards; the result is [False] exactly when something
    raised. *)
Definition initialize_database (e : entropy) : M bool :=
  try_except
    (execute ;;;
     fresh_session ;;;
     admin <- AuthManager.create_default_admin e ;;
     session_close ;;;
     ret true)
    (fun _ => ret false).

End Startup.
End BrewMetricApp.

Module LoginWindow.
Section Methods.
Context {U : UnicodeDb} {B : Bcrypt} {C : Config}.

Fixpoint lstrip (s : str) : str :=
  match s with
  | [] => []
  | c :: t => if is_space c then lstrip t else s
  end.

(** [str.strip()]. *)
Definition strip (s : str) : str := rev (lstrip (rev (lstrip s))).

(** What the login window shows when it is done with one attempt. *)
Record outcome : Type := mkOutcome
  { auth_state : AuthManager.state;
    main_window : option MainWindow.t;
    error_label : str }.

Definition on_login_error (st : AuthManager.state) : outcome :=
  mkOutcome st None (lit "Invalid username or password").

Definition on_login_complete (st : AuthManager.state) (user : option User.t)
  : M outcome :=
  match user with
  | Some u =>
      let st' := AuthManager.set_current_user u LoginSession st in
      w <- BrewMetricApp.on_login_success u ;;
      ret (mkOutcome st' w [])
  | None => ret (on_login_error st)
  end.

(** [handle_login] hands [authenticate_user] and the two callbacks to
    [ThreadManager.run_in_thread]; the steps of the worker are composed
    here in the order it takes them.  What the Qt calls of the successful
    branch do when they are made from that thread is not modelled. *)
Definition handle_login (st : AuthManager.state) (username_text password_text : str)
  : M outcome :=
  let username := strip username_text in
  let password := password_text in
  match username, password with
  | [], _ | _, [] =>
      ret (mkOutcome st None (lit "Please enter username and password"))
  | _, _ =>
      user <- AuthManager.authenticate_user username password ;;
      on_login_complete st user
  end.

End Methods.
End LoginWindow.

(* ================================================================== *)
(** ** [ui/login_window.py]: the strength bar *)
(* ================================================================== *)

(** [str.islower], [str.isupper] and [str.isdigit] on one character. *)
Class UnicodeCase : Type :=
  { islower : char -> bool;
    isupper : char -> bool;
    isdigit : char -> bool }.

(** The ASCII letters have their case, and a decimal digit is a digit. *)
Class UnicodeCaseLaws (U : UnicodeDb) (K : UnicodeCase) : Prop :=
  { ascii_lower : forall c, in_range "a" "z" c = true -> islower c = true;
    ascii_upper : forall c, in_range "A" "Z" c = true -> isupper c = true;
    decimal_isdigit : forall c, is_decimal c = true -> isdigit c = true }.

Module StrengthBar.
Section Methods.
Context {K : UnicodeCase}.

Definition points (b : bool) (n : Z) : Z := if b then n else 0%Z.

(** [update_password_strength]: the value of the bar and, unless the
    field is empty, the colour of its chunk. *)
Definition update_password_strength (password : str) : Z * option str :=
  match password with
  | [] => (0%Z, None)
  | _ =>
      let strength :=
        (points (Nat.leb 8 (List.length password)) 20
         + points (Nat.leb 12 (List.length password)) 10
         + points (existsb islower password) 15
         + points (existsb isupper password) 15
         + points (existsb isdigit password) 15
         + points (existsb AuthManager.special_char password) 15)%Z in
      (Z.min strength 100,
       Some (if Z.ltb strength 40 then lit "#ff6b6b"
             else if Z.ltb strength 70 then lit "#ffa500"
             else lit "#00a86b"))
  end.

End Methods.
End StrengthBar.

(* ================================================================== *)
(** ** [ui/inventory.py] *)
(* ================================================================== *)

(** [config.STOCK_CATEGORIES]. *)
Class InventoryConfig : Type := { STOCK_CATEGORIES : list str }.

(** [session.add(new_item)]. *)
Definition session_add_item (mk_row : Z -> InventoryItem.t) : M InventoryItem.t :=
  db <- get_working ;;
  let i := mk_row (next_id (map InventoryItem.id (inventory_items db))) in
  set_working (mkDB (users db) (inventory_items db ++ [i])
                    (waste_logs db) (audit_trails db)) ;;;
  ret i.

(** Assignments to the columns of the row loaded with key [item_id]. *)
Fixpoint update_item (item_id : Z) (f : InventoryItem.t -> InventoryItem.t)
         (l : list InventoryItem.t) : list InventoryItem.t :=
  match l with
  | [] => []
  | i :: l' =>
      if Z.eqb (InventoryItem.id i) item_id then f i :: l'
      else i :: update_item item_id f l'
  end.

Definition set_item_columns (item_id : Z) (f : InventoryItem.t -> InventoryItem.t)
  : M unit :=
  db <- get_working ;;
  set_working (mkDB (users db) (update_item item_id f (inventory_items db))
                    (waste_logs db) (audit_trails db)).

(** What the operator does with an open item dialog: [None] leaves a field
    as the dialog shows it. *)
Record ItemInput : Type := mkItemInput
  { type_name : option str;
    pick_category : option nat;
    enter_stock : option Z;
    type_unit : option str;
    enter_threshold : option Z;
    enter_cost : option Z;
    type_location : option str;
    press_save : bool }.

Module AddItemDialog.
Section Methods.
Context {I : InventoryConfig}.

Record t : Type := mk
  { name_input : str;
    category_input : Qt.QComboBox unit;
    qty_input : Z;
    unit_input : str;
    threshold_input : Z;
    cost_input : Z;
    location_input : str;
    name : str;
    category : str;
    quantity : Z;
    unit : str;
    threshold : Z;
    cost : Z;
    location : str }.

(** [__init__] and [init_ui]. *)
Definition init : t :=
  mk [] (Qt.combo_new (map (fun c => (c, tt)) STOCK_CATEGORIES))
     (Qt.spin_setValue 0) (lit "unit") (Qt.spin_setValue 1000) (Qt.spin_setValue 0) []
     [] [] 0%Z (lit "unit") 1000%Z 0%Z [].

Definition or_shown {A} (typed : option A) (shown : A) : A :=
  match typed with Some v => v | None => shown end.

Definition edit (input : ItemInput) (d : t) : t :=
  mk (or_shown (type_name input) (name_input d))
     (match pick_category input with
      | Some n => Qt.combo_pick n (category_input d)
      | None => category_input d
      end)
     (match enter_stock input with
      | Some v => Qt.spin_setValue v
      | None => qty_input d
      end)
     (or_shown (type_unit input) (unit_input d))
     (match enter_threshold input with
      | Some v => Qt.spin_setValue v
      | None => threshold_input d
      end)
     (match enter_cost input with
      | Some v => Qt.spin_setValue v
      | None => cost_input d
      end)
     (or_shown (type_location input) (location_input d))
     (name d) (category d) (quantity d) (unit d) (threshold d) (cost d) (location d).

Definition accept (d : t) : bool * t :=
  match name_input d with
  | [] => (false, d)
  | _ =>
      (true,
       mk (name_input d) (category_input d) (qty_input d) (unit_input d)
          (threshold_input d) (cost_input d) (location_input d)
          (name_input d)
          (Qt.currentText (category_input d))
          (qty_input d)
          (match unit_input d with [] => lit "unit" | u => u end)
          (threshold_input d)
          (cost_input d)
          (location_input d))
  end.

Definition exec (input : ItemInput) (d : t) : bool * t :=
  let d' := edit input d in
  if press_save input then accept d' else (false, d').

End Methods.
End AddItemDialog.

Module EditItemDialog.
Section Methods.
Context {I : InventoryConfig}.

(** [QComboBox.setCurrentText]: the entry with that text becomes the
    current one; when there is none the box stays as it is. *)
Fixpoint find_text {D} (text : str) (es : list (str * D)) (n : nat) : option nat :=
  match es with
  | [] => None
  | e :: es' => if str_eqb (fst e) text then Some n else find_text text es' (S n)
  end.

Definition setCurrentText {D} (text : str) (c : Qt.QComboBox D) : Qt.QComboBox D :=
  match find_text text (Qt.entries c) 0 with
  | Some n => Qt.mkCombo (Qt.entries c) (Some n)
  | None => c
  end.

(** [__init__]: the add dialog, filled from the item. *)
Definition init (item : InventoryItem.t) : AddItemDialog.t :=
  let d := AddItemDialog.init in
  AddItemDialog.mk
    (InventoryItem.name item)
    (setCurrentText (InventoryItem.category item) (AddItemDialog.category_input d))
    (Qt.spin_setValue (InventoryItem.quantity item))
    (InventoryItem.unit item)
    (Qt.spin_setValue (InventoryItem.min_threshold item))
    (Qt.spin_setValue (InventoryItem.unit_cost item))
    (match InventoryItem.location item with Some l => l | None => [] end)
    (AddItemDialog.name d) (AddItemDialog.category d) (AddItemDialog.quantity d)
    (AddItemDialog.unit d) (AddItemDialog.threshold d) (AddItemDialog.cost d)
    (AddItemDialog.location d).

End Methods.
End EditItemDialog.

Inductive item_outcome : Type :=
| PermissionDenied        (* "Only admins can add items" *)
| NothingSelected
| ItemCancelled
| ItemSaved               (* "Item ... added", "Item updated" *)
| ItemFailed (e : exn).

Module InventoryPage.
Section Methods.
Context {I : InventoryConfig}.

Record t : Type := mk { user : User.t }.

Definition load_inventory (self : t) : M unit :=
  try_except (InventoryQueries.get_all_items true ;;; ret tt) (fun _ => ret tt).

Definition show_add_dialog (self : t) (input : ItemInput) : M item_outcome :=
  if negb (str_eqb (User.role (user self)) ROLE_ADMIN) then ret PermissionDenied
  else
    let '(accepted, dialog) := AddItemDialog.exec input AddItemDialog.init in
    if (accepted : bool) then
      try_except
        (session_add_item
           (fun id => InventoryItem.mk id (AddItemDialog.name dialog)
                        (AddItemDialog.category dialog)
                        (AddItemDialog.quantity dialog)
                        (AddItemDialog.unit dialog)
                        (AddItemDialog.threshold dialog)
                        (AddItemDialog.cost dialog)
                        (Some (AddItemDialog.location dialog))
                        false) ;;;
         session_commit ;;;
         load_inventory self ;;;
         ret ItemSaved)
        (fun e => session_rollback ;;; ret (ItemFailed e))
    else ret ItemCancelled.

(** The columns [on_item_double_click] assigns. *)
Definition assign (dialog : AddItemDialog.t) (item : InventoryItem.t) : InventoryItem.t :=
  InventoryItem.mk (InventoryItem.id item) (AddItemDialog.name dialog)
    (AddItemDialog.category dialog) (AddItemDialog.quantity dialog)
    (InventoryItem.unit item) (AddItemDialog.threshold dialog)
    (AddItemDialog.cost dialog) (InventoryItem.location item)
    (InventoryItem.is_deleted item).

(** [current_row] is the key kept in the row that was double-clicked,
    [None] when the table has no current row. *)
Definition on_item_double_click (self : t) (current_row : option Z)
           (input : ItemInput) : M item_outcome :=
  match current_row with
  | None => ret NothingSelected
  | Some item_id =>
      try_except
        (item <- query_item_get item_id ;;
         match item with
         | None => ret NothingSelected
         | Some it =>
             let '(accepted, dialog) := AddItemDialog.exec input (EditItemDialog.init it) in
             if (accepted : bool) then
               set_item_columns item_id (assign dialog) ;;;
               session_commit ;;;
               load_inventory self ;;;
               ret ItemSaved
             else ret ItemCancelled
         end)
        (fun e => ret (ItemFailed e))
  end.

End Methods.
End InventoryPage.

(* ================================================================== *)
(** ** A small installation to run the code on *)
(* ================================================================== *)

Module Sample.

#[export] Instance unicode : UnicodeDb :=
  {| is_decimal := in_range "0" "9";
     is_space := fun c => existsb (N.eqb c) [9; 10; 11; 12; 13; 32]%N |}.

(** A stand-in for the package, with the input limit of bcrypt 5: the hash
    is a tag followed by one letter for each byte of the password. *)
Definition sample_hash (pw : bytes) : bytes :=
  lit "$2b$" ++ map (fun b => (65 + b mod 26)%N) pw.

#[export] Instance bcrypt : Bcrypt :=
  {| entropy := unit;
     salt := unit;
     bcrypt_gensalt := fun _ _ => tt;
     bcrypt_hashpw := fun pw _ =>
       if Nat.leb (List.length pw) BCRYPT_MAX_BYTES then Some (sample_hash pw)
       else None;
     bcrypt_checkpw := fun pw h => Some (str_eqb (sample_hash pw) h) |}.

#[export] Instance config : Config :=
  {| WASTE_REASONS := [lit "expired"; lit "spill"; lit "quality"];
     BCRYPT_ROUNDS := 12 |}.

Definition admin_user : User.t :=
  User.mk 1 (lit "admin") (lit "admin@brewmetric.local") (lit "$2b$x")
          (lit "Administrator") ROLE_ADMIN true None.

(** alice's password is [Abcdef1!]. *)
Definition staff_user : User.t :=
  User.mk 2 (lit "alice") (lit "alice@x.com") (sample_hash (lit "Abcdef1!"))
          (lit "Alice") ROLE_STAFF true None.

(** carol has the same password and is deactivated. *)
Definition inactive_user : User.t :=
  User.mk 4 (lit "carol") (lit "carol@x.com") (sample_hash (lit "Abcdef1!"))
          (lit "Carol") ROLE_STAFF false None.

Definition guest_user : User.t :=
  User.mk 3 (lit "bob") (lit "bob@x.com") (lit "$2b$z")
          (lit "Bob") (lit "guest") true None.

Definition empty_db : DB := mkDB [] [] [] [].

Definition tea : InventoryItem.t :=
  InventoryItem.mk 1 (lit "Pearl Tea") (lit "Tea") 500 (lit "kg") 1000 250 None false.

(** One staff user and one item with 5.00 on hand. *)
Definition shop_db : DB := mkDB [staff_user] [tea] [] [].

Definition people_db : DB := mkDB [staff_user; inactive_user] [] [] [].

#[export] Instance unicode_case : UnicodeCase :=
  {| islower := in_range "a" "z";
     isupper := in_range "A" "Z";
     isdigit := in_range "0" "9" |}.

#[export] Instance inventory_config : InventoryConfig :=
  {| STOCK_CATEGORIES := [lit "Tea"; lit "Milk"; lit "Toppings"] |}.

Definition milk : InventoryItem.t :=
  InventoryItem.mk 2 (lit "Fresh Milk") (lit "Milk") 300 (lit "L") 200 120 None false.

(** A row that was soft-deleted. *)
Definition old_cups : InventoryItem.t :=
  InventoryItem.mk 3 (lit "Cups") (lit "Tea") 100 (lit "box") 1000 50 None true.

Definition stock_db : DB := mkDB [staff_user] [tea; milk; old_cups] [] [].

(** The username [admin] is held by a staff user. *)
Definition squatter : User.t :=
  User.mk 5 (lit "admin") (lit "eve@x.com") (lit "$2b$q") (lit "Eve") ROLE_STAFF
          true None.

Definition squatted_db : DB := mkDB [squatter] [] [] [].

(** The tea, expiring 7 days and 23 hours after time 0. *)
Definition dated_tea : Dated.t :=
  Dated.mk tea (Some (7 * Dated.day + 23 * 3600000000)%Z).

End Sample.

(* ================================================================== *)
(** ** Vocabulary of the properties *)
(* ================================================================== *)

(** The [users] table with one more row. *)
Definition add_user_row (db : DB) (u : User.t) : DB :=
  mkDB (users db ++ [u]) (inventory_items db) (waste_logs db) (audit_trails db).

(** The row [create_user] builds, with the key the table gives it. *)
Definition created_user (db : DB) (username email hashed full_name role : str)
  : User.t :=
  User.mk (next_id (map User.id (users db))) username email hashed full_name
          role true None.

Definition username_taken (db : DB) (username : str) : bool :=
  existsb (fun u => str_eqb (User.username u) username) (users db).

Definition email_taken (db : DB) (email : str) : bool :=
  existsb (fun u => str_eqb (User.email u) email) (users db).

Section Validations.
Context {U : UnicodeDb}.

(** The three format and strength checks of [create_user]. *)
Definition validations_pass (username email password : str) : bool :=
  fst (AuthManager.validate_username username)
  && fst (AuthManager.validate_email email)
  && fst (AuthManager.validate_password_strength password).
End Validations.

Definition is_admin (u : User.t) : bool := str_eqb (User.role u) ROLE_ADMIN.

Section DefaultAdmin.
Context {B : Bcrypt} {C : Config}.

(** The row of the default administrator, as [create_default_admin]
    creates it in a table [db] with the salt drawn from [e]; bcrypt takes
    the 12 bytes of the default password. *)
Definition default_admin_row (db : DB) (e : entropy) : User.t :=
  created_user db (lit "admin") (lit "admin@brewmetric.local")
    (match bcrypt_hashpw (lit "Admin@123456") (bcrypt_gensalt BCRYPT_ROUNDS e) with
     | Some h => h
     | None => []
     end)
    (lit "Administrator") ROLE_ADMIN.
End DefaultAdmin.

(** The row of an item, its quantity, and the write-offs logged for it. *)
Definition item_row (db : DB) (item_id : Z) : option InventoryItem.t :=
  find (fun i => Z.eqb (InventoryItem.id i) item_id) (inventory_items db).

Definition quantity_of (db : DB) (item_id : Z) : option Z :=
  option_map InventoryItem.quantity (item_row db item_id).




(** The quantity the operator asks to write off: the value of the spin
    box. *)
Definition requested_quantity (input : WasteInput) : Z :=
  Qt.spin_setValue (enter_quantity input).

(** The committed rows after a write-off of [q] on item [it]: the
    decrement and the log row together. *)
Definition written_off (db : DB) (it : InventoryItem.t) (user_id q : Z)
           (reason notes : str) : DB :=
  mkDB (users db)
       (update_item_quantity (InventoryItem.id it)
          (Z.max 0 (InventoryItem.quantity it - q)) (inventory_items db))
       (waste_logs db
          ++ [WasteLog.mk (next_id (map WasteLog.id (waste_logs db)))
                          (InventoryItem.id it) user_id q reason notes])
       (audit_trails db).

(** The inputs of the dialogs that ended with "Waste entry recorded". *)
Fixpoint recorded (outcomes : list waste_outcome) (inputs : list WasteInput)
  : list WasteInput :=
  match outcomes, inputs with
  | Recorded :: os, i :: is_ => i :: recorded os is_
  | _ :: os, _ :: is_ => recorded os is_
  | _, _ => []
  end.

(** Text that UTF-8 encodes in at most the 72 bytes bcrypt reads. *)
Definition within_bcrypt_limit (password : str) : bool :=
  match utf8_encode password with
  | Some pw => Nat.leb (List.length pw) BCRYPT_MAX_BYTES
  | None => false
  end.


(** Keys are distinct in a table: usernames, e-mail addresses, row ids. *)
Definition users_unique (db : DB) : Prop :=
  NoDup (map User.username (users db))
  /\ NoDup (map User.email (users db))
  /\ NoDup (map User.id (users db)).

(** The audit row the main window writes for a logout. *)
Definition logout_audit_row (db : DB) (u : User.t) : AuditTrail.t :=
  AuditTrail.mk (next_id (map AuditTrail.id (audit_trails db))) (User.id u) None
                (lit "LOGOUT") (lit "User") (User.id u) None None
                (Some (lit "User '" ++ User.username u ++ lit "' logged out")).

(** The [audit_trails] table with one more row. *)
Definition add_audit_row (db : DB) (a : AuditTrail.t) : DB :=
  mkDB (users db) (inventory_items db) (waste_logs db) (audit_trails db ++ [a]).

(** Row [j] is row [i] with a quantity that is not negative and not above
    the quantity of [i]; every other column is the same. *)
Definition lowered (i j : InventoryItem.t) : Prop :=
  j = InventoryItem.set_quantity i (InventoryItem.quantity j)
  /\ (0 <= InventoryItem.quantity j <= InventoryItem.quantity i)%Z.

Definition stock_not_negative (db : DB) : Prop :=
  Forall (fun i => (0 <= InventoryItem.quantity i)%Z) (inventory_items db).

Definition costs_not_negative (db : DB) : Prop :=
  Forall (fun i => (0 <= InventoryItem.unit_cost i)%Z) (inventory_items db).

(** The value [get_total_inventory_value] computes from the rows. *)
Definition inventory_value (db : DB) : Z :=
  InventoryQueries.py_sum
    (map InventoryItem.get_stock_value
         (filter (fun i => negb (InventoryItem.is_deleted i)) (inventory_items db))).

(** The orders of the query results. *)
Definition name_le (a b : InventoryItem.t) : Prop :=
  str_leb (InventoryItem.name a) (InventoryItem.name b) = true.

Definition quantity_le (a b : InventoryItem.t) : Prop :=
  (InventoryItem.quantity a <= InventoryItem.quantity b)%Z.

(** The [inventory_items] table with one more row. *)
Definition add_item_row (db : DB) (i : InventoryItem.t) : DB :=
  mkDB (users db) (inventory_items db ++ [i]) (waste_logs db) (audit_trails db).

(** The [inventory_items] table with other rows. *)
Definition with_items (db : DB) (l : list InventoryItem.t) : DB :=
  mkDB (users db) l (waste_logs db) (audit_trails db).

(** Stock within the range of the spin box, 0.00 to 99.99. *)
Definition stock_in_range (db : DB) : Prop :=
  Forall (fun i => (0 <= InventoryItem.quantity i <= 9999)%Z) (inventory_items db).

(* ================================================================== *)
(** ** The language of a pattern *)
(* ================================================================== *)

Module ReLang.

(** The words a pattern matches in full. *)
Inductive Matches : Re.regex -> str -> Prop :=
| MEps : Matches Re.Eps []
| MClass (p : char -> bool) (c : char) : p c = true -> Matches (Re.Class p) [c]
| MSeq (r1 r2 : Re.regex) (s1 s2 : str) :
    Matches r1 s1 -> Matches r2 s2 -> Matches (Re.Seq r1 r2) (s1 ++ s2)
| MAltL (r1 r2 : Re.regex) (s : str) : Matches r1 s -> Matches (Re.Alt r1 r2) s
| MAltR (r1 r2 : Re.regex) (s : str) : Matches r2 s -> Matches (Re.Alt r1 r2) s
| MStarNil (r : Re.regex) : Matches (Re.Star r) []
| MStarApp (r : Re.regex) (s1 s2 : str) :
    Matches r s1 -> Matches (Re.Star r) s2 -> Matches (Re.Star r) (s1 ++ s2).

(** What [$] lets through: the word itself or the word with one newline
    after it. *)
Definition up_to_newline (P : str -> Prop) (s : str) : Prop :=
  P s \/ exists t, s = t ++ [10%N] /\ P t.

(** The shape of a username: a letter or underscore, then letters, digits
    and underscores. *)
Definition username_shape (s : str) : Prop :=
  exists c t, s = c :: t
              /\ AuthManager.name_start c = true
              /\ forallb AuthManager.name_char t = true.

(** The shape of an e-mail address: [local@domain.tld]. *)
Definition email_shape (s : str) : Prop :=
  exists local domain tld,
    s = local ++ [ch "@"] ++ domain ++ [ch "."] ++ tld
    /\ local <> [] /\ forallb AuthManager.local_char local = true
    /\ domain <> [] /\ forallb AuthManager.domain_char domain = true
    /\ (2 <= List.length tld)%nat /\ forallb AuthManager.alpha tld = true.

End ReLang.

(* ================================================================== *)
(** * Properties *)
(* ================================================================== *)

(** ** Strings *)

Lemma str_eqb_eq (a b : str) : str_eqb a b = true <-> a = b.
Proof.
  revert b; induction a as [|x a IH]; intros [|y b]; simpl; split;
    try congruence; try reflexivity.
  - intros H. apply andb_true_iff in H as [Hx Hab].
    apply N.eqb_eq in Hx. apply IH in Hab. congruence.
  - intros H. injection H as -> ->. rewrite N.eqb_refl. simpl. now apply IH.
Qed.

Lemma str_eqb_refl (a : str) : str_eqb a a = true.
Proof. now apply str_eqb_eq. Qed.

Lemma str_eqb_neq (a b : str) : str_eqb a b = false <-> a <> b.
Proof.
  split.
  - intros H E. apply str_eqb_eq in E. congruence.
  - intros H. destruct (str_eqb a b) eqn:E; [|reflexivity].
    apply str_eqb_eq in E. contradiction.
Qed.

Lemma str_in_In (x : str) (xs : list str) : str_in x xs = true <-> In x xs.
Proof.
  unfold str_in. rewrite existsb_exists. split.
  - intros (y & Hy & E). apply str_eqb_eq in E. now subst.
  - intros H. exists x. split; [assumption | apply str_eqb_refl].
Qed.

(** ** The permission check *)

(** C3. The permission check depends on the user's role and the action
    only: a user with role admin is permitted every action, a user with
    role staff is permitted exactly the six actions of the allow-list, and
    with no user every action is denied. *)
Theorem has_permission_by_role (u : User.t) (action : str) :
  (User.role u = ROLE_ADMIN -> AuthManager.has_permission (Some u) action = true)
  /\ (User.role u = ROLE_STAFF ->
      (AuthManager.has_permission (Some u) action = true
       <-> In action [lit "view_inventory"; lit "add_item"; lit "adjust_stock";
                      lit "record_waste"; lit "view_activity";
                      lit "export_inventory"]))
  /\ AuthManager.has_permission None action = false
  /\ (forall u', User.role u' = User.role u ->
        AuthManager.has_permission (Some u') action
        = AuthManager.has_permission (Some u) action).
Proof.
  unfold AuthManager.has_permission. repeat split.
  - intros ->. now rewrite str_eqb_refl.
  - rewrite H. change (str_eqb ROLE_STAFF ROLE_ADMIN) with false.
    rewrite str_eqb_refl. apply str_in_In.
  - rewrite H. change (str_eqb ROLE_STAFF ROLE_ADMIN) with false.
    rewrite str_eqb_refl. apply str_in_In.
  - intros u' ->. reflexivity.
Qed.

Lemma has_permission_by_role_witness :
  AuthManager.has_permission (Some Sample.admin_user) (lit "delete_item") = true
  /\ AuthManager.has_permission (Some Sample.staff_user) (lit "delete_item") = false
  /\ AuthManager.has_permission (Some Sample.staff_user) (lit "record_waste") = true
  /\ AuthManager.has_permission None (lit "delete_item") = false.
Proof.
  split; [|split; [|split]].
  - apply (has_permission_by_role Sample.admin_user (lit "delete_item")).
    reflexivity.
  - reflexivity.
  - destruct (has_permission_by_role Sample.staff_user (lit "record_waste"))
      as (_ & Hstaff & _).
    apply Hstaff; [reflexivity | simpl; tauto].
  - apply (has_permission_by_role Sample.admin_user (lit "delete_item")).
Defined.

(** ** Running code against a session *)

Ltac unfold_session :=
  unfold query_user_first, query_item_get, session_add_user,
    session_add_waste_log, session_add_audit_trail, session_refresh,
    session_commit, session_rollback, fresh_session, set_item_quantity,
    get_session, lift_result, try_except, bind, ret, raise,
    get_working, set_working, execute in *.

(** Case analysis on the next entry of the fault schedule. *)
Ltac next_fault :=
  match goal with
  | |- context [match ?fs with [] => _ | _ :: _ => _ end] =>
      is_var fs; destruct fs as [|[|] ?]; simpl
  end.

Lemma reliable_tail (p w : DB) (f : bool) (fs : list bool) :
  reliable (mkSession p w (f :: fs)) -> f = false /\ reliable (mkSession p w fs).
Proof.
  unfold reliable; simpl. intros H. inversion H; subst. split; [reflexivity|assumption].
Qed.

Lemma execute_reliable (s : Session) :
  reliable s ->
  exists fs, execute s = (Ok tt, mkSession (persisted s) (working s) fs)
             /\ Forall (fun f => f = false) fs.
Proof.
  destruct s as [p w fs]. unfold execute; simpl. intros H.
  destruct fs as [|f fs].
  - exists []. split; [reflexivity | constructor].
  - apply reliable_tail in H as [-> H]. exists fs. split; [reflexivity | exact H].
Qed.

Lemma execute_dbs (s : Session) :
  persisted (snd (execute s)) = persisted s /\ working (snd (execute s)) = working s.
Proof.
  destruct s as [p w fs]. unfold execute; simpl.
  destruct fs as [|[|] fs]; simpl; split; reflexivity.
Qed.

(** ** Authentication *)

Section Authentication.
Context {U : UnicodeDb} {B : Bcrypt} {C : Config}.

(** C4. [authenticate_user] never raises; it returns [None] when the
    username is not found, when the user is inactive and when the
    password does not verify, the same value in the three cases; and it
    returns a user exactly when the lookup finds that user, the user is
    active and the password verifies (and the query itself went
    through). *)
Theorem authenticate_user_fails_closed (s : Session) (username password : str) :
  let lookup := find (fun u => str_eqb (User.username u) username) (users (working s)) in
  let r := fst (AuthManager.authenticate_user username password s) in
  (lookup = None -> r = Ok None)
  /\ (forall u, lookup = Some u -> User.is_active u = false -> r = Ok None)
  /\ (forall u, lookup = Some u ->
        AuthManager.verify_password password (User.password_hash u) = false ->
        r = Ok None)
  /\ (forall u, r = Ok (Some u) <->
        lookup = Some u /\ User.is_active u = true
        /\ AuthManager.verify_password password (User.password_hash u) = true
        /\ hd false (faults s) = false)
  /\ (exists v, r = Ok v)
  /\ persisted (snd (AuthManager.authenticate_user username password s)) = persisted s.
Proof.
  destruct s as [p w fs]. unfold AuthManager.authenticate_user. unfold_session.
  cbv zeta.
  destruct fs as [|[|] fs]; simpl;
    destruct (find (fun u => str_eqb (User.username u) username) (users w))
      as [u0|] eqn:El; simpl;
    try destruct (User.is_active u0) eqn:Ea; simpl;
    try destruct (AuthManager.verify_password password (User.password_hash u0)) eqn:Ev;
    simpl;
    repeat split; intros; try congruence; eauto;
    repeat match goal with
           | H : _ /\ _ |- _ => destruct H
           | H : Some _ = Some _ |- _ => injection H as H; subst
           | H : Ok _ = Ok _ |- _ => injection H as H; subst
           end; try congruence; try discriminate.
Qed.

Lemma ascii_encode (bs : bytes) :
  Forall (fun b => (b < 128)%N) bs -> utf8_encode bs = Some bs.
Proof.
  induction 1 as [|b bs Hb _ IH]; simpl; [reflexivity|].
  unfold utf8_encode_char. apply N.ltb_lt in Hb. rewrite Hb, IH. reflexivity.
Qed.

Lemma ascii_decode (bs : bytes) :
  Forall (fun b => (b < 128)%N) bs -> utf8_decode bs = Some bs.
Proof.
  induction 1 as [|b bs Hb _ IH]; simpl; [reflexivity|].
  apply N.ltb_lt in Hb. rewrite Hb, IH. reflexivity.
Qed.

Context {BL : BcryptLaws B}.

Lemma hash_password_returns (password : str) (pw : bytes) (e : entropy) :
  utf8_encode password = Some pw ->
  (List.length pw <= BCRYPT_MAX_BYTES)%nat ->
  exists h,
    bcrypt_hashpw pw (bcrypt_gensalt BCRYPT_ROUNDS e) = Some h
    /\ AuthManager.hash_password password e = Ok h.
Proof.
  intros E Hlen. unfold AuthManager.hash_password. rewrite E.
  destruct (bcrypt_hashpw pw (bcrypt_gensalt BCRYPT_ROUNDS e)) as [h|] eqn:Eh.
  - exists h. rewrite (ascii_decode (hashpw_ascii _ _ Eh)). auto.
  - exfalso. exact (hashpw_accepts _ _ Hlen Eh).
Qed.

(** Whatever [hash_password] returns verifies against the password. *)
Lemma hash_password_verifies (password hashed : str) (e : entropy) :
  AuthManager.hash_password password e = Ok hashed ->
  AuthManager.verify_password password hashed = true.
Proof.
  unfold AuthManager.hash_password, AuthManager.verify_password.
  destruct (utf8_encode password) as [pw|]; [|discriminate].
  destruct (bcrypt_hashpw pw (bcrypt_gensalt BCRYPT_ROUNDS e)) as [h|] eqn:Eh;
    [|discriminate].
  rewrite (ascii_decode (hashpw_ascii _ _ Eh)). intros [= <-].
  rewrite (ascii_encode (hashpw_ascii _ _ Eh)).
  now rewrite (checkpw_hashpw _ _ Eh).
Qed.

(** C9, as the code has it. Hash-then-verify: a password that UTF-8
    encodes in at most 72 bytes, whether it meets the strength policy or
    not, is hashed without an exception, and verifying it against that
    hash gives true, whatever salt was drawn; and whatever hash
    [hash_password] returns for any password verifies against that
    password. *)
Theorem verify_own_hash (password : str) (e : entropy) :
  (within_bcrypt_limit password = true ->
   exists hashed,
     AuthManager.hash_password password e = Ok hashed
     /\ AuthManager.verify_password password hashed = true)
  /\ (forall hashed,
        AuthManager.hash_password password e = Ok hashed ->
        AuthManager.verify_password password hashed = true).
Proof.
  split.
  - unfold within_bcrypt_limit.
    destruct (utf8_encode password) as [pw|] eqn:E; [|discriminate].
    intros Hlen. apply Nat.leb_le in Hlen.
    destruct (hash_password_returns password e E Hlen) as (h & _ & Hh).
    exists h. split; [exact Hh|]. exact (hash_password_verifies _ _ Hh).
  - intros hashed Hh. exact (hash_password_verifies _ _ Hh).
Qed.

End Authentication.

#[export] Instance sample_bcrypt_laws : BcryptLaws Sample.bcrypt.
Proof.
  split; cbn [bcrypt_hashpw bcrypt_checkpw Sample.bcrypt].
  - intros pw _ Hlen. apply Nat.leb_le in Hlen. rewrite Hlen. discriminate.
  - intros pw _ h. destruct (Nat.leb (List.length pw) BCRYPT_MAX_BYTES);
      [|discriminate].
    intros [= <-]. now rewrite str_eqb_refl.
  - intros pw _ h. destruct (Nat.leb (List.length pw) BCRYPT_MAX_BYTES);
      [|discriminate].
    intros [= <-]. unfold Sample.sample_hash. apply Forall_app. split.
    + repeat constructor.
    + apply Forall_forall. intros b Hb. apply in_map_iff in Hb as (x & <- & _).
      pose proof (N.mod_upper_bound x 26). lia.
Qed.

#[export] Instance sample_unicode_laws : UnicodeDbLaws Sample.unicode.
Proof. split. intros c H. exact H. Qed.

Section AuthenticationOnSample.
Import Sample.

Lemma authenticate_user_fails_closed_witness :
let s := get_session Sample.people_db [] in
fst (AuthManager.authenticate_user (lit "nobody") (lit "Abcdef1!") s) = Ok None
/\ fst (AuthManager.authenticate_user (lit "carol") (lit "Abcdef1!") s) = Ok None
/\ fst (AuthManager.authenticate_user (lit "alice") (lit "Abcdef2!") s) = Ok None
/\ fst (AuthManager.authenticate_user (lit "alice") (lit "Abcdef1!") s)
   = Ok (Some Sample.staff_user).
Proof.
intros s.
split; [|split; [|split]].
- destruct (authenticate_user_fails_closed s (lit "nobody") (lit "Abcdef1!"))
    as (H & _). apply H. reflexivity.
- destruct (authenticate_user_fails_closed s (lit "carol") (lit "Abcdef1!"))
    as (_ & H & _). apply (H Sample.inactive_user); reflexivity.
- destruct (authenticate_user_fails_closed s (lit "alice") (lit "Abcdef2!"))
    as (_ & _ & H & _). apply (H Sample.staff_user); reflexivity.
- destruct (authenticate_user_fails_closed s (lit "alice") (lit "Abcdef1!"))
    as (_ & _ & _ & H & _). apply H. repeat split; reflexivity.
Defined.

Lemma verify_own_hash_witness :
exists hashed,
  AuthManager.hash_password (lit "Abcdef1!") tt = Ok hashed
  /\ AuthManager.verify_password (lit "Abcdef1!") hashed = true.
Proof.
destruct (verify_own_hash (B := bcrypt) (C := config)
            (lit "Abcdef1!") tt) as [H _].
apply H. reflexivity.
Defined.

(** C9 fails on the code for a password that meets the policy and cannot
    be hashed: one with a lone surrogate, which UTF-8 does not encode, and
    one of 73 bytes, which bcrypt 5 refuses. *)
Lemma strong_password_without_hash :
let lone := lit "Abcdef1!" ++ [55296%N] in
let long := lit "Abcdef1!" ++ repeat (ch "a") 65 in
(fst (AuthManager.validate_password_strength lone) = true
 /\ AuthManager.hash_password lone tt = Raise UnicodeEncodeError
 /\ ~ (exists hashed, AuthManager.hash_password lone tt = Ok hashed
                      /\ AuthManager.verify_password lone hashed = true))
/\ (fst (AuthManager.validate_password_strength long) = true
    /\ AuthManager.hash_password long tt = Raise ValueError
    /\ ~ (exists hashed, AuthManager.hash_password long tt = Ok hashed
                         /\ AuthManager.verify_password long hashed = true)).
Proof.
cbv zeta. split; (split; [reflexivity|]; split; [reflexivity|]);
  intros (hashed & H & _); vm_compute in H; discriminate.
Qed.

End AuthenticationOnSample.

(** ** Creating users *)

Lemma find_existsb {A} (p : A -> bool) (l : list A) :
  existsb p l = match find p l with Some _ => true | None => false end.
Proof.
  induction l as [|x l IH]; simpl; [reflexivity|].
  destruct (p x); simpl; [reflexivity | exact IH].
Qed.

(** Case analysis along the code: the fault schedule, the lookups and the
    hashing. *)
Ltac walk :=
  repeat match goal with
    | |- context [match ?fs with [] => _ | _ :: _ => _ end] =>
        is_var fs; destruct fs as [|[|] ?]; simpl
    | |- context [match find ?q ?l with _ => _ end] =>
        destruct (find q l) eqn:?; simpl
    | |- context [match AuthManager.hash_password ?a ?b with _ => _ end] =>
        destruct (AuthManager.hash_password a b) eqn:?; simpl
    end.

(** A schedule that holds a fault is not reliable. *)
Ltac unreliable :=
  exfalso; unfold reliable in *; simpl in *;
  repeat match goal with
    | H : Forall _ (_ :: _) |- _ => inversion H; clear H; subst
    end;
  congruence.

Section CreateUser.
Context {U : UnicodeDb} {B : Bcrypt} {C : Config}.

(** What [create_user] does on a clean session when the storage layer
    does not fail. *)
Lemma create_user_reliable
      (s : Session) (username email password full_name role : str) (e : entropy) :
  clean s -> reliable s ->
  let out := AuthManager.create_user username email password full_name role e s in
  reliable (snd out) /\ clean (snd out)
  /\ if validations_pass username email password
        && negb (username_taken (working s) username)
        && negb (email_taken (working s) email)
     then
       match AuthManager.hash_password password e with
       | Ok hashed =>
           let u := created_user (persisted s) username email hashed full_name role in
           (exists msg, fst out = Ok (true, msg, Some u))
           /\ persisted (snd out) = add_user_row (persisted s) u
       | Raise _ =>
           (exists msg, fst out = Ok (false, msg, None))
           /\ persisted (snd out) = persisted s
       end
     else
       (exists msg, fst out = Ok (false, msg, None))
       /\ persisted (snd out) = persisted s.
Proof.
  unfold validations_pass, username_taken, email_taken.
  rewrite !find_existsb.
  destruct s as [p w fs]. unfold clean, reliable. simpl. intros -> Hfs.
  unfold AuthManager.create_user.
  destruct (AuthManager.validate_username username) as [[|] m1]; simpl;
    [|unfold ret; simpl; eauto].
  destruct (AuthManager.validate_email email) as [[|] m2]; simpl;
    [|unfold ret; simpl; eauto].
  destruct (AuthManager.validate_password_strength password) as [[|] m3]; simpl;
    [|unfold ret; simpl; eauto].
  unfold_session. simpl. walk.
  all: try solve [unreliable].
  all: repeat match goal with
         | H : Forall _ (_ :: _) |- _ => inversion H; clear H; subst
         end.
  all: unfold add_user_row, created_user; simpl; eauto 10.
Qed.

(** C5. [create_user]: a failed format or strength check gives a typed
    failure and leaves the session as it was; a taken username or email
    leaves the rows as they were and gives a typed failure; the committed
    rows change only when every check has passed, and then by exactly the
    new row, which carries the hash of the password; and when every
    check passes the user is persisted and returned. *)
Theorem create_user_writes_only_when_checked
        (s : Session) (username email password full_name role : str) (e : entropy) :
  let out := AuthManager.create_user username email password full_name role e s in
  (validations_pass username email password = false ->
     exists msg, out = (Ok (false, msg, None), s))
  /\ (validations_pass username email password = true ->
      username_taken (working s) username || email_taken (working s) email = true ->
      persisted (snd out) = persisted s /\ working (snd out) = working s
      /\ (reliable s -> exists msg, fst out = Ok (false, msg, None)))
  /\ (clean s -> persisted (snd out) <> persisted s ->
      validations_pass username email password = true
      /\ username_taken (working s) username = false
      /\ email_taken (working s) email = false
      /\ exists hashed,
           AuthManager.hash_password password e = Ok hashed
           /\ persisted (snd out)
              = add_user_row (persisted s)
                  (created_user (persisted s) username email hashed full_name role))
  /\ (clean s -> reliable s ->
      validations_pass username email password = true ->
      username_taken (working s) username = false ->
      email_taken (working s) email = false ->
      forall hashed, AuthManager.hash_password password e = Ok hashed ->
      let u := created_user (persisted s) username email hashed full_name role in
      (exists msg, fst out = Ok (true, msg, Some u))
      /\ persisted (snd out) = add_user_row (persisted s) u
      /\ User.password_hash u = hashed).
Proof.
  cbv zeta. split; [|split; [|split]].
  4: { intros Hc Hr Hv Hu He hashed Hh.
       pose proof (create_user_reliable username email password full_name role e Hc Hr)
         as (_ & _ & H).
       rewrite Hv, Hu, He, Hh in H. simpl in H. destruct H as [H1 H2].
       repeat split; assumption. }
  all: unfold validations_pass, username_taken, email_taken;
    rewrite ?find_existsb;
    destruct s as [p w fs]; unfold clean, reliable; simpl;
    unfold AuthManager.create_user;
    (destruct (AuthManager.validate_username username) as [[|] m1]; simpl;
     [|unfold ret; intros; try discriminate; try congruence; eauto]);
    (destruct (AuthManager.validate_email email) as [[|] m2]; simpl;
     [|unfold ret; intros; try discriminate; try congruence; eauto]);
    (destruct (AuthManager.validate_password_strength password) as [[|] m3]; simpl;
     [|unfold ret; intros; try discriminate; try congruence; eauto]);
    unfold_session; simpl; walk;
    repeat split; intros; subst; try discriminate; try congruence; eauto;
    try solve [unreliable]; try (exfalso; congruence).
Qed.

(** The row [create_user] returns is the row it built from its
    arguments. *)
Lemma create_user_returns_row
      (s : Session) (username email password full_name role : str) (e : entropy)
      (msg : str) (u : User.t) :
  fst (AuthManager.create_user username email password full_name role e s)
  = Ok (true, msg, Some u) ->
  exists hashed,
    AuthManager.hash_password password e = Ok hashed
    /\ u = created_user (working s) username email hashed full_name role.
Proof.
  destruct s as [p w fs]. simpl. unfold AuthManager.create_user.
  destruct (AuthManager.validate_username username) as [[|] m1]; simpl;
    [|unfold ret; simpl; intros; discriminate].
  destruct (AuthManager.validate_email email) as [[|] m2]; simpl;
    [|unfold ret; simpl; intros; discriminate].
  destruct (AuthManager.validate_password_strength password) as [[|] m3]; simpl;
    [|unfold ret; simpl; intros; discriminate].
  unfold_session. simpl. walk.
  all: intros H; try discriminate; injection H as _ <-; eauto.
Qed.

End CreateUser.

Section CreateUserOnSample.
Import Sample.

Lemma create_user_writes_only_when_checked_witness :
let s := get_session empty_db [] in
let out := AuthManager.create_user (lit "alice") (lit "alice@x.com")
             (lit "Abcdef1!") (lit "Alice") ROLE_STAFF tt s in
let again := AuthManager.create_user (lit "alice") (lit "alice@x.com")
               (lit "Abcdef1!") (lit "Alice") ROLE_STAFF tt (snd out) in
(exists msg, fst out = Ok (true, msg, Some (User.mk 1 (lit "alice") (lit "alice@x.com")
                                   (sample_hash (lit "Abcdef1!")) (lit "Alice")
                                   ROLE_STAFF true None)))
/\ persisted (snd again) = persisted (snd out)
/\ (exists msg, fst again = Ok (false, msg, None)).
Proof.
intros s out again. split; [|split].
- destruct (create_user_writes_only_when_checked (U := unicode) (B := bcrypt)
              (C := config) s (lit "alice") (lit "alice@x.com")
              (lit "Abcdef1!") (lit "Alice") ROLE_STAFF tt) as (_ & _ & _ & H).
  apply (H eq_refl) with (hashed := sample_hash (lit "Abcdef1!"));
    try reflexivity.
  constructor.
- destruct (create_user_writes_only_when_checked (U := unicode) (B := bcrypt)
              (C := config) (snd out) (lit "alice")
              (lit "alice@x.com") (lit "Abcdef1!") (lit "Alice") ROLE_STAFF tt)
    as (_ & H & _).
  apply H; reflexivity.
- destruct (create_user_writes_only_when_checked (U := unicode) (B := bcrypt)
              (C := config) (snd out) (lit "alice")
              (lit "alice@x.com") (lit "Abcdef1!") (lit "Alice") ROLE_STAFF tt)
    as (_ & H & _).
  apply H; try reflexivity. constructor.
Defined.

End CreateUserOnSample.

(** ** Unknown roles *)

Section UnknownRoles.
Context {U : UnicodeDb} {B : Bcrypt} {C : Config}.

(** C10. A user whose role is neither admin nor staff is denied every
    action; [create_user] stores the role it is given without looking at
    it, so such a user can be created, and is then denied everything. *)
Theorem unknown_role_is_denied (role : str) :
  role <> ROLE_ADMIN -> role <> ROLE_STAFF ->
  (forall u action,
      User.role u = role -> AuthManager.has_permission (Some u) action = false)
  /\ (forall s username email password full_name e msg u,
        fst (AuthManager.create_user username email password full_name role e s)
        = Ok (true, msg, Some u) ->
        User.role u = role
        /\ forall action, AuthManager.has_permission (Some u) action = false).
Proof.
  intros Ha Hs.
  assert (Hdeny : forall u action, User.role u = role ->
                    AuthManager.has_permission (Some u) action = false).
  { intros u action <-. unfold AuthManager.has_permission.
    apply str_eqb_neq in Ha, Hs. now rewrite Ha, Hs. }
  split; [exact Hdeny|].
  intros s username email password full_name e msg u H.
  apply create_user_returns_row in H as (hashed & _ & ->).
  split; [reflexivity|]. intros action. now apply Hdeny.
Qed.

End UnknownRoles.

Section UnknownRolesOnSample.
Import Sample.

Lemma unknown_role_is_denied_witness :
AuthManager.has_permission (Some guest_user) (lit "view_inventory") = false
/\ exists msg u,
     fst (AuthManager.create_user (lit "bob") (lit "bob@x.com") (lit "Abcdef1!")
            (lit "Bob") (lit "guest") tt (get_session empty_db []))
     = Ok (true, msg, Some u)
     /\ AuthManager.has_permission (Some u) (lit "view_inventory") = false.
Proof.
destruct (unknown_role_is_denied (U := unicode) (B := bcrypt) (C := config)
            (role := lit "guest")) as [H1 H2]; try discriminate.
split.
- apply H1. reflexivity.
- pose (row := User.mk 1 (lit "bob") (lit "bob@x.com")
                 (sample_hash (lit "Abcdef1!")) (lit "Bob") (lit "guest")
                 true None).
  destruct (H2 (get_session empty_db []) (lit "bob") (lit "bob@x.com")
               (lit "Abcdef1!") (lit "Bob") tt
               (lit "User created successfully") row eq_refl) as [_ Hd].
  exists (lit "User created successfully"), row.
  split; [reflexivity | apply Hd].
Defined.

End UnknownRolesOnSample.

(** ** The default administrator *)

Lemma find_app_none {A} (p : A -> bool) (l : list A) (x : A) :
  find p l = None -> find p (l ++ [x]) = if p x then Some x else None.
Proof.
  induction l as [|y l IH]; simpl; [reflexivity|].
  destruct (p y); [discriminate | exact IH].
Qed.

Lemma query_user_first_reliable (p : User.t -> bool) (s : Session) :
  reliable s ->
  exists fs,
    query_user_first p s
    = (Ok (find p (users (working s))), mkSession (persisted s) (working s) fs)
    /\ Forall (fun f => f = false) fs.
Proof.
  intros H. destruct s as [pd w fs]. unfold_session. simpl.
  destruct fs as [|[|] fs]; simpl.
  - exists []. split; [reflexivity | constructor].
  - unreliable.
  - exists fs. split; [reflexivity|]. unfold reliable in H. simpl in H.
    now inversion H.
Qed.

Section DefaultAdminProperties.
Context {U : UnicodeDb} {B : Bcrypt} {C : Config} {BL : BcryptLaws B}.

(** Whether the default credentials can be entered in table [db]. *)
Let default_admin_free (db : DB) : bool :=
  validations_pass (lit "admin") (lit "admin@brewmetric.local") (lit "Admin@123456")
  && negb (username_taken db (lit "admin"))
  && negb (email_taken db (lit "admin@brewmetric.local")).

(** What [create_default_admin] does on a clean session when the storage
    layer does not fail. *)
Lemma create_default_admin_reliable (s : Session) (e : entropy) :
  clean s -> reliable s ->
  let out := AuthManager.create_default_admin e s in
  reliable (snd out) /\ clean (snd out)
  /\ match find is_admin (users (persisted s)) with
     | Some a => fst out = Ok (Some a) /\ persisted (snd out) = persisted s
     | None =>
         if default_admin_free (persisted s) then
           fst out = Ok (Some (default_admin_row (persisted s) e))
           /\ persisted (snd out)
              = add_user_row (persisted s) (default_admin_row (persisted s) e)
         else
           fst out = Ok None /\ persisted (snd out) = persisted s
     end.
Proof.
  intros Hc Hr. cbv zeta. unfold AuthManager.create_default_admin, bind.
  destruct (query_user_first_reliable (fun u => str_eqb (User.role u) ROLE_ADMIN) Hr)
    as (fs & Hq & Hfs).
  rewrite Hq. cbv beta iota. unfold clean in Hc. rewrite Hc. fold is_admin.
  set (s1 := mkSession (persisted s) (persisted s) fs).
  assert (Hc1 : clean s1) by reflexivity.
  assert (Hr1 : reliable s1) by exact Hfs.
  destruct (find is_admin (users (persisted s))) as [a|] eqn:Ef.
  - unfold ret. simpl. repeat split; assumption.
  - pose proof (create_user_reliable (lit "admin") (lit "admin@brewmetric.local")
                  (lit "Admin@123456") (lit "Administrator") ROLE_ADMIN e Hc1 Hr1)
      as (Hr2 & Hc2 & H).
    assert (Hlen : (List.length (lit "Admin@123456") <= BCRYPT_MAX_BYTES)%nat)
      by (apply Nat.leb_le; reflexivity).
    destruct (hash_password_returns (lit "Admin@123456") e
                (eq_refl : utf8_encode (lit "Admin@123456")
                           = Some (lit "Admin@123456")) Hlen) as (h & Eh & Hh).
    rewrite Hh in H.
    destruct (AuthManager.create_user (lit "admin") (lit "admin@brewmetric.local")
                (lit "Admin@123456") (lit "Administrator") ROLE_ADMIN e s1)
      as [r s2].
    cbn [fst snd persisted working s1] in Hr2, Hc2, H. subst s1.
    cbn [fst snd persisted working] in H.
    unfold default_admin_free, default_admin_row. rewrite Eh.
    destruct (validations_pass (lit "admin") (lit "admin@brewmetric.local")
                (lit "Admin@123456")
              && negb (username_taken (persisted s) (lit "admin"))
              && negb (email_taken (persisted s) (lit "admin@brewmetric.local"))).
    + destruct H as [[msg ->] H]. unfold ret. cbn [fst snd].
      repeat split; assumption.
    + destruct H as [[msg ->] H]. unfold ret. cbn [fst snd].
      repeat split; assumption.
Qed.

(** With the ASCII digits among the decimal digits, the default
    credentials pass the three checks. *)
Lemma default_credentials_valid {UL : UnicodeDbLaws U} :
  validations_pass (lit "admin") (lit "admin@brewmetric.local") (lit "Admin@123456")
  = true.
Proof.
  unfold validations_pass.
  change (fst (AuthManager.validate_username (lit "admin"))) with true.
  change (fst (AuthManager.validate_email (lit "admin@brewmetric.local"))) with true.
  unfold AuthManager.validate_password_strength.
  change (Nat.ltb (List.length (lit "Admin@123456")) PASSWORD_MIN_LENGTH) with false.
  change (Re.search_class (in_range "a" "z") (lit "Admin@123456")) with true.
  change (Re.search_class (in_range "A" "Z") (lit "Admin@123456")) with true.
  change (Re.search_class AuthManager.special_char (lit "Admin@123456")) with true.
  assert (Hd : Re.search_class is_decimal (lit "Admin@123456") = true).
  { unfold Re.search_class. apply existsb_exists. exists (ch "1"). split.
    - vm_compute. tauto.
    - apply ascii_digit_is_decimal. reflexivity. }
  rewrite Hd. reflexivity.
Qed.

(** On a table without an admin, and with the default username and email
    free, the bootstrap creates the default admin and returns it. *)
Lemma create_default_admin_creates {UL : UnicodeDbLaws U} (s : Session) (e : entropy) :
  clean s -> reliable s ->
  find is_admin (users (persisted s)) = None ->
  username_taken (persisted s) (lit "admin") = false ->
  email_taken (persisted s) (lit "admin@brewmetric.local") = false ->
  let out := AuthManager.create_default_admin e s in
  fst out = Ok (Some (default_admin_row (persisted s) e))
  /\ persisted (snd out)
     = add_user_row (persisted s) (default_admin_row (persisted s) e).
Proof.
  intros Hc Hr Hf Hu He. cbv zeta.
  pose proof (create_default_admin_reliable e Hc Hr) as (_ & _ & H).
  rewrite Hf in H. unfold default_admin_free in H.
  rewrite default_credentials_valid, Hu, He in H. exact H.
Qed.

Lemma find_none_filter {A} (p : A -> bool) (l : list A) :
  find p l = None -> filter p l = [].
Proof.
  induction l as [|x l IH]; simpl; [reflexivity|].
  destruct (p x); [discriminate | exact IH].
Qed.

(** C8, as the code has it. The bootstrap, called twice in sequence.  An
    existing admin is returned by both calls as it is and nothing is
    created.  With no admin
    and the default username and e-mail address free, the first call
    creates the default admin and both calls return that row: the table
    has it once, and it is the only admin.  With no admin and the default
    username or e-mail address held by another user, both calls return
    [None], nothing is created and the table has no admin. *)
Theorem create_default_admin_idempotent {UL : UnicodeDbLaws U}
        (s : Session) (e1 e2 : entropy) :
  clean s -> reliable s ->
  let first := AuthManager.create_default_admin e1 s in
  let second := AuthManager.create_default_admin e2 (snd first) in
  let admin := default_admin_row (persisted s) e1 in
  (forall a, find is_admin (users (persisted s)) = Some a ->
     fst first = Ok (Some a) /\ fst second = Ok (Some a)
     /\ persisted (snd first) = persisted s
     /\ persisted (snd second) = persisted s)
  /\ (find is_admin (users (persisted s)) = None ->
      username_taken (persisted s) (lit "admin") = false ->
      email_taken (persisted s) (lit "admin@brewmetric.local") = false ->
      fst first = Ok (Some admin) /\ fst second = Ok (Some admin)
      /\ is_admin admin = true
      /\ persisted (snd first) = add_user_row (persisted s) admin
      /\ persisted (snd second) = add_user_row (persisted s) admin
      /\ filter is_admin (users (persisted (snd second))) = [admin])
  /\ (find is_admin (users (persisted s)) = None ->
      username_taken (persisted s) (lit "admin") = true
      \/ email_taken (persisted s) (lit "admin@brewmetric.local") = true ->
      fst first = Ok None /\ fst second = Ok None
      /\ persisted (snd first) = persisted s
      /\ persisted (snd second) = persisted s
      /\ find is_admin (users (persisted (snd second))) = None).
Proof.
  intros Hc Hr. cbv zeta.
  pose proof (create_default_admin_reliable e1 Hc Hr) as (Hr1 & Hc1 & H1).
  pose proof (create_default_admin_reliable e2 Hc1 Hr1) as (_ & _ & H2).
  cbv zeta in H1, H2.
  destruct (AuthManager.create_default_admin e1 s) as [r1 s1].
  cbn [fst snd] in *.
  destruct (AuthManager.create_default_admin e2 s1) as [r2 s2].
  cbn [fst snd] in *.
  split; [|split].
  - intros a Ef. rewrite Ef in H1. destruct H1 as [-> E1].
    rewrite E1, Ef in H2. destruct H2 as [-> E2]. rewrite E2, E1. auto.
  - intros Ef Hu He. rewrite Ef in H1. unfold default_admin_free in H1.
    rewrite default_credentials_valid, Hu, He in H1. cbn [negb andb] in H1.
    destruct H1 as [-> E1]. rewrite E1 in H2.
    assert (Ef1 : find is_admin
                    (users (add_user_row (persisted s)
                              (default_admin_row (persisted s) e1)))
                  = Some (default_admin_row (persisted s) e1)).
    { unfold add_user_row. cbn [users]. rewrite (find_app_none _ _ _ Ef).
      reflexivity. }
    rewrite Ef1 in H2. destruct H2 as [-> E2]. rewrite E2, E1.
    repeat split.
    unfold add_user_row. cbn [users]. rewrite filter_app.
    rewrite (find_none_filter _ _ Ef). reflexivity.
  - intros Ef Htaken. rewrite Ef in H1. unfold default_admin_free in H1.
    assert (Hfree : validations_pass (lit "admin") (lit "admin@brewmetric.local")
                      (lit "Admin@123456")
                    && negb (username_taken (persisted s) (lit "admin"))
                    && negb (email_taken (persisted s)
                               (lit "admin@brewmetric.local")) = false).
    { destruct Htaken as [-> | ->]; cbn [negb];
        rewrite ?andb_false_r; reflexivity. }
    rewrite Hfree in H1. destruct H1 as [-> E1].
    rewrite E1, Ef in H2. unfold default_admin_free in H2. rewrite Hfree in H2.
    destruct H2 as [-> E2]. rewrite E2, E1. auto.
Qed.

End DefaultAdminProperties.

Section DefaultAdminOnSample.
Import Sample.

(** C8 fails on the code where the username [admin] is held by a user who
    is not an admin: neither call yields an admin, and none exists
    afterwards. *)
Lemma bootstrap_yields_no_admin :
  let s := get_session squatted_db [] in
  let first := AuthManager.create_default_admin tt s in
  let second := AuthManager.create_default_admin tt (snd first) in
  fst first = Ok None /\ fst second = Ok None
  /\ find is_admin (users (persisted (snd second))) = None
  /\ ~ (exists a, fst first = Ok (Some a) /\ fst second = Ok (Some a)).
Proof.
  cbv zeta. repeat split; try reflexivity.
  intros (a & H & _). vm_compute in H. discriminate.
Qed.

(** Two calls on the shop, which has alice and no admin. *)
Lemma create_default_admin_idempotent_witness :
  let s := get_session shop_db [] in
  let first := AuthManager.create_default_admin tt s in
  let second := AuthManager.create_default_admin tt (snd first) in
  let admin := default_admin_row shop_db tt in
  fst first = Ok (Some admin) /\ fst second = Ok (Some admin)
  /\ is_admin admin = true
  /\ persisted (snd first) = add_user_row shop_db admin
  /\ persisted (snd second) = add_user_row shop_db admin
  /\ filter is_admin (users (persisted (snd second))) = [admin].
Proof.
  intros s first second admin.
  destruct (@create_default_admin_idempotent unicode bcrypt config
              sample_bcrypt_laws sample_unicode_laws s tt tt eq_refl (Forall_nil _))
    as (_ & H & _).
  apply H; reflexivity.
Defined.

End DefaultAdminOnSample.

(** ** The waste write-off *)

Lemma spin_setValue_range (v : Z) :
  (0 <= Qt.spin_setValue v <= 9999)%Z.
Proof. unfold Qt.spin_setValue, Qt.spin_minimum, Qt.spin_maximum. lia. Qed.

Lemma order_by_name_In (i : InventoryItem.t) (l : list InventoryItem.t) :
  In i (order_by_name l) -> In i l.
Proof.
  unfold order_by_name. induction l as [|j l IH]; simpl; [tauto|].
  assert (Hins : forall x m, In i (insert_by_name x m) -> i = x \/ In i m).
  { intros x m. induction m as [|y m IHm]; simpl.
    - intros [<-|[]]. now left.
    - destruct (str_leb (InventoryItem.name x) (InventoryItem.name y)); simpl.
      + intros [<-|[<-|H]]; auto.
      + intros [<-|H]; auto. apply IHm in H as [->|H]; auto. }
  intros H. apply Hins in H as [->|H]; auto.
Qed.

Lemma combo_pick_entries {D} (n : nat) (c : Qt.QComboBox D) :
  Qt.entries (Qt.combo_pick n c) = Qt.entries c.
Proof. unfold Qt.combo_pick. now destruct (Nat.ltb _ _). Qed.

Lemma currentData_In {D} (c : Qt.QComboBox D) (d : D) :
  Qt.currentData c = Some d -> In d (map snd (Qt.entries c)).
Proof.
  unfold Qt.currentData. destruct (Qt.current c) as [n|]; [|discriminate].
  destruct (nth_error (Qt.entries c) n) as [e|] eqn:E; [|discriminate].
  simpl. intros [= <-]. apply in_map. eapply nth_error_In; eassumption.
Qed.

Lemma currentText_new_pick {D} (n : nat) (es : list (str * D)) :
  es <> [] ->
  In (Qt.currentText (Qt.combo_pick n (Qt.combo_new es))) (map fst es).
Proof.
  intros Hes. unfold Qt.combo_pick, Qt.combo_new. simpl.
  destruct es as [|e0 es]; [contradiction|].
  destruct (Nat.ltb n (List.length (e0 :: es))) eqn:En; unfold Qt.currentText; simpl.
  - apply Nat.ltb_lt in En.
    destruct (nth_error (e0 :: es) n) as [e|] eqn:E.
    + change (In (fst e) (map fst (e0 :: es))).
      apply in_map. eapply nth_error_In; eassumption.
    + apply nth_error_None in E. simpl in *. lia.
  - now left.
Qed.

Section WasteWriteOff.
Context {C : Config}.

(** The dialog opens without an exception and without touching the rows;
    it offers rows of the table that are not soft-deleted. *)
Lemma WasteDialog_init_spec (s : Session) :
  exists items fs,
    WasteDialog.init s
    = (Ok (WasteDialog.mk
             (Qt.combo_new
                (map (fun i => (InventoryItem.name i, InventoryItem.id i)) items))
             (Qt.spin_setValue 100)
             (Qt.combo_new (map (fun r => (r, tt)) WASTE_REASONS))
             [] None 0%Z [] []),
       mkSession (persisted s) (working s) fs)
    /\ (forall i, In i items ->
          In i (inventory_items (working s)) /\ InventoryItem.is_deleted i = false).
Proof.
  destruct s as [p w fs]. unfold WasteDialog.init, InventoryQueries.get_all_items.
  unfold_session. simpl.
  destruct fs as [|[|] fs]; simpl.
  1, 3: eexists; eexists; split; [reflexivity|];
    intros i Hi; apply order_by_name_In in Hi; apply filter_In in Hi as [Hi Hd];
    split; [assumption | now destruct (InventoryItem.is_deleted i)].
  exists [], fs. split; [reflexivity|]. intros i [].
Qed.

(** What an accepted dialog holds. *)
Lemma WasteDialog_exec_accepted (input : WasteInput) (d0 d : WasteDialog.t) :
  WasteDialog.exec input d0 = (true, d) ->
  press_record input = true
  /\ WasteDialog.item_id d
     = Qt.currentData (Qt.combo_pick (pick_item input) (WasteDialog.item_combo d0))
  /\ WasteDialog.quantity d = requested_quantity input
  /\ WasteDialog.reason d
     = Qt.currentText (Qt.combo_pick (pick_reason input) (WasteDialog.reason_combo d0))
  /\ WasteDialog.notes d = enter_notes input.
Proof.
  unfold WasteDialog.exec, WasteDialog.accept, WasteDialog.edit. simpl.
  destruct (press_record input); [|discriminate].
  destruct (Z.ltb _ 0); [discriminate|].
  intros [= <-]. simpl. repeat split; reflexivity.
Qed.

(** One use of the dialog on a clean session, under any fault schedule:
    either nothing is committed, or the decrement and the log row are
    committed together. *)
Lemma show_add_waste_dialog_step (self : WasteLogPage.t) (input : WasteInput)
      (s : Session) :
  clean s ->
  let out := WasteLogPage.show_add_waste_dialog self input s in
  clean (snd out)
  /\ ((fst out = Ok Cancelled /\ persisted (snd out) = persisted s)
      \/ (exists e, fst out = Ok (Failed e) /\ persisted (snd out) = persisted s)
      \/ (exists it reason,
            fst out = Ok Recorded
            /\ press_record input = true
            /\ item_row (persisted s) (InventoryItem.id it) = Some it
            /\ (exists offered_row,
                  In offered_row (inventory_items (persisted s))
                  /\ InventoryItem.is_deleted offered_row = false
                  /\ InventoryItem.id offered_row = InventoryItem.id it)
            /\ (WASTE_REASONS <> [] -> In reason WASTE_REASONS)
            /\ persisted (snd out)
               = written_off (persisted s) it (User.id (WasteLogPage.user self))
                   (requested_quantity input) reason (enter_notes input))).
Proof.
  intros Hc. cbv zeta.
  destruct (WasteDialog_init_spec s) as (items & fs0 & Hinit & Hitems).
  unfold WasteLogPage.show_add_waste_dialog, bind. rewrite Hinit.
  cbv beta iota.
  match goal with
  | |- context [WasteDialog.exec input ?d] => set (d0 := d) in *
  end.
  destruct (WasteDialog.exec input d0) as [[|] d] eqn:Ex.
  2: { unfold ret. simpl. split; [exact Hc | left; split; reflexivity]. }
  apply WasteDialog_exec_accepted in Ex as (Hpress & Hid & Hq & Hreason & Hnotes).
  rewrite Hq, Hreason, Hnotes. rewrite Hid.
  destruct s as [p w fs]. unfold clean in Hc. simpl in Hc. subst w.
  simpl in Hitems.
  destruct (Qt.currentData (Qt.combo_pick (pick_item input) (WasteDialog.item_combo d0)))
    as [iid|] eqn:Ed.
  2: { unfold_session. simpl. split; [reflexivity|]. right; left. eauto. }
  unfold WasteLogPage.load_waste_logs. unfold_session. simpl. walk.
  all: unfold clean; simpl; split; [reflexivity|].
  all: try solve [left; split; reflexivity].
  all: try solve [right; left; eauto].
  all: right; right.
  all: match goal with
       | H : find _ (inventory_items _) = Some ?it |- _ =>
           pose proof (find_some _ _ H) as [_ Hi]; simpl in Hi;
           apply Z.eqb_eq in Hi; subst iid;
           exists it,
             (Qt.currentText
                (Qt.combo_pick (pick_reason input) (WasteDialog.reason_combo d0)))
       end.
  all: (split; [reflexivity|]); (split; [assumption|]);
    (split; [unfold item_row; assumption|]).
  all: split;
    [ apply currentData_In in Ed; rewrite combo_pick_entries in Ed;
      unfold d0 in Ed; simpl in Ed; rewrite map_map in Ed; simpl in Ed;
      apply in_map_iff in Ed as (row & Hrow & Hin);
      apply Hitems in Hin as [Hin Hdel]; exists row; auto
    | ].
  all: split;
    [ intros Hne; unfold d0; simpl;
      assert (Hne' : map (fun r : str => (r, tt)) WASTE_REASONS <> [])
        by (destruct WASTE_REASONS; [contradiction | discriminate]);
      pose proof (currentText_new_pick (pick_reason input) Hne') as Ht;
      rewrite map_map in Ht; simpl in Ht; rewrite map_id in Ht; exact Ht
    | reflexivity ].
Qed.

Lemma find_update_same (item_id q : Z) (l : list InventoryItem.t) (it : InventoryItem.t) :
  find (fun i => Z.eqb (InventoryItem.id i) item_id) l = Some it ->
  find (fun i => Z.eqb (InventoryItem.id i) item_id) (update_item_quantity item_id q l)
  = Some (InventoryItem.set_quantity it q).
Proof.
  induction l as [|j l IH]; simpl; [discriminate|].
  destruct (Z.eqb (InventoryItem.id j) item_id) eqn:E; simpl.
  - intros [= ->]. now rewrite E.
  - rewrite E. exact IH.
Qed.

Lemma find_update_other (item_id other q : Z) (l : list InventoryItem.t) :
  other <> item_id ->
  find (fun i => Z.eqb (InventoryItem.id i) other) (update_item_quantity item_id q l)
  = find (fun i => Z.eqb (InventoryItem.id i) other) l.
Proof.
  intros Hne. induction l as [|j l IH]; simpl; [reflexivity|].
  destruct (Z.eqb (InventoryItem.id j) item_id) eqn:E; simpl.
  - apply Z.eqb_eq in E.
    assert (En : Z.eqb (InventoryItem.id j) other = false)
      by (apply Z.eqb_neq; congruence).
    now rewrite En.
  - destruct (Z.eqb (InventoryItem.id j) other); [reflexivity | exact IH].
Qed.

(** A run of dialogs on a clean session, under any fault schedule. *)
Lemma run_spec (self : WasteLogPage.t) (inputs : list WasteInput) (s : Session) :
  clean s ->
  let out := WasteLogPage.run self inputs s in
  exists outcomes new_logs,
    fst out = Ok outcomes
    /\ clean (snd out)
    /\ List.length outcomes = List.length inputs
    /\ users (persisted (snd out)) = users (persisted s)
    /\ audit_trails (persisted (snd out)) = audit_trails (persisted s)
    /\ waste_logs (persisted (snd out)) = waste_logs (persisted s) ++ new_logs
    /\ map WasteLog.quantity new_logs
       = map requested_quantity (recorded outcomes inputs)
    /\ Forall (fun w => (0 <= WasteLog.quantity w <= 9999)%Z) new_logs
    /\ (forall item_id q0,
          quantity_of (persisted s) item_id = Some q0 -> (0 <= q0)%Z ->
          exists q, quantity_of (persisted (snd out)) item_id = Some q
                    /\ (0 <= q <= q0)%Z).
Proof.
  revert s. induction inputs as [|i rest IH]; intros s Hc; cbv zeta.
  - exists [], []. simpl. rewrite app_nil_r.
    repeat split; auto. intros item_id q0 Hq Hq0. exists q0. split; [exact Hq | lia].
  - simpl. unfold bind.
    pose proof (show_add_waste_dialog_step self i Hc) as (Hc1 & Hstep).
    destruct (WasteLogPage.show_add_waste_dialog self i s) as [r1 s1].
    cbn [fst snd] in Hc1, Hstep.
    specialize (IH s1 Hc1). cbv zeta in IH.
    destruct IH as (os & new' & Hr & Hc2 & Hlen & Hu & Ha & Hw & Hmap & Hrange & Hqty).
    destruct (WasteLogPage.run self rest s1) as [r2 s2].
    cbn [fst snd] in *. subst r2.
    destruct Hstep as [[-> Hp] | [(e & -> & Hp) | (it & reason & -> & Hpress & Hrow & _ & _ & Hp)]].
    + exists (Cancelled :: os), new'. unfold ret. cbn [fst snd].
      rewrite Hp in *. simpl. repeat split; auto.
    + exists (Failed e :: os), new'. unfold ret. cbn [fst snd].
      rewrite Hp in *. simpl. repeat split; auto.
    + set (w := WasteLog.mk (next_id (map WasteLog.id (waste_logs (persisted s))))
                            (InventoryItem.id it) (User.id (WasteLogPage.user self))
                            (requested_quantity i) reason (enter_notes i)).
      exists (Recorded :: os), (w :: new'). unfold ret. cbn [fst snd].
      rewrite Hp in *. unfold written_off in *. cbn [users audit_trails waste_logs] in *.
      fold w in Hw.
      split; [reflexivity|]. split; [assumption|].
      split; [simpl; congruence|]. split; [assumption|]. split; [assumption|].
      split; [rewrite Hw, <- app_assoc; reflexivity|].
      split; [simpl; congruence|].
      split; [constructor; [apply spin_setValue_range | assumption]|].
      intros item_id q0 Hq Hq0.
      pose proof (spin_setValue_range (enter_quantity i)) as Hreq.
      fold (requested_quantity i) in Hreq.
      destruct (Z.eq_dec item_id (InventoryItem.id it)) as [->|Hne].
      * unfold quantity_of in Hq. rewrite Hrow in Hq. simpl in Hq. injection Hq as <-.
        destruct (Hqty (InventoryItem.id it)
                       (Z.max 0 (InventoryItem.quantity it - requested_quantity i)))
          as (q & Hq' & Hb).
        -- unfold quantity_of, item_row in *. cbn [inventory_items].
           erewrite find_update_same by exact Hrow. reflexivity.
        -- lia.
        -- exists q. split; [exact Hq' | lia].
      * apply Hqty; [|assumption].
        unfold quantity_of, item_row in *. cbn [inventory_items].
        rewrite find_update_other by assumption. exact Hq.
Qed.

End WasteWriteOff.

Section WasteClaims.
Context {C : Config}.



(** The dialog closes as cancelled when the operator presses Cancel and
    when there is nothing to select. *)
Lemma show_add_waste_dialog_cancelled (self : WasteLogPage.t) (input : WasteInput)
      (s : Session) :
  press_record input = false
  \/ (forall i, In i (inventory_items (working s)) ->
                InventoryItem.is_deleted i = true) ->
  fst (WasteLogPage.show_add_waste_dialog self input s) = Ok Cancelled.
Proof.
  intros H.
  destruct (WasteDialog_init_spec s) as (items & fs0 & Hinit & Hitems).
  unfold WasteLogPage.show_add_waste_dialog, bind. rewrite Hinit.
  cbv beta iota.
  match goal with
  | |- context [WasteDialog.exec input ?d] =>
      assert (Hex : fst (WasteDialog.exec input d) = false)
  end.
  { unfold WasteDialog.exec. destruct H as [-> | Hall]; [reflexivity|].
    assert (items = []) as ->.
    { destruct items as [|i0 items]; [reflexivity|].
      destruct (Hitems i0 (or_introl eq_refl)) as [Hin Hd].
      apply Hall in Hin. congruence. }
    destruct (press_record input); reflexivity. }
  destruct (WasteDialog.exec input _) as [[|] d]; [discriminate | reflexivity].
Qed.

(** C6, as the code has it. A dialog that does not end with "recorded"
    (Cancel, nothing to select, or a failure that is rolled back) commits
    nothing; a recorded write-off is always for an existing row that is not
    soft-deleted, with a reason from the configured categories and a
    quantity in the range of the spin box, zero included. *)
Theorem unrecorded_write_off_commits_nothing
        (self : WasteLogPage.t) (input : WasteInput) (s : Session) :
  clean s ->
  let out := WasteLogPage.show_add_waste_dialog self input s in
  (fst out <> Ok Recorded -> persisted (snd out) = persisted s)
  /\ (press_record input = false -> fst out = Ok Cancelled)
  /\ ((forall i, In i (inventory_items (persisted s)) ->
                 InventoryItem.is_deleted i = true) ->
      fst out = Ok Cancelled)
  /\ (fst out = Ok Recorded ->
      exists it reason,
        In it (inventory_items (persisted s))
        /\ (exists offered_row,
              In offered_row (inventory_items (persisted s))
              /\ InventoryItem.is_deleted offered_row = false
              /\ InventoryItem.id offered_row = InventoryItem.id it)
        /\ (WASTE_REASONS <> [] -> In reason WASTE_REASONS)
        /\ (0 <= requested_quantity input <= 9999)%Z
        /\ persisted (snd out)
           = written_off (persisted s) it (User.id (WasteLogPage.user self))
               (requested_quantity input) reason (enter_notes input)).
Proof.
  intros Hc. cbv zeta.
  pose proof (show_add_waste_dialog_step self input Hc) as (_ & Hstep).
  split; [|split; [|split]].
  - intros Hn.
    destruct Hstep as [[_ Hp] | [(e & _ & Hp) | (it & reason & Hr & _)]];
      auto; contradiction.
  - intros Hp. apply show_add_waste_dialog_cancelled. now left.
  - intros Hall. apply show_add_waste_dialog_cancelled. right.
    unfold clean in Hc. now rewrite Hc.
  - intros Hr.
    destruct Hstep as [[Ho _] | [(e & Ho & _) | (it & reason & _ & _ & Hrow & Hoff & Hreason & Hp)]];
      try congruence.
    exists it, reason. repeat split; auto.
    + unfold item_row in Hrow. now apply find_some in Hrow.
    + apply spin_setValue_range.
    + apply spin_setValue_range.
Qed.

End WasteClaims.

Section WasteOnSample.
Import Sample.





(** C6 fails on the code: a request for quantity 0 is recorded, with a log
    row of quantity 0. *)
Lemma zero_quantity_write_off_is_recorded :
  let input := mkWasteInput 0 0 0 [] true in
  let s := get_session shop_db [] in
  let out := WasteLogPage.show_add_waste_dialog (WasteLogPage.mk staff_user) input s in
  ~ ((requested_quantity input <= 0)%Z ->
     fst out <> Ok Recorded
     /\ waste_logs (persisted (snd out)) = waste_logs (persisted s)).
Proof.
  cbv zeta. intros H.
  assert (Hz : (requested_quantity (mkWasteInput 0 0 0 [] true) <= 0)%Z)
    by (vm_compute; discriminate).
  destruct (H Hz) as [Ho _]. apply Ho. reflexivity.
Qed.

(** The commit of the write-off fails: the dialog reports the failure and
    the rows are what they were. *)
Lemma unrecorded_write_off_commits_nothing_witness :
let s := get_session shop_db [false; false; true] in
let out := WasteLogPage.show_add_waste_dialog (WasteLogPage.mk staff_user)
             (mkWasteInput 0 100 0 [] true) s in
fst out = Ok (Failed OperationalError) /\ persisted (snd out) = shop_db.
Proof.
intros s out.
destruct (@unrecorded_write_off_commits_nothing config
            (WasteLogPage.mk staff_user) (mkWasteInput 0 100 0 [] true)
            s eq_refl) as (H & _).
split; [reflexivity|]. apply H. discriminate.
Defined.

End WasteOnSample.

(** ** The login path *)

Section LoginPath.
Context {U : UnicodeDb} {B : Bcrypt} {C : Config}.


End LoginPath.

Section LoginOnSample.
Import Sample.



End LoginOnSample.

(** ** The patterns of the validators *)

Section PatternLanguage.
Import ReLang.

Lemma nullable_Matches (r : Re.regex) : Re.nullable r = true <-> Matches r [].
Proof.
  split.
  - induction r; simpl; intros H; try discriminate.
    + constructor.
    + apply andb_true_iff in H as [H1 H2].
      change (@nil char) with (@nil char ++ []). constructor; auto.
    + apply orb_true_iff in H as [H|H]; [apply MAltL | apply MAltR]; auto.
    + constructor.
  - intros H. remember (@nil char) as w eqn:Hw.
    induction H; simpl; try discriminate; auto.
    + apply app_eq_nil in Hw as [-> ->]. rewrite IHMatches1, IHMatches2; auto.
    + rewrite IHMatches; auto.
    + rewrite IHMatches; auto. apply orb_true_r.
Qed.

Lemma star_cons (r : Re.regex) (c : char) (s : str) :
  Matches (Re.Star r) (c :: s) ->
  exists s1 s2, s = s1 ++ s2 /\ Matches r (c :: s1) /\ Matches (Re.Star r) s2.
Proof.
  intros H. remember (Re.Star r) as r' eqn:Hr. remember (c :: s) as w eqn:Hw.
  revert s Hw.
  induction H; intros s' Hw; try discriminate.
  injection Hr as ->.
  destruct s1 as [|c1 s1]; simpl in Hw.
  - apply IHMatches2; auto.
  - injection Hw as -> <-. exists s1, s2. auto.
Qed.

Lemma Matches_seq_inv (r1 r2 : Re.regex) (s : str) :
  Matches (Re.Seq r1 r2) s ->
  exists s1 s2, s = s1 ++ s2 /\ Matches r1 s1 /\ Matches r2 s2.
Proof. intros H. inversion H; subst. eauto. Qed.

Lemma Matches_alt_inv (r1 r2 : Re.regex) (s : str) :
  Matches (Re.Alt r1 r2) s -> Matches r1 s \/ Matches r2 s.
Proof. intros H. inversion H; subst; auto. Qed.

Lemma deriv_Matches (c : char) (r : Re.regex) (s : str) :
  Matches (Re.deriv c r) s <-> Matches r (c :: s).
Proof.
  revert s. induction r; intros s; simpl.
  - split; intros H; inversion H.
  - split; intros H; inversion H.
  - destruct (p c) eqn:Ep; split; intros H; inversion H; subst.
    + now constructor.
    + constructor.
    + congruence.
  - assert (Hcons : forall s1 s2, Matches (Re.deriv c r1) s1 -> Matches r2 s2 ->
                                  Matches (Re.Seq r1 r2) (c :: s1 ++ s2)).
    { intros s1 s2 H1 H2. change (c :: s1 ++ s2) with ((c :: s1) ++ s2).
      constructor; [now apply IHr1 | assumption]. }
    destruct (Re.nullable r1) eqn:En.
    + split; intros H.
      * apply Matches_alt_inv in H as [H|H].
        -- apply Matches_seq_inv in H as (s1 & s2 & -> & H1 & H2). auto.
        -- change (c :: s) with ([] ++ c :: s).
           constructor; [now apply nullable_Matches | now apply IHr2].
      * apply Matches_seq_inv in H as (s1 & s2 & Hs & H1 & H2).
        destruct s1 as [|c1 s1]; simpl in Hs.
        -- subst. apply MAltR. now apply IHr2.
        -- injection Hs as <- ->. apply MAltL.
           constructor; [now apply IHr1 | assumption].
    + split; intros H.
      * apply Matches_seq_inv in H as (s1 & s2 & -> & H1 & H2). auto.
      * apply Matches_seq_inv in H as (s1 & s2 & Hs & H1 & H2).
        destruct s1 as [|c1 s1]; simpl in Hs.
        -- apply nullable_Matches in H1. congruence.
        -- injection Hs as <- ->. constructor; [now apply IHr1 | assumption].
  - split; intros H; apply Matches_alt_inv in H as [H|H];
      solve [apply MAltL; now apply IHr1 | apply MAltR; now apply IHr2].
  - split; intros H.
    + apply Matches_seq_inv in H as (s1 & s2 & -> & H1 & H2).
      change (c :: s1 ++ s2) with ((c :: s1) ++ s2).
      constructor; [now apply IHr | assumption].
    + apply star_cons in H as (s1 & s2 & -> & H1 & H2).
      constructor; [now apply IHr | assumption].
Qed.

(** The matcher accepts exactly the words of the pattern. *)
Lemma fullmatch_Matches (r : Re.regex) (s : str) :
  Re.fullmatch r s = true <-> Matches r s.
Proof.
  unfold Re.fullmatch. revert r. induction s as [|c s IH]; intros r; simpl.
  - apply nullable_Matches.
  - rewrite IH. apply deriv_Matches.
Qed.

Lemma match_anchored_Matches (r : Re.regex) (s : str) :
  Re.match_anchored r s = true <-> up_to_newline (Matches r) s.
Proof.
  unfold Re.match_anchored, up_to_newline. rewrite orb_true_iff, fullmatch_Matches.
  assert (Hrev : forall c t, rev s = c :: t -> s = rev t ++ [c]).
  { intros c t H. rewrite <- (rev_involutive s), H. reflexivity. }
  split; intros [H|H]; auto.
  - destruct (rev s) as [|c t] eqn:Er; [discriminate|].
    apply andb_true_iff in H as [Hc Ht]. apply N.eqb_eq in Hc. subst c.
    right. exists (rev t). split; [now apply Hrev | now apply fullmatch_Matches].
  - destruct H as (t & -> & Ht). right. rewrite rev_app_distr. simpl.
    rewrite rev_involutive. now apply fullmatch_Matches.
Qed.

Lemma Matches_class (p : char -> bool) (s : str) :
  Matches (Re.Class p) s <-> exists c, s = [c] /\ p c = true.
Proof.
  split.
  - intros H. inversion H; subst. eauto.
  - intros (c & -> & H). now constructor.
Qed.

Lemma Matches_star_class (p : char -> bool) (s : str) :
  Matches (Re.Star (Re.Class p)) s <-> forallb p s = true.
Proof.
  split.
  - intros H. remember (Re.Star (Re.Class p)) as r eqn:Hr.
    induction H; try discriminate; [reflexivity|].
    injection Hr as ->. apply Matches_class in H as (c & -> & Hc). simpl.
    rewrite IHMatches2 by reflexivity. now rewrite Hc.
  - induction s as [|c s IH]; simpl; intros H; [constructor|].
    apply andb_true_iff in H as [Hc Hs].
    change (c :: s) with ([c] ++ s). constructor; [now constructor | auto].
Qed.

Lemma Matches_class_star (p q : char -> bool) (s : str) :
  Matches (Re.Seq (Re.Class p) (Re.Star (Re.Class q))) s
  <-> exists c t, s = c :: t /\ p c = true /\ forallb q t = true.
Proof.
  split.
  - intros H. apply Matches_seq_inv in H as (s1 & s2 & -> & H1 & H2).
    apply Matches_class in H1 as (c & -> & Hc).
    apply Matches_star_class in H2. exists c, s2. auto.
  - intros (c & t & -> & Hc & Ht). change (c :: t) with ([c] ++ t).
    constructor; [now constructor | now apply Matches_star_class].
Qed.

Lemma Matches_plus_class (p : char -> bool) (s : str) :
  Matches (Re.Plus (Re.Class p)) s <-> s <> [] /\ forallb p s = true.
Proof.
  unfold Re.Plus. rewrite Matches_class_star. split.
  - intros (c & t & -> & Hc & Ht). split; [discriminate|]. simpl. now rewrite Hc.
  - intros [Hne H]. destruct s as [|c t]; [contradiction|]. simpl in H.
    apply andb_true_iff in H as [Hc Ht]. eauto.
Qed.

Lemma Matches_atleast2_class (p : char -> bool) (s : str) :
  Matches (Re.AtLeast2 (Re.Class p)) s
  <-> (2 <= List.length s)%nat /\ forallb p s = true.
Proof.
  unfold Re.AtLeast2. split.
  - intros H. apply Matches_seq_inv in H as (s1 & s2 & -> & H1 & H2).
    apply Matches_class in H1 as (c & -> & Hc).
    apply Matches_class_star in H2 as (c' & t & -> & Hc' & Ht).
    simpl. rewrite Hc, Hc', Ht. split; [lia | reflexivity].
  - intros [Hlen H]. destruct s as [|c [|c' t]]; simpl in Hlen; try lia.
    simpl in H. apply andb_true_iff in H as [Hc H].
    apply andb_true_iff in H as [Hc' Ht].
    change (c :: c' :: t) with ([c] ++ c' :: t).
    constructor; [now constructor|]. apply Matches_class_star. eauto.
Qed.

Lemma Matches_char (a : ascii) (s : str) :
  Matches (Re.Class (is_char a)) s <-> s = [ch a].
Proof.
  rewrite Matches_class. unfold is_char. split.
  - intros (c & -> & H). apply N.eqb_eq in H. now subst.
  - intros ->. exists (ch a). split; [reflexivity | apply N.eqb_refl].
Qed.

Section Validators.
Context {U : UnicodeDb}.

(** X1. [validate_username] accepts exactly the strings of 3 to 50
    characters that are a letter or underscore followed by letters, digits
    and underscores, and such a string with one newline after it. *)
Theorem validate_username_accepts (username : str) :
  fst (AuthManager.validate_username username) = true
  <-> (3 <= List.length username <= 50)%nat
      /\ up_to_newline username_shape username.
Proof.
  unfold AuthManager.validate_username.
  destruct (Nat.ltb (List.length username) 3) eqn:E3;
    [apply Nat.ltb_lt in E3; simpl; split; [discriminate | lia]|].
  destruct (Nat.ltb 50 (List.length username)) eqn:E50;
    [apply Nat.ltb_lt in E50; simpl; split; [discriminate | lia]|].
  apply Nat.ltb_ge in E3, E50. simpl.
  assert (Hshape : Re.match_anchored AuthManager.username_re username = true
                   <-> up_to_newline username_shape username).
  { rewrite match_anchored_Matches. unfold up_to_newline, username_shape,
      AuthManager.username_re.
    rewrite Matches_class_star.
    split; (intros [H | (t & E & H)];
            [left; exact H | right; exists t; split; [exact E|]]).
    - now apply Matches_class_star.
    - now apply Matches_class_star. }
  destruct (Re.match_anchored AuthManager.username_re username); simpl.
  - split; [intros _ | reflexivity]. split; [lia | now apply Hshape].
  - split; [discriminate|]. intros [_ H]. now apply Hshape.
Qed.

Lemma email_re_Matches (s : str) :
  Matches AuthManager.email_re s <-> email_shape s.
Proof.
  unfold AuthManager.email_re, email_shape. split.
  - intros H.
    apply Matches_seq_inv in H as (local & r1 & -> & Hl & H).
    apply Matches_seq_inv in H as (at_ & r2 & -> & Ha & H).
    apply Matches_seq_inv in H as (domain & r3 & -> & Hd & H).
    apply Matches_seq_inv in H as (dot & tld & -> & Hdot & Ht).
    apply Matches_plus_class in Hl as [Hl1 Hl2].
    apply Matches_char in Ha. apply Matches_plus_class in Hd as [Hd1 Hd2].
    apply Matches_char in Hdot. apply Matches_atleast2_class in Ht as [Ht1 Ht2].
    subst. exists local, domain, tld. repeat split; auto.
  - intros (local & domain & tld & -> & Hl1 & Hl2 & Hd1 & Hd2 & Ht1 & Ht2).
    constructor; [now apply Matches_plus_class|].
    constructor; [now apply Matches_char|].
    constructor; [now apply Matches_plus_class|].
    constructor; [now apply Matches_char|].
    now apply Matches_atleast2_class.
Qed.

(** X2. [validate_email] accepts exactly the strings [local@domain.tld],
    with a non-empty local part of letters, digits and [._%+-], a non-empty
    domain of letters, digits, dots and hyphens, and at least two letters
    after the last dot; and such a string with one newline after it. *)
Theorem validate_email_accepts (email : str) :
  fst (AuthManager.validate_email email) = true
  <-> up_to_newline email_shape email.
Proof.
  unfold AuthManager.validate_email.
  assert (Hshape : Re.match_anchored AuthManager.email_re email = true
                   <-> up_to_newline email_shape email).
  { rewrite match_anchored_Matches. unfold up_to_newline.
    split; (intros [H | (t & E & H)];
            [left | right; exists t; split; [exact E|]]);
      now apply email_re_Matches. }
  destruct (Re.match_anchored AuthManager.email_re email); simpl.
  - split; [intros _; now apply Hshape | reflexivity].
  - split; [discriminate | intros H; now apply Hshape].
Qed.

End Validators.
End PatternLanguage.

(** ** Users: creation, then authentication *)

Lemma next_id_fresh (ids : list Z) : ~ In (next_id ids) ids.
Proof.
  assert (Hmax : forall i, In i ids -> (i <= fold_right Z.max 0 ids)%Z).
  { induction ids as [|j ids IH]; simpl; [tauto|].
    intros i [->|Hi]; [lia|]. apply IH in Hi. lia. }
  intros Hin. apply Hmax in Hin. unfold next_id in Hin. lia.
Qed.

Lemma existsb_false_not_In {A} (f : A -> str) (l : list A) (x : str) :
  existsb (fun a => str_eqb (f a) x) l = false -> ~ In x (map f l).
Proof.
  intros H Hin. apply in_map_iff in Hin as (a & <- & Ha).
  assert (existsb (fun a0 => str_eqb (f a0) (f a)) l = true).
  { apply existsb_exists. exists a. split; [assumption | apply str_eqb_refl]. }
  congruence.
Qed.

Lemma NoDup_snoc {A} (l : list A) (x : A) :
  NoDup l -> ~ In x l -> NoDup (l ++ [x]).
Proof.
  intros Hl Hx. apply NoDup_app.
  - assumption.
  - constructor; [intros [] | constructor].
  - intros a Ha [<-|[]]. contradiction.
Qed.

Section UsersRoundTrip.
Context {U : UnicodeDb} {B : Bcrypt} {C : Config}.

(** What a successful [create_user] has done, under any fault schedule. *)
Lemma create_user_success
      (s : Session) (username email password full_name role : str) (e : entropy)
      (msg : str) (u : User.t) :
  let out := AuthManager.create_user username email password full_name role e s in
  fst out = Ok (true, msg, Some u) ->
  username_taken (working s) username = false
  /\ email_taken (working s) email = false
  /\ (exists hashed,
        AuthManager.hash_password password e = Ok hashed
        /\ u = created_user (working s) username email hashed full_name role)
  /\ working (snd out) = add_user_row (working s) u
  /\ persisted (snd out) = add_user_row (working s) u.
Proof.
  cbv zeta. unfold username_taken, email_taken. rewrite !find_existsb.
  destruct s as [p w fs]. simpl. unfold AuthManager.create_user.
  destruct (AuthManager.validate_username username) as [[|] m1]; simpl;
    [|unfold ret; simpl; intros; discriminate].
  destruct (AuthManager.validate_email email) as [[|] m2]; simpl;
    [|unfold ret; simpl; intros; discriminate].
  destruct (AuthManager.validate_password_strength password) as [[|] m3]; simpl;
    [|unfold ret; simpl; intros; discriminate].
  unfold_session. simpl. walk.
  all: intros H; try discriminate; injection H as _ <-.
  all: unfold add_user_row, created_user; simpl; repeat split; eauto.
Qed.

(** The committed rows after [create_user] on a clean session, under any
    fault schedule: what they were, or with the new row. *)
Lemma create_user_persisted
      (s : Session) (username email password full_name role : str) (e : entropy) :
  clean s ->
  let out := AuthManager.create_user username email password full_name role e s in
  persisted (snd out) = persisted s
  \/ (username_taken (persisted s) username = false
      /\ email_taken (persisted s) email = false
      /\ exists hashed,
           persisted (snd out)
           = add_user_row (persisted s)
               (created_user (persisted s) username email hashed full_name role)).
Proof.
  cbv zeta. unfold username_taken, email_taken. rewrite !find_existsb.
  destruct s as [p w fs]. unfold clean. simpl. intros ->.
  unfold AuthManager.create_user.
  destruct (AuthManager.validate_username username) as [[|] m1]; simpl;
    [|unfold ret; simpl; auto].
  destruct (AuthManager.validate_email email) as [[|] m2]; simpl;
    [|unfold ret; simpl; auto].
  destruct (AuthManager.validate_password_strength password) as [[|] m3]; simpl;
    [|unfold ret; simpl; auto].
  unfold_session. simpl. walk.
  all: try solve [left; reflexivity].
  all: right; unfold add_user_row, created_user; simpl; repeat split; eauto.
Qed.

(** X4. [create_user] keeps the keys of the [users] table distinct: if the
    usernames, the e-mail addresses and the row ids are pairwise distinct
    before the call, they are so after it, whether the call succeeded,
    failed or raised. *)
Theorem create_user_keeps_keys_distinct
        (s : Session) (username email password full_name role : str) (e : entropy) :
  clean s ->
  users_unique (persisted s) ->
  users_unique
    (persisted (snd (AuthManager.create_user username email password full_name
                       role e s))).
Proof.
  intros Hc (Hn & He & Hi).
  destruct (create_user_persisted username email password full_name role e Hc)
    as [-> | (Hu & Hm & hashed & ->)].
  - repeat split; assumption.
  - unfold users_unique, add_user_row, created_user. simpl.
    rewrite !map_app. simpl. repeat split; apply NoDup_snoc; auto.
    + now apply existsb_false_not_In.
    + now apply existsb_false_not_In.
    + apply next_id_fresh.
Qed.

Context {BL : BcryptLaws B}.

(** X3. A user that [create_user] has just created can authenticate with
    the same username and password: [authenticate_user] returns the very
    row that was created, provided its query goes through. *)
Theorem created_user_can_authenticate
        (s : Session) (username email password full_name role : str) (e : entropy)
        (msg : str) (u : User.t) :
  let out := AuthManager.create_user username email password full_name role e s in
  fst out = Ok (true, msg, Some u) ->
  hd false (faults (snd out)) = false ->
  fst (AuthManager.authenticate_user username password (snd out)) = Ok (Some u).
Proof.
  cbv zeta. intros Hok Hf.
  destruct (create_user_success _ _ _ _ _ _ _ Hok)
    as (Hu & _ & (hashed & Hh & Hrow) & Hw & _).
  destruct (AuthManager.create_user username email password full_name role e s)
    as [r s1].
  cbn [fst snd] in *. destruct s1 as [p1 w1 fs1]. cbn [working faults] in *.
  assert (Hfind : find (fun x => str_eqb (User.username x) username) (users w1)
                  = Some u).
  { rewrite Hw. unfold add_user_row. cbn [users].
    unfold username_taken in Hu. rewrite find_existsb in Hu.
    destruct (find (fun x => str_eqb (User.username x) username) (users (working s)))
      eqn:Ef; [discriminate|].
    rewrite (find_app_none _ _ _ Ef). rewrite Hrow at 1. simpl.
    now rewrite str_eqb_refl. }
  assert (Hv : AuthManager.verify_password password (User.password_hash u) = true).
  { rewrite Hrow. simpl. eapply hash_password_verifies; eassumption. }
  assert (Ha : User.is_active u = true) by (rewrite Hrow; reflexivity).
  unfold AuthManager.authenticate_user. unfold_session. simpl.
  destruct fs1 as [|[|] fs1]; simpl in *; try discriminate;
    rewrite Hfind, Ha, Hv; reflexivity.
Qed.

End UsersRoundTrip.

(** ** The login window *)

Section LoginWindowProperties.
Context {U : UnicodeDb} {B : Bcrypt} {C : Config}.

(** [handle_login] is [authenticate_user] on the stripped username,
    followed by [on_login_complete]. *)
Lemma handle_login_filled (st : AuthManager.state) (username_text password_text : str)
      (s : Session) :
  LoginWindow.strip username_text <> [] -> password_text <> [] ->
  LoginWindow.handle_login st username_text password_text s
  = bind (AuthManager.authenticate_user (LoginWindow.strip username_text)
            password_text)
         (LoginWindow.on_login_complete st) s.
Proof.
  intros Hu Hp. unfold LoginWindow.handle_login.
  destruct (LoginWindow.strip username_text); [contradiction|].
  destruct password_text; [contradiction | reflexivity].
Qed.

(** X5. Blank credentials are refused before anything is sent to the
    database: with an empty password, or a username that is empty or only
    white space, [handle_login] shows its prompt and leaves the login state
    and the session, fault schedule included, exactly as they were. *)
Theorem blank_login_touches_nothing
        (st : AuthManager.state) (username_text password_text : str) (s : Session) :
  LoginWindow.strip username_text = [] \/ password_text = [] ->
  LoginWindow.handle_login st username_text password_text s
  = (Ok (LoginWindow.mkOutcome st None (lit "Please enter username and password")),
     s).
Proof.
  intros H. unfold LoginWindow.handle_login.
  destruct (LoginWindow.strip username_text) as [|c t]; [reflexivity|].
  destruct H as [H | ->]; [discriminate | reflexivity].
Qed.

(** X6. A login attempt that does not authenticate leaves no trace: the
    window shows the one message "Invalid username or password" whatever
    the cause, the login state is unchanged, no main window opens, and the
    rows of the database, committed and pending, are what they were (no
    audit row is written for a failed attempt). *)
Theorem failed_login_leaves_no_trace
        (st : AuthManager.state) (username_text password_text : str) (s : Session) :
  LoginWindow.strip username_text <> [] -> password_text <> [] ->
  fst (AuthManager.authenticate_user (LoginWindow.strip username_text)
         password_text s) = Ok None ->
  let out := LoginWindow.handle_login st username_text password_text s in
  fst out = Ok (LoginWindow.mkOutcome st None (lit "Invalid username or password"))
  /\ persisted (snd out) = persisted s
  /\ working (snd out) = working s.
Proof.
  intros Hu Hp Hauth. cbv zeta. rewrite handle_login_filled by assumption.
  unfold bind.
  assert (Hdb : persisted (snd (AuthManager.authenticate_user
                                  (LoginWindow.strip username_text) password_text s))
                = persisted s
                /\ working (snd (AuthManager.authenticate_user
                                   (LoginWindow.strip username_text) password_text s))
                   = working s).
  { destruct s as [p w fs]. unfold AuthManager.authenticate_user. unfold_session.
    simpl. walk;
      repeat match goal with
        | |- context [if negb ?b then _ else _] => destruct b; simpl
        end; auto. }
  destruct (AuthManager.authenticate_user (LoginWindow.strip username_text)
              password_text s) as [r s1].
  cbn [fst snd] in *. subst r. unfold LoginWindow.on_login_complete, ret.
  cbn [fst snd]. tauto.
Qed.

Lemma lstrip_suffix (s : str) : exists pre, s = pre ++ LoginWindow.lstrip s.
Proof.
  induction s as [|c t (pre & IH)]; simpl.
  - now exists [].
  - destruct (is_space c).
    + exists (c :: pre). simpl. now f_equal.
    + now exists [].
Qed.

Lemma lstrip_head (s : str) :
  match LoginWindow.lstrip s with
  | [] => True
  | c :: _ => is_space c = false
  end.
Proof.
  induction s as [|c t IH]; simpl; [exact I|].
  destruct (is_space c) eqn:E; [exact IH | exact E].
Qed.

Lemma lstrip_fixed (s : str) :
  match s with [] => True | c :: _ => is_space c = false end ->
  LoginWindow.lstrip s = s.
Proof. destruct s as [|c t]; simpl; [reflexivity|]. now intros ->. Qed.

Lemma strip_idempotent (s : str) :
  LoginWindow.strip (LoginWindow.strip s) = LoginWindow.strip s.
Proof.
  unfold LoginWindow.strip.
  set (a := LoginWindow.lstrip s).
  set (b := LoginWindow.lstrip (rev a)).
  pose proof (lstrip_head s) as Ha. fold a in Ha.
  pose proof (lstrip_head (rev a)) as Hb. fold b in Hb.
  destruct (lstrip_suffix (rev a)) as (pre & Hpre). fold b in Hpre.
  assert (Ea : a = rev b ++ rev pre)
    by (rewrite <- (rev_involutive a), Hpre, rev_app_distr; reflexivity).
  assert (H1 : LoginWindow.lstrip (rev b) = rev b).
  { apply lstrip_fixed. destruct (rev b) as [|c t] eqn:Er; [exact I|].
    rewrite Ea in Ha. exact Ha. }
  rewrite H1, rev_involutive. f_equal. now apply lstrip_fixed.
Qed.

(** X8. White space around the username is ignored, and only there: the
    login with a username text gives what the login with the stripped
    username gives; the password is used as typed. *)
Theorem login_ignores_space_around_username
        (st : AuthManager.state) (username_text password_text : str) (s : Session) :
  LoginWindow.handle_login st username_text password_text s
  = LoginWindow.handle_login st (LoginWindow.strip username_text) password_text s.
Proof.
  unfold LoginWindow.handle_login. now rewrite strip_idempotent.
Qed.

End LoginWindowProperties.

(** ** Start-up *)

Section StartupProperties.
Context {U : UnicodeDb} {B : Bcrypt} {C : Config}.
Context {UL : UnicodeDbLaws U} {BL : BcryptLaws B}.

(** What [initialize_database] does on a clean session when the storage
    layer does not fail. *)
Lemma initialize_database_reliable (s : Session) (e : entropy) :
  clean s -> reliable s ->
  exists s0,
    clean s0 /\ reliable s0 /\ persisted s0 = persisted s
    /\ BrewMetricApp.initialize_database e s
       = (Ok true, snd (AuthManager.create_default_admin e s0))
    /\ exists r, fst (AuthManager.create_default_admin e s0) = Ok r.
Proof.
  intros Hc Hr. destruct (execute_reliable Hr) as (fs & Hex & Hfs).
  exists (mkSession (persisted s) (persisted s) fs).
  assert (Hc0 : clean (mkSession (persisted s) (persisted s) fs)) by reflexivity.
  assert (Hr0 : reliable (mkSession (persisted s) (persisted s) fs)) by exact Hfs.
  split; [assumption|]. split; [assumption|]. split; [reflexivity|].
  pose proof (create_default_admin_reliable e Hc0 Hr0) as (_ & Hc1 & H).
  unfold BrewMetricApp.initialize_database, try_except, bind, fresh_session,
    session_close, get_session, ret.
  rewrite Hex. cbn [persisted working faults].
  destruct (AuthManager.create_default_admin e
              (mkSession (persisted s) (persisted s) fs)) as [r [p1 w1 fs1]].
  unfold clean in Hc1. cbn [fst snd persisted working faults] in *. subst w1.
  assert (Hr1 : exists v, r = Ok v).
  { destruct (find is_admin (users (persisted s))); [destruct H as [-> _]; eauto|].
    match type of H with
    | if ?b then _ else _ => destruct b; destruct H as [-> _]; eauto
    end. }
  destruct Hr1 as (v & ->). split; [reflexivity | eauto].
Qed.

(** X9. After [initialize_database] on a database that has no admin and
    where the default username and e-mail address are free, the default
    credentials authenticate: the default admin row has been committed,
    its role is admin, and [authenticate_user] with [admin] and
    [Admin@123456] returns that row. *)
Theorem bootstrap_admin_authenticates (s : Session) (e : entropy) :
  clean s -> reliable s ->
  find is_admin (users (persisted s)) = None ->
  username_taken (persisted s) (lit "admin") = false ->
  email_taken (persisted s) (lit "admin@brewmetric.local") = false ->
  let started := BrewMetricApp.initialize_database e s in
  let admin := default_admin_row (persisted s) e in
  fst started = Ok true
  /\ persisted (snd started) = add_user_row (persisted s) admin
  /\ is_admin admin = true
  /\ fst (AuthManager.authenticate_user (lit "admin") (lit "Admin@123456")
            (snd started))
     = Ok (Some admin).
Proof.
  intros Hc Hr Hf Hu He. cbv zeta.
  destruct (initialize_database_reliable e Hc Hr)
    as (s0 & Hc0 & Hr0 & Hp0 & Hinit & _).
  rewrite Hinit. cbn [fst snd].
  pose proof (create_default_admin_reliable e Hc0 Hr0) as (Hr1 & Hc1 & _).
  rewrite <- Hp0 in Hf, Hu, He.
  pose proof (create_default_admin_creates e Hc0 Hr0 Hf Hu He) as [Hret Hp1].
  cbv zeta in Hp1, Hret. rewrite Hp0 in *.
  set (s1 := snd (AuthManager.create_default_admin e s0)) in *.
  split; [reflexivity|]. split; [exact Hp1|]. split; [reflexivity|].
  destruct s1 as [p1 w1 fs1]. unfold clean in Hc1. cbn [persisted working] in *.
  subst w1 p1.
  assert (Hfind : find (fun x => str_eqb (User.username x) (lit "admin"))
                    (users (add_user_row (persisted s)
                              (default_admin_row (persisted s) e)))
                  = Some (default_admin_row (persisted s) e)).
  { unfold add_user_row. cbn [users].
    unfold username_taken in Hu. rewrite find_existsb in Hu.
    destruct (find (fun x => str_eqb (User.username x) (lit "admin"))
                (users (persisted s))) eqn:Ef; [discriminate|].
    rewrite (find_app_none _ _ _ Ef). reflexivity. }
  assert (Hlen : (List.length (lit "Admin@123456") <= BCRYPT_MAX_BYTES)%nat)
    by (apply Nat.leb_le; reflexivity).
  destruct (hash_password_returns (lit "Admin@123456") e
              (eq_refl : utf8_encode (lit "Admin@123456")
                         = Some (lit "Admin@123456")) Hlen) as (h & Eh & Hh).
  assert (Hv : AuthManager.verify_password (lit "Admin@123456")
                 (User.password_hash (default_admin_row (persisted s) e)) = true).
  { unfold default_admin_row. rewrite Eh.
    exact (hash_password_verifies _ _ Hh). }
  unfold AuthManager.authenticate_user. unfold_session. cbn [faults working].
  unfold reliable in Hr1. cbn [faults] in Hr1.
  destruct fs1 as [|f fs1];
    [|inversion Hr1 as [|? ? Hf1 _]; subst f];
    cbn [fst snd working]; rewrite Hfind;
    change (User.is_active (default_admin_row (persisted s) e)) with true;
    cbn [negb]; rewrite Hv; reflexivity.
Qed.

(** X10. [initialize_database] reports success whenever nothing raised,
    also when no admin could be set up: with the username [admin] held by a
    user who is not an admin, it returns [True], creates nothing, and the
    table still has no admin. *)
Theorem startup_succeeds_without_admin (s : Session) (e : entropy) :
  clean s -> reliable s ->
  find is_admin (users (persisted s)) = None ->
  username_taken (persisted s) (lit "admin") = true ->
  let started := BrewMetricApp.initialize_database e s in
  fst started = Ok true
  /\ persisted (snd started) = persisted s
  /\ find is_admin (users (persisted (snd started))) = None.
Proof.
  intros Hc Hr Hf Hu. cbv zeta.
  destruct (initialize_database_reliable e Hc Hr)
    as (s0 & Hc0 & Hr0 & Hp0 & Hinit & _).
  rewrite Hinit. cbn [fst snd].
  pose proof (create_default_admin_reliable e Hc0 Hr0) as (_ & _ & H).
  rewrite Hp0, Hf, Hu in H. rewrite andb_false_r in H. simpl in H.
  destruct H as [_ Hp]. rewrite Hp. auto.
Qed.

End StartupProperties.

(** ** The main window *)

(** X11. The audit page is reachable by admins only: in the window of a
    user whose role is not admin there is no audit button and no audit
    page, and whatever keys [switch_page] is called with, the page shown is
    one of dashboard, inventory, waste and reports; in the window of an
    admin, [switch_page] with the audit key shows the audit page. A key
    that names no page changes nothing. *)
Theorem audit_page_for_admin_only (self : MainWindow.t) (keys : list str) :
  let w := fold_left MainWindow.switch_page keys (MainWindow.init_ui self) in
  MainWindow.current_page (MainWindow.init_ui self) = Some (lit "dashboard")
  /\ MainWindow.nav_buttons w = MainWindow.pages w
  /\ (User.role (MainWindow.user self) <> ROLE_ADMIN ->
      ~ In (lit "audit") (MainWindow.nav_buttons w)
      /\ exists k, MainWindow.current_page w = Some k
                   /\ In k [lit "dashboard"; lit "inventory"; lit "waste";
                            lit "reports"])
  /\ (User.role (MainWindow.user self) = ROLE_ADMIN ->
      MainWindow.current_page (MainWindow.switch_page w (lit "audit"))
      = Some (lit "audit"))
  /\ (forall k, ~ In k (MainWindow.pages w) -> MainWindow.switch_page w k = w).
Proof.
  cbv zeta.
  assert (Hinv : forall w0,
             MainWindow.nav_buttons w0 = MainWindow.nav_buttons (MainWindow.init_ui self)
             /\ MainWindow.pages w0 = MainWindow.pages (MainWindow.init_ui self)
             /\ (exists k, MainWindow.current_page w0 = Some k
                           /\ In k (MainWindow.pages w0)) ->
             let w := fold_left MainWindow.switch_page keys w0 in
             MainWindow.nav_buttons w = MainWindow.nav_buttons (MainWindow.init_ui self)
             /\ MainWindow.pages w = MainWindow.pages (MainWindow.init_ui self)
             /\ (exists k, MainWindow.current_page w = Some k
                           /\ In k (MainWindow.pages w))).
  { induction keys as [|k keys IH]; intros w0 H; [exact H|].
    simpl. apply IH. destruct H as (Hn & Hp & Hk).
    unfold MainWindow.switch_page.
    destruct (str_in k (MainWindow.pages w0)) eqn:Ek; simpl; [|auto].
    repeat split; auto. exists k. split; [reflexivity | now apply str_in_In]. }
  assert (Hinit : MainWindow.current_page (MainWindow.init_ui self)
                  = Some (lit "dashboard")).
  { unfold MainWindow.init_ui, MainWindow.create_content_pages,
      MainWindow.switch_page. simpl. reflexivity. }
  specialize (Hinv (MainWindow.init_ui self)).
  destruct Hinv as (Hn & Hp & k & Hk & Hin).
  { repeat split. exists (lit "dashboard"). split; [exact Hinit|].
    unfold MainWindow.init_ui, MainWindow.create_content_pages,
      MainWindow.switch_page. simpl. now left. }
  set (w := fold_left MainWindow.switch_page keys (MainWindow.init_ui self)) in *.
  assert (Hpages : MainWindow.pages (MainWindow.init_ui self)
                   = MainWindow.create_sidebar self)
    by (unfold MainWindow.init_ui, MainWindow.create_content_pages,
          MainWindow.switch_page; reflexivity).
  assert (Hnav : MainWindow.nav_buttons (MainWindow.init_ui self)
                 = MainWindow.create_sidebar self)
    by (unfold MainWindow.init_ui, MainWindow.create_content_pages,
          MainWindow.switch_page; reflexivity).
  split; [exact Hinit|]. split; [congruence|]. split; [|split].
  - intros Hrole. apply str_eqb_neq in Hrole.
    rewrite Hn, Hnav. rewrite Hp, Hpages in Hin.
    unfold MainWindow.create_sidebar in *. rewrite Hrole in *.
    rewrite app_nil_r in *. split.
    + simpl. intros [H|[H|[H|[H|[]]]]]; discriminate.
    + exists k. auto.
  - intros Hrole. unfold MainWindow.switch_page. rewrite Hp, Hpages.
    unfold MainWindow.create_sidebar. rewrite Hrole, str_eqb_refl. reflexivity.
  - intros k' Hk'. unfold MainWindow.switch_page.
    destruct (str_in k' (MainWindow.pages w)) eqn:E; [|reflexivity].
    apply str_in_In in E. contradiction.
Qed.

(** [log_audit_action] on a clean session never raises; it commits the one
    new row or commits nothing. *)
Lemma log_audit_action_spec (self : MainWindow.t) (action entity_type : str)
      (entity_id : Z) (description old_values new_values : option str) (s : Session) :
  clean s ->
  let out := MainWindow.log_audit_action self action entity_type entity_id
               description old_values new_values s in
  fst out = Ok tt
  /\ (persisted (snd out) = persisted s
      \/ persisted (snd out)
         = add_audit_row (persisted s)
             (AuditTrail.mk (next_id (map AuditTrail.id (audit_trails (persisted s))))
                            (User.id (MainWindow.user self)) None action entity_type
                            entity_id old_values new_values description)).
Proof.
  destruct s as [p w fs]. unfold clean. simpl. intros ->.
  unfold MainWindow.log_audit_action. unfold_session. simpl.
  destruct fs as [|[|] fs]; simpl; split; auto.
Qed.

(** X12. [handle_logout]: when the operator declines the confirmation
    nothing changes at all; when the operator confirms, the current user
    and session are cleared whether or not the audit row could be written,
    and the committed rows are what they were or have the one LOGOUT row
    for this user appended. *)
Theorem logout_clears_current_user
        (self : MainWindow.t) (confirmed : bool) (st : AuthManager.state)
        (s : Session) :
  clean s ->
  let out := MainWindow.handle_logout self confirmed st s in
  (confirmed = false -> out = (Ok st, s))
  /\ (confirmed = true ->
      fst out = Ok (AuthManager.mkState None None)
      /\ (persisted (snd out) = persisted s
          \/ persisted (snd out)
             = add_audit_row (persisted s)
                 (logout_audit_row (persisted s) (MainWindow.user self)))).
Proof.
  intros Hc. cbv zeta. split; intros ->.
  - reflexivity.
  - unfold MainWindow.handle_logout. cbn [negb]. unfold bind.
    pose proof (log_audit_action_spec self (lit "LOGOUT") (lit "User")
                  (User.id (MainWindow.user self))
                  (Some (lit "User '" ++ User.username (MainWindow.user self)
                           ++ lit "' logged out")) None None Hc) as [Hr Hp].
    cbv zeta in Hr, Hp.
    destruct (MainWindow.log_audit_action self (lit "LOGOUT") (lit "User") _ _ _ _ s)
      as [r s1].
    cbn [fst snd] in *. subst r. unfold ret. cbn [fst snd].
    split; [reflexivity | exact Hp].
Qed.

(** ** More on the waste write-off *)

Lemma lowered_refl (i : InventoryItem.t) :
  (0 <= InventoryItem.quantity i)%Z -> lowered i i.
Proof. intros H. split; [now destruct i | lia]. Qed.

Lemma lowered_trans (i j k : InventoryItem.t) :
  lowered i j -> lowered j k -> lowered i k.
Proof.
  intros [Hj Hq] [Hk Hq']. split; [|lia].
  rewrite Hk. rewrite Hj at 1. reflexivity.
Qed.

Lemma Forall2_lowered_refl (l : list InventoryItem.t) :
  Forall (fun i => (0 <= InventoryItem.quantity i)%Z) l -> Forall2 lowered l l.
Proof. induction 1; constructor; auto using lowered_refl. Qed.

Lemma Forall2_lowered_trans (l1 l2 l3 : list InventoryItem.t) :
  Forall2 lowered l1 l2 -> Forall2 lowered l2 l3 -> Forall2 lowered l1 l3.
Proof.
  intros H. revert l3. induction H; intros l3 H'; inversion H'; subst;
    constructor; eauto using lowered_trans.
Qed.

Lemma Forall2_lowered_nonneg (l1 l2 : list InventoryItem.t) :
  Forall2 lowered l1 l2 -> Forall (fun i => (0 <= InventoryItem.quantity i)%Z) l2.
Proof. induction 1 as [|i j l1 l2 [_ Hq] _ IH]; constructor; [lia | exact IH]. Qed.

Lemma update_item_quantity_lowered (l : list InventoryItem.t) (it : InventoryItem.t)
      (q : Z) :
  Forall (fun i => (0 <= InventoryItem.quantity i)%Z) l ->
  find (fun i => Z.eqb (InventoryItem.id i) (InventoryItem.id it)) l = Some it ->
  (0 <= q)%Z ->
  Forall2 lowered l
    (update_item_quantity (InventoryItem.id it)
       (Z.max 0 (InventoryItem.quantity it - q)) l).
Proof.
  intros Hl Hf Hq. induction Hl as [|j l Hj Hl IH]; simpl in *; [discriminate|].
  destruct (Z.eqb (InventoryItem.id j) (InventoryItem.id it)) eqn:E.
  - injection Hf as ->. constructor; [|now apply Forall2_lowered_refl].
    split; simpl; [reflexivity | lia].
  - constructor; [now apply lowered_refl | now apply IH].
Qed.

Section WasteInvariants.
Context {C : Config}.

(** A run of dialogs and the inventory table. *)
Lemma run_lowers_stock
      (self : WasteLogPage.t) (inputs : list WasteInput) (s : Session) :
  clean s -> stock_not_negative (persisted s) ->
  let out := WasteLogPage.run self inputs s in
  Forall2 lowered (inventory_items (persisted s))
                  (inventory_items (persisted (snd out)))
  /\ stock_not_negative (persisted (snd out)).
Proof.
  unfold stock_not_negative. revert s.
  induction inputs as [|i rest IH]; intros s Hc Hs; cbv zeta.
  - simpl. split; [now apply Forall2_lowered_refl | assumption].
  - simpl. unfold bind.
    pose proof (show_add_waste_dialog_step self i Hc) as (Hc1 & Hstep).
    destruct (WasteLogPage.show_add_waste_dialog self i s) as [r1 s1].
    cbn [fst snd] in Hc1, Hstep.
    assert (H1 : Forall2 lowered (inventory_items (persisted s))
                                 (inventory_items (persisted s1))).
    { destruct Hstep as [[_ ->] | [(e & _ & ->) | (it & reason & _ & _ & Hrow & _ & _ & ->)]];
        try now apply Forall2_lowered_refl.
      unfold written_off. cbn [inventory_items].
      apply update_item_quantity_lowered; auto.
      apply spin_setValue_range. }
    specialize (IH s1 Hc1 (Forall2_lowered_nonneg H1)). cbv zeta in IH.
    destruct Hstep as [[-> _] | [(e & -> & _) | (it & reason & -> & _)]];
      destruct (WasteLogPage.run self rest s1) as [[os|e2] s2];
      cbn [fst snd] in *; destruct IH as [IH1 IH2];
      (split; [eapply Forall2_lowered_trans; eassumption | assumption]).
Qed.

(** X13. Write-offs only lower stock: after any sequence of write-off
    dialogs, under any fault schedule, the inventory table has the same
    rows in the same order, each with every column but the quantity as it
    was, and with a quantity that is not negative and not above what it
    was. No item is created, deleted or soft-deleted by a write-off. *)
Theorem write_offs_only_lower_stock
        (self : WasteLogPage.t) (inputs : list WasteInput) (s : Session) :
  clean s -> stock_not_negative (persisted s) ->
  let out := WasteLogPage.run self inputs s in
  Forall2 lowered (inventory_items (persisted s))
                  (inventory_items (persisted (snd out)))
  /\ stock_not_negative (persisted (snd out)).
Proof.
  intros Hc Hs. cbv zeta.
  destruct (run_lowers_stock self inputs Hc Hs) as [Hrows Hstock].
  split.
  - exact Hrows.
  - exact Hstock.
Qed.

(** A run of dialogs and what it adds to the waste log. *)
Lemma run_new_logs (self : WasteLogPage.t) (inputs : list WasteInput) (s : Session) :
  clean s ->
  NoDup (map WasteLog.id (waste_logs (persisted s))) ->
  let out := WasteLogPage.run self inputs s in
  exists new_logs,
    waste_logs (persisted (snd out)) = waste_logs (persisted s) ++ new_logs
    /\ Forall (fun w => WasteLog.user_id w = User.id (WasteLogPage.user self)
                        /\ (0 <= WasteLog.quantity w <= 9999)%Z
                        /\ exists it, In it (inventory_items (persisted s))
                                      /\ InventoryItem.id it
                                         = WasteLog.inventory_item_id w)
              new_logs
    /\ NoDup (map WasteLog.id (waste_logs (persisted (snd out)))).
Proof.
  revert s. induction inputs as [|i rest IH]; intros s Hc Hn; cbv zeta.
  - exists []. simpl. rewrite app_nil_r. auto.
  - simpl. unfold bind.
    pose proof (show_add_waste_dialog_step self i Hc) as (Hc1 & Hstep).
    destruct (WasteLogPage.show_add_waste_dialog self i s) as [r1 s1].
    cbn [fst snd] in Hc1, Hstep.
    assert (Hids : map InventoryItem.id (inventory_items (persisted s1))
                   = map InventoryItem.id (inventory_items (persisted s))).
    { destruct Hstep as [[_ ->] | [(e & _ & ->) | (it & reason & _ & _ & _ & _ & _ & ->)]];
        try reflexivity.
      unfold written_off. cbn [inventory_items].
      generalize (Z.max 0 (InventoryItem.quantity it - requested_quantity i)).
      intros q. induction (inventory_items (persisted s)) as [|j l IHl]; simpl;
        [reflexivity|].
      destruct (Z.eqb (InventoryItem.id j) (InventoryItem.id it)); simpl;
        [reflexivity | now f_equal]. }
    assert (Hstep' :
              (waste_logs (persisted s1) = waste_logs (persisted s)
               \/ exists it reason,
                    item_row (persisted s) (InventoryItem.id it) = Some it
                    /\ waste_logs (persisted s1)
                       = waste_logs (persisted s)
                         ++ [WasteLog.mk
                               (next_id (map WasteLog.id (waste_logs (persisted s))))
                               (InventoryItem.id it) (User.id (WasteLogPage.user self))
                               (requested_quantity i) reason (enter_notes i)])).
    { destruct Hstep as [[_ ->] | [(e & _ & ->) | (it & reason & _ & _ & Hrow & _ & _ & ->)]];
        auto.
      right. exists it, reason. split; [assumption | reflexivity]. }
    assert (Hn1 : NoDup (map WasteLog.id (waste_logs (persisted s1)))).
    { destruct Hstep' as [-> | (it & reason & _ & ->)]; [assumption|].
      rewrite map_app. simpl. apply NoDup_snoc; [assumption | apply next_id_fresh]. }
    specialize (IH s1 Hc1 Hn1). cbv zeta in IH.
    destruct IH as (new' & Hw & Hall & Hnd).
    assert (Hall' : Forall (fun w => WasteLog.user_id w = User.id (WasteLogPage.user self)
                        /\ (0 <= WasteLog.quantity w <= 9999)%Z
                        /\ exists it, In it (inventory_items (persisted s))
                                      /\ InventoryItem.id it
                                         = WasteLog.inventory_item_id w) new').
    { eapply Forall_impl; [|exact Hall]. intros w (Hu & Hq & it & Hin & Hid).
      split; [exact Hu|]. split; [exact Hq|].
      assert (Hm : In (InventoryItem.id it)
                      (map InventoryItem.id (inventory_items (persisted s))))
        by (rewrite <- Hids; now apply in_map).
      apply in_map_iff in Hm as (it' & Hid' & Hin'). exists it'.
      split; [exact Hin' | congruence]. }
    assert (Hsnd : forall r, snd (let (r0, s') := WasteLogPage.run self rest s1 in
                       match r0 with
                       | Ok a => ret (r :: a) s'
                       | Raise e => (Raise e, s')
                       end) = snd (WasteLogPage.run self rest s1)).
    { intros r. destruct (WasteLogPage.run self rest s1) as [[os|e2] s2]; reflexivity. }
    assert (Hout : exists s2,
               s2 = snd (WasteLogPage.run self rest s1)
               /\ snd (match r1 with
                       | Ok a =>
                           let (r0, s') := WasteLogPage.run self rest s1 in
                           match r0 with
                           | Ok a0 => ret (a :: a0) s'
                           | Raise e => (Raise e, s')
                           end
                       | Raise e => (Raise e, s1)
                       end) = s2).
    { destruct Hstep as [[-> _] | [(e & -> & _) | (it & reason & -> & _)]];
        eexists; split; try reflexivity; apply Hsnd. }
    destruct Hout as (s2 & -> & ->).
    destruct Hstep' as [E | (it & reason & Hrow & E)]; rewrite E in Hw.
    + exists new'. auto.
    + eexists. split; [rewrite Hw, <- app_assoc; reflexivity|].
      split; [|assumption].
      constructor; [|assumption]. simpl. split; [reflexivity|].
      split; [apply spin_setValue_range|].
      exists it. split; [|reflexivity]. unfold item_row in Hrow.
      now apply find_some in Hrow.
Qed.

End WasteInvariants.

Lemma py_sum_cons (x : Z) (l : list Z) :
  InventoryQueries.py_sum (x :: l) = (x + InventoryQueries.py_sum l)%Z.
Proof.
  unfold InventoryQueries.py_sum. simpl.
  assert (H : forall a, fold_left Z.add l a = (a + fold_left Z.add l 0)%Z).
  { induction l as [|y l IH]; intros a; simpl; [lia|].
    rewrite (IH (a + y)%Z), (IH y). lia. }
  apply H.
Qed.

Lemma lowered_value (l l' : list InventoryItem.t) :
  Forall2 lowered l l' ->
  Forall (fun i => (0 <= InventoryItem.unit_cost i)%Z) l ->
  (InventoryQueries.py_sum
     (map InventoryItem.get_stock_value
          (filter (fun i => negb (InventoryItem.is_deleted i)) l'))
   <= InventoryQueries.py_sum
        (map InventoryItem.get_stock_value
             (filter (fun i => negb (InventoryItem.is_deleted i)) l)))%Z.
Proof.
  induction 1 as [|i j l l' [Hj Hq] _ IH]; intros Hc; simpl; [lia|].
  inversion Hc as [|? ? Hci Hcl]; subst. specialize (IH Hcl).
  assert (Hd : InventoryItem.is_deleted j = InventoryItem.is_deleted i)
    by (rewrite Hj; reflexivity).
  assert (Hv : (InventoryItem.get_stock_value j <= InventoryItem.get_stock_value i)%Z).
  { unfold InventoryItem.get_stock_value.
    replace (InventoryItem.unit_cost j) with (InventoryItem.unit_cost i)
      by (rewrite Hj; reflexivity).
    nia. }
  rewrite Hd. destruct (InventoryItem.is_deleted i); simpl; [exact IH|].
  rewrite !py_sum_cons. lia.
Qed.

Lemma get_total_inventory_value_spec (s : Session) (v : Z) :
  fst (InventoryQueries.get_total_inventory_value s) = Ok v ->
  v = inventory_value (working s).
Proof.
  destruct s as [p w fs]. unfold InventoryQueries.get_total_inventory_value.
  unfold_session. simpl. destruct fs as [|[|] fs]; simpl; intros [= <-]; reflexivity.
Qed.

Section WasteAndValue.
Context {C : Config}.

(** X14. Every log row a write-off adds is attributed to the user of the
    page, names an item of the inventory table, and holds a quantity
    between 0.00 and 99.99; the rows that were there stay in front,
    untouched, and the row ids stay distinct. *)
Theorem write_offs_are_attributed
        (self : WasteLogPage.t) (inputs : list WasteInput) (s : Session) :
  clean s ->
  NoDup (map WasteLog.id (waste_logs (persisted s))) ->
  let out := WasteLogPage.run self inputs s in
  exists new_logs,
    waste_logs (persisted (snd out)) = waste_logs (persisted s) ++ new_logs
    /\ Forall (fun w => WasteLog.user_id w = User.id (WasteLogPage.user self)
                        /\ (0 <= WasteLog.quantity w <= 9999)%Z
                        /\ exists it, In it (inventory_items (persisted s))
                                      /\ InventoryItem.id it
                                         = WasteLog.inventory_item_id w)
              new_logs
    /\ NoDup (map WasteLog.id (waste_logs (persisted (snd out)))).
Proof.
  intros Hc Hn. cbv zeta.
  destruct (run_new_logs self inputs Hc Hn) as (new_logs & Hw & Hall & Hids).
  exists new_logs. split; [exact Hw|]. split; [exact Hall | exact Hids].
Qed.

(** X15. Write-offs never raise the value of the inventory: when no stock
    and no unit cost is negative, the total that
    [get_total_inventory_value] returns after any sequence of write-off
    dialogs is at most the total it returned before. *)
Theorem write_offs_never_raise_value
        (self : WasteLogPage.t) (inputs : list WasteInput) (s : Session)
        (before after : Z) :
  clean s -> stock_not_negative (persisted s) -> costs_not_negative (persisted s) ->
  let out := WasteLogPage.run self inputs s in
  fst (InventoryQueries.get_total_inventory_value s) = Ok before ->
  fst (InventoryQueries.get_total_inventory_value (snd out)) = Ok after ->
  (after <= before)%Z.
Proof.
  intros Hc Hs Hcost. cbv zeta. intros Hb Ha.
  apply get_total_inventory_value_spec in Hb, Ha.
  destruct (run_spec self inputs Hc) as (_ & _ & _ & Hc2 & _).
  pose proof (run_lowers_stock self inputs Hc Hs) as [Hl _].
  cbv zeta in Hl, Hc2. unfold clean in Hc, Hc2. rewrite Hc in Hb. rewrite Hc2 in Ha.
  subst. unfold inventory_value. now apply lowered_value.
Qed.

End WasteAndValue.

(** ** The inventory queries *)

Lemma str_leb_total (a b : str) : str_leb a b = false -> str_leb b a = true.
Proof.
  revert b. induction a as [|x a IH]; intros [|y b]; simpl; try discriminate; auto.
  intros H. apply orb_false_iff in H as [Hlt H].
  apply N.ltb_ge in Hlt. destruct (N.eqb x y) eqn:E; simpl in H.
  - apply N.eqb_eq in E. subst y. rewrite N.ltb_irrefl, N.eqb_refl. simpl. auto.
  - apply N.eqb_neq in E. assert (Hyx : (y < x)%N) by lia.
    apply N.ltb_lt in Hyx. now rewrite Hyx.
Qed.

Lemma insert_by_name_perm (x : InventoryItem.t) (l : list InventoryItem.t) :
  Permutation (insert_by_name x l) (x :: l).
Proof.
  induction l as [|y l IH]; simpl; [reflexivity|].
  destruct (str_leb _ _); [reflexivity|].
  rewrite IH. apply perm_swap.
Qed.

Lemma order_by_name_perm (l : list InventoryItem.t) :
  Permutation (order_by_name l) l.
Proof.
  unfold order_by_name. induction l as [|x l IH]; simpl; [reflexivity|].
  rewrite insert_by_name_perm. now constructor.
Qed.

Lemma insert_by_name_sorted (x : InventoryItem.t) (l : list InventoryItem.t) :
  Sorted name_le l -> Sorted name_le (insert_by_name x l).
Proof.
  induction 1 as [|y l Hl IH Hy]; simpl; [repeat constructor|].
  destruct (str_leb (InventoryItem.name x) (InventoryItem.name y)) eqn:E.
  - constructor; [now constructor|]. constructor. exact E.
  - constructor; [exact IH|].
    destruct l as [|z l]; simpl.
    + constructor. now apply str_leb_total.
    + destruct (str_leb (InventoryItem.name x) (InventoryItem.name z)).
      * constructor. now apply str_leb_total.
      * constructor. now inversion Hy.
Qed.

Lemma order_by_name_sorted (l : list InventoryItem.t) :
  Sorted name_le (order_by_name l).
Proof.
  unfold order_by_name. induction l as [|x l IH]; simpl; [constructor|].
  now apply insert_by_name_sorted.
Qed.

(** X16. [get_all_items] and [get_by_category] return every row that is
    not soft-deleted (of the category asked for) exactly once, in the order
    of the names, and no soft-deleted row; with [exclude_deleted] off,
    [get_all_items] returns every row. *)
Theorem active_queries_skip_deleted_rows
        (s : Session) (exclude_deleted : bool) (category : str)
        (all cat : list InventoryItem.t) :
  fst (InventoryQueries.get_all_items exclude_deleted s) = Ok all ->
  fst (InventoryQueries.get_by_category category s) = Ok cat ->
  Permutation all
    (if exclude_deleted
     then filter (fun i => negb (InventoryItem.is_deleted i))
                 (inventory_items (working s))
     else inventory_items (working s))
  /\ Sorted name_le all
  /\ Permutation cat
       (filter (fun i => str_eqb (InventoryItem.category i) category
                         && negb (InventoryItem.is_deleted i))
               (inventory_items (working s)))
  /\ Sorted name_le cat
  /\ (forall i, In i cat ->
        InventoryItem.is_deleted i = false /\ InventoryItem.category i = category).
Proof.
  destruct s as [p w fs].
  unfold InventoryQueries.get_all_items, InventoryQueries.get_by_category.
  unfold_session. simpl.
  assert (Hff : forall l,
             filter (fun i => negb (InventoryItem.is_deleted i))
                    (filter (fun i => str_eqb (InventoryItem.category i) category) l)
             = filter (fun i => str_eqb (InventoryItem.category i) category
                                && negb (InventoryItem.is_deleted i)) l).
  { induction l as [|i l IH]; simpl; [reflexivity|].
    destruct (str_eqb (InventoryItem.category i) category); simpl;
      [destruct (negb (InventoryItem.is_deleted i)); now rewrite IH | exact IH]. }
  destruct fs as [|[|] fs]; simpl; intros Hall Hcat; try discriminate;
    injection Hall as <-; injection Hcat as <-; rewrite Hff.
  all: split; [apply order_by_name_perm|].
  all: split; [apply order_by_name_sorted|].
  all: split; [apply order_by_name_perm|].
  all: split; [apply order_by_name_sorted|].
  all: intros i Hi; apply (Permutation_in _ (order_by_name_perm _)) in Hi;
    apply filter_In in Hi as [_ Hi]; apply andb_true_iff in Hi as [Hc Hd];
    apply str_eqb_eq in Hc; split; [now destruct (InventoryItem.is_deleted i) | exact Hc].
Qed.

Lemma insert_by_quantity_perm (x : InventoryItem.t) (l : list InventoryItem.t) :
  Permutation (InventoryQueries.insert_by_quantity x l) (x :: l).
Proof.
  induction l as [|y l IH]; simpl; [reflexivity|].
  destruct (Z.leb _ _); [reflexivity|].
  rewrite IH. apply perm_swap.
Qed.

Lemma order_by_quantity_perm (l : list InventoryItem.t) :
  Permutation (InventoryQueries.order_by_quantity l) l.
Proof.
  unfold InventoryQueries.order_by_quantity.
  induction l as [|x l IH]; simpl; [reflexivity|].
  rewrite insert_by_quantity_perm. now constructor.
Qed.

Lemma insert_by_quantity_sorted (x : InventoryItem.t) (l : list InventoryItem.t) :
  StronglySorted quantity_le l ->
  StronglySorted quantity_le (InventoryQueries.insert_by_quantity x l).
Proof.
  induction 1 as [|y l Hl IH Hy]; simpl; [repeat constructor|].
  destruct (Z.leb (InventoryItem.quantity x) (InventoryItem.quantity y)) eqn:E.
  - apply Z.leb_le in E. constructor; [now constructor|].
    constructor; [exact E|].
    eapply Forall_impl; [|exact Hy]. unfold quantity_le. intros; lia.
  - apply Z.leb_gt in E. constructor; [exact IH|].
    apply Forall_forall. intros z Hz.
    apply (Permutation_in _ (insert_by_quantity_perm x l)) in Hz as [<-|Hz].
    + unfold quantity_le. lia.
    + revert z Hz. now apply Forall_forall.
Qed.

Lemma order_by_quantity_sorted (l : list InventoryItem.t) :
  StronglySorted quantity_le (InventoryQueries.order_by_quantity l).
Proof.
  unfold InventoryQueries.order_by_quantity.
  induction l as [|x l IH]; simpl; [constructor|].
  now apply insert_by_quantity_sorted.
Qed.

Lemma StronglySorted_app_inv {A} (R : A -> A -> Prop) (l1 l2 : list A) :
  StronglySorted R (l1 ++ l2) ->
  StronglySorted R l1 /\ forall a b, In a l1 -> In b l2 -> R a b.
Proof.
  induction l1 as [|x l1 IH]; simpl; intros H.
  - split; [constructor | intros a b []].
  - inversion H as [|? ? Hs Hx]; subst. apply IH in Hs as [Hs Hab].
    split.
    + constructor; [exact Hs|]. apply Forall_forall. intros y Hy.
      rewrite Forall_forall in Hx. apply Hx. apply in_or_app. now left.
    + intros a b [<-|Ha] Hb; [|now apply Hab].
      rewrite Forall_forall in Hx. apply Hx. apply in_or_app. now right.
Qed.

(** X17. [get_low_stock_items] returns rows of the table that are below
    their threshold and not soft-deleted, lowest stock first, at most
    [limit] of them; a qualifying row that is left out has at least the
    stock of every row returned, and is only left out when the limit is
    reached. A negative limit leaves nothing out. *)
Theorem low_stock_items_lowest_first
        (s : Session) (limit : Z) (low : list InventoryItem.t) :
  fst (InventoryQueries.get_low_stock_items limit s) = Ok low ->
  (forall i, In i low ->
     In i (inventory_items (working s))
     /\ InventoryItem.is_below_threshold i = true
     /\ InventoryItem.is_deleted i = false)
  /\ StronglySorted quantity_le low
  /\ ((0 <= limit)%Z -> (List.length low <= Z.to_nat limit)%nat)
  /\ (forall x, In x (inventory_items (working s)) ->
        InventoryItem.is_below_threshold x = true ->
        InventoryItem.is_deleted x = false ->
        In x low
        \/ ((0 <= limit)%Z /\ List.length low = Z.to_nat limit
            /\ forall y, In y low -> quantity_le y x)).
Proof.
  destruct s as [p w fs]. unfold InventoryQueries.get_low_stock_items.
  unfold_session. simpl.
  set (qualifying := filter (fun i => negb (InventoryItem.is_deleted i))
                       (filter (fun i => Z.ltb (InventoryItem.quantity i)
                                               (InventoryItem.min_threshold i))
                          (inventory_items w))).
  set (sorted := InventoryQueries.order_by_quantity qualifying).
  assert (Hq : forall i, In i sorted <->
                 In i (inventory_items w)
                 /\ InventoryItem.is_below_threshold i = true
                 /\ InventoryItem.is_deleted i = false).
  { intros i. unfold sorted, qualifying. split.
    - intros Hi. apply (Permutation_in _ (order_by_quantity_perm _)) in Hi.
      apply filter_In in Hi as [Hi Hd]. apply filter_In in Hi as [Hi Hb].
      repeat split; auto. now destruct (InventoryItem.is_deleted i).
    - intros (Hi & Hb & Hd).
      apply (Permutation_in _ (Permutation_sym (order_by_quantity_perm _))).
      apply filter_In. split; [apply filter_In; auto | now rewrite Hd]. }
  pose proof (order_by_quantity_sorted qualifying) as Hs. fold sorted in Hs.
  assert (Hres : low = InventoryQueries.sql_limit limit sorted ->
                 (forall i, In i low ->
                    In i (inventory_items w)
                    /\ InventoryItem.is_below_threshold i = true
                    /\ InventoryItem.is_deleted i = false)
                 /\ StronglySorted quantity_le low
                 /\ ((0 <= limit)%Z -> (List.length low <= Z.to_nat limit)%nat)
                 /\ (forall x, In x (inventory_items w) ->
                       InventoryItem.is_below_threshold x = true ->
                       InventoryItem.is_deleted x = false ->
                       In x low
                       \/ ((0 <= limit)%Z /\ List.length low = Z.to_nat limit
                           /\ forall y, In y low -> quantity_le y x))).
  { intros ->. unfold InventoryQueries.sql_limit.
    destruct (Z.ltb limit 0) eqn:El.
    - apply Z.ltb_lt in El. split; [intros i Hi; now apply Hq|].
      split; [exact Hs|]. split; [lia|].
      intros x H1 H2 H3. left. now apply Hq.
    - apply Z.ltb_ge in El. set (n := Z.to_nat limit).
      rewrite <- (firstn_skipn n sorted) in Hs.
      apply StronglySorted_app_inv in Hs as [Hs1 Hs2].
      split; [intros i Hi; apply Hq; rewrite <- (firstn_skipn n sorted);
              apply in_or_app; now left|].
      split; [exact Hs1|]. split; [intros _; apply firstn_le_length|].
      intros x H1 H2 H3.
      assert (Hx : In x sorted) by now apply Hq.
      rewrite <- (firstn_skipn n sorted) in Hx.
      apply in_app_or in Hx as [Hx|Hx]; [now left|]. right.
      split; [exact El|]. split.
      + apply firstn_length_le.
        destruct (Nat.le_gt_cases n (List.length sorted)) as [Hle|Hgt]; [exact Hle|].
        rewrite skipn_all2 in Hx by lia. destruct Hx.
      + intros y Hy. now apply Hs2. }
  destruct fs as [|[|] fs]; simpl; intros H; try discriminate;
    injection H as <-; now apply Hres.
Qed.

(** ** Expiry *)

Lemma days_between_nonneg (a b : Z) :
  (0 <= Dated.days_between a b)%Z <-> (b <= a)%Z.
Proof.
  unfold Dated.days_between, Dated.day.
  pose proof (Z.div_mod (a - b) 86400000000 ltac:(lia)) as Hdm.
  pose proof (Z.mod_pos_bound (a - b) 86400000000 ltac:(lia)) as Hm.
  split; intros H; nia.
Qed.

Lemma days_between_le (a b n : Z) :
  (Dated.days_between a b <= n)%Z <-> (a < b + (n + 1) * Dated.day)%Z.
Proof.
  unfold Dated.days_between, Dated.day.
  pose proof (Z.div_mod (a - b) 86400000000 ltac:(lia)) as Hdm.
  pose proof (Z.mod_pos_bound (a - b) 86400000000 ltac:(lia)) as Hm.
  split; intros H; nia.
Qed.

Lemma is_expiring_soon_spec (self : Dated.t) (utcnow days : Z) :
  (exists e, Dated.expiration_date self = Some e
             /\ (utcnow <= e < utcnow + (days + 1) * Dated.day)%Z)
  <-> Dated.is_expiring_soon self utcnow days = true.
Proof.
  unfold Dated.is_expiring_soon.
  destruct (Dated.expiration_date self) as [e|].
  - rewrite andb_true_iff, !Z.leb_le, days_between_nonneg, days_between_le.
    split.
    + intros (e' & [= <-] & H). lia.
    + intros H. exists e. split; [reflexivity | lia].
  - split; [intros (e & H & _); discriminate | discriminate].
Qed.

(** X18. [is_expiring_soon(days)] holds exactly for an item whose
    expiration date lies from now up to, but not including, [days + 1]
    days from now: the difference is counted in whole days, so an item
    that expires in 7 days and 23 hours is expiring within 7 days. An item
    that [is_expired] or has no expiration date is not expiring soon. *)
Theorem expiring_soon_window (self : Dated.t) (utcnow days : Z) :
  (Dated.is_expiring_soon self utcnow days = true
   <-> exists e, Dated.expiration_date self = Some e
                 /\ (utcnow <= e < utcnow + (days + 1) * Dated.day)%Z)
  /\ (Dated.is_expired self utcnow = true ->
      Dated.is_expiring_soon self utcnow days = false)
  /\ (Dated.expiration_date self = None ->
      Dated.is_expiring_soon self utcnow days = false
      /\ Dated.is_expired self utcnow = false).
Proof.
  split; [|split].
  - rewrite <- is_expiring_soon_spec. reflexivity.
  - intros He.
    destruct (Dated.is_expiring_soon self utcnow days) eqn:E; [|reflexivity].
    apply is_expiring_soon_spec in E as (e & He' & Hr).
    unfold Dated.is_expired in He. rewrite He' in He. apply Z.ltb_lt in He. lia.
  - intros Hn. unfold Dated.is_expiring_soon, Dated.is_expired. rewrite Hn.
    split; reflexivity.
Qed.

Lemma insert_by_expiration_In (x i : Dated.t) (l : list Dated.t) :
  In i (Dated.insert_by_expiration x l) -> i = x \/ In i l.
Proof.
  induction l as [|y l IH]; simpl.
  - intros [<-|[]]. now left.
  - destruct (Dated.expiration_date x) as [a|];
      [destruct (Dated.expiration_date y) as [b|]; [destruct (Z.leb a b)|]|];
      simpl; intros [<-|H]; auto; apply IH in H as [->|H]; auto.
Qed.

(** X19. [get_expiring_items] and [is_expiring_soon] do not draw the same
    line. Every row the query returns is a row of the table that is not
    soft-deleted and that the method calls expiring soon; but a row that
    expires more than [days] times 24 hours from now and less than a day
    after that is expiring soon for the method and is not returned by the
    query. *)
Theorem expiring_query_is_narrower_than_method :
  (forall rows utcnow1 utcnow2 days i,
      (utcnow1 <= utcnow2)%Z ->
      In i (Dated.get_expiring_items rows utcnow1 utcnow2 days) ->
      In i rows
      /\ InventoryItem.is_deleted (Dated.row i) = false
      /\ Dated.is_expiring_soon i utcnow2 days = true)
  /\ (forall self e utcnow days,
         Dated.expiration_date self = Some e ->
         (utcnow + days * Dated.day < e < utcnow + (days + 1) * Dated.day)%Z ->
         (0 <= days)%Z ->
         Dated.is_expiring_soon self utcnow days = true
         /\ Dated.get_expiring_items [self] utcnow utcnow days = []).
Proof.
  split.
  - intros rows now1 now2 days i Hnow Hi. unfold Dated.get_expiring_items in Hi.
    assert (Hin : forall l, In i (fold_right Dated.insert_by_expiration [] l) -> In i l).
    { induction l as [|x l IH]; simpl; [tauto|].
      intros H. apply insert_by_expiration_In in H as [->|H]; auto. }
    apply Hin in Hi. apply filter_In in Hi as [Hi Hd].
    apply filter_In in Hi as [Hi Hlo]. apply filter_In in Hi as [Hi Hhi].
    split; [exact Hi|]. split; [now destruct (InventoryItem.is_deleted (Dated.row i))|].
    apply (proj1 (is_expiring_soon_spec i now2 days)).
    destruct (Dated.expiration_date i) as [e|]; [|discriminate].
    apply Z.leb_le in Hlo, Hhi. exists e. split; [reflexivity|].
    unfold Dated.day in *. lia.
  - intros self e now days He Hr Hd. split.
    + apply (proj1 (is_expiring_soon_spec self now days)).
      exists e. split; [exact He | unfold Dated.day in *; lia].
    + unfold Dated.get_expiring_items. simpl. rewrite He.
      assert (Hc : Z.leb e (now + days * Dated.day) = false)
        by (apply Z.leb_gt; lia).
      rewrite Hc. reflexivity.
Qed.

(** ** The inventory page *)

Ltac unfold_inventory :=
  unfold InventoryPage.load_inventory, InventoryQueries.get_all_items,
    session_add_item, set_item_columns in *.

Lemma AddItemDialog_exec_accepted {I : InventoryConfig}
      (input : ItemInput) (d0 d : AddItemDialog.t) :
  AddItemDialog.exec input d0 = (true, d) ->
  press_save input = true
  /\ AddItemDialog.name d = AddItemDialog.or_shown (type_name input)
                              (AddItemDialog.name_input d0)
  /\ AddItemDialog.name d <> []
  /\ AddItemDialog.quantity d
     = match enter_stock input with
       | Some v => Qt.spin_setValue v
       | None => AddItemDialog.qty_input d0
       end.
Proof.
  unfold AddItemDialog.exec, AddItemDialog.accept, AddItemDialog.edit. simpl.
  destruct (press_save input); [|discriminate].
  destruct (AddItemDialog.or_shown (type_name input) (AddItemDialog.name_input d0))
    as [|c n] eqn:En; [discriminate|].
  intros [= <-]. simpl. repeat split; auto. discriminate.
Qed.

Section InventoryPageProperties.
Context {I : InventoryConfig}.

(** X20. Adding an item is for admins only, whatever [has_permission]
    says: for a user whose role is not admin [show_add_dialog] answers
    "permission denied" and leaves the session, fault schedule included,
    as it was, although [has_permission] grants [add_item] to staff. The
    committed rows change only for an admin, by one new row that has a
    name, is not soft-deleted and has a stock between 0.00 and 99.99. *)
Theorem add_item_is_for_admins_only
        (self : InventoryPage.t) (input : ItemInput) (s : Session) :
  let out := InventoryPage.show_add_dialog self input s in
  (User.role (InventoryPage.user self) <> ROLE_ADMIN ->
     out = (Ok PermissionDenied, s))
  /\ (User.role (InventoryPage.user self) = ROLE_STAFF ->
      AuthManager.has_permission (Some (InventoryPage.user self)) (lit "add_item") = true
      /\ out = (Ok PermissionDenied, s))
  /\ (clean s ->
      persisted (snd out) = persisted s
      \/ exists row,
           User.role (InventoryPage.user self) = ROLE_ADMIN
           /\ fst out = Ok ItemSaved
           /\ persisted (snd out) = add_item_row (persisted s) row
           /\ InventoryItem.id row
              = next_id (map InventoryItem.id (inventory_items (persisted s)))
           /\ InventoryItem.name row <> []
           /\ InventoryItem.is_deleted row = false
           /\ (0 <= InventoryItem.quantity row <= 9999)%Z).
Proof.
  cbv zeta.
  assert (Hdenied : User.role (InventoryPage.user self) <> ROLE_ADMIN ->
                    InventoryPage.show_add_dialog self input s
                    = (Ok PermissionDenied, s)).
  { intros Hrole. apply str_eqb_neq in Hrole.
    unfold InventoryPage.show_add_dialog. now rewrite Hrole. }
  split; [exact Hdenied|]. split.
  - intros Hstaff. split.
    + unfold AuthManager.has_permission. rewrite Hstaff. reflexivity.
    + apply Hdenied. rewrite Hstaff. discriminate.
  - intros Hc. unfold InventoryPage.show_add_dialog.
    destruct (str_eqb (User.role (InventoryPage.user self)) ROLE_ADMIN) eqn:Er;
      [|left; reflexivity].
    apply str_eqb_eq in Er. cbn [negb].
    destruct (AddItemDialog.exec input AddItemDialog.init) as [[|] d] eqn:Ex;
      [|left; reflexivity].
    apply AddItemDialog_exec_accepted in Ex as (_ & _ & Hname & Hq).
    assert (Hrange : (0 <= AddItemDialog.quantity d <= 9999)%Z).
    { rewrite Hq. destruct (enter_stock input); apply spin_setValue_range. }
    destruct s as [p w fs]. unfold clean in Hc. simpl in Hc. subst w.
    unfold_inventory. unfold_session. simpl. walk.
    all: try solve [left; reflexivity].
    all: right; eexists; split; [exact Er|]; split; [reflexivity|];
      split; [reflexivity|]; simpl; auto.
Qed.

(** The committed rows after [show_add_dialog] on a clean session. *)
Lemma show_add_dialog_persisted
      (self : InventoryPage.t) (input : ItemInput) (s : Session) :
  clean s ->
  persisted (snd (InventoryPage.show_add_dialog self input s)) = persisted s
  \/ exists row,
       persisted (snd (InventoryPage.show_add_dialog self input s))
       = add_item_row (persisted s) row
       /\ (0 <= InventoryItem.quantity row <= 9999)%Z.
Proof.
  intros Hc. unfold InventoryPage.show_add_dialog.
  destruct (str_eqb (User.role (InventoryPage.user self)) ROLE_ADMIN);
    [|left; reflexivity].
  cbn [negb].
  destruct (AddItemDialog.exec input AddItemDialog.init) as [[|] d] eqn:Ex;
    [|left; reflexivity].
  apply AddItemDialog_exec_accepted in Ex as (_ & _ & _ & Hq).
  assert (Hrange : (0 <= AddItemDialog.quantity d <= 9999)%Z).
  { rewrite Hq. destruct (enter_stock input); apply spin_setValue_range. }
  destruct s as [p w fs]. unfold clean in Hc. simpl in Hc. subst w.
  unfold_inventory. unfold_session. simpl. walk.
  all: try solve [left; reflexivity].
  all: right; eexists; split; [reflexivity | exact Hrange].
Qed.

Lemma update_item_in_range (item_id : Z) (f : InventoryItem.t -> InventoryItem.t)
      (l : list InventoryItem.t) :
  Forall (fun i => (0 <= InventoryItem.quantity i <= 9999)%Z) l ->
  (forall i, (0 <= InventoryItem.quantity (f i) <= 9999)%Z) ->
  Forall (fun i => (0 <= InventoryItem.quantity i <= 9999)%Z) (update_item item_id f l).
Proof.
  intros Hl Hf. induction Hl as [|j l Hj Hl IH]; simpl; [constructor|].
  destruct (Z.eqb (InventoryItem.id j) item_id); constructor; auto.
Qed.

(** The committed rows after an edit on a clean session, under any fault
    schedule. *)
Lemma on_item_double_click_persisted
      (self : InventoryPage.t) (current_row : option Z) (input : ItemInput)
      (s : Session) :
  clean s ->
  let out := InventoryPage.on_item_double_click self current_row input s in
  persisted (snd out) = persisted s
  \/ exists item_id it dialog,
       current_row = Some item_id
       /\ item_row (persisted s) item_id = Some it
       /\ AddItemDialog.exec input (EditItemDialog.init it) = (true, dialog)
       /\ fst out = Ok ItemSaved
       /\ persisted (snd out)
          = with_items (persisted s)
              (update_item item_id (InventoryPage.assign dialog)
                 (inventory_items (persisted s))).
Proof.
  intros Hc. cbv zeta. unfold InventoryPage.on_item_double_click.
  destruct current_row as [item_id|]; [|left; reflexivity].
  destruct s as [p w fs]. unfold clean in Hc. simpl in Hc. subst w.
  unfold try_except, bind at 1, query_item_get. unfold_session. simpl.
  destruct fs as [|[|] fs]; simpl; try solve [left; reflexivity].
  all: destruct (find (fun i => Z.eqb (InventoryItem.id i) item_id) (inventory_items p))
    as [it|] eqn:Ef; simpl; try solve [left; reflexivity].
  all: destruct (AddItemDialog.exec input (EditItemDialog.init it)) as [[|] d] eqn:Ex;
    simpl; try solve [left; reflexivity].
  all: unfold_inventory; unfold_session; simpl; walk.
  all: try solve [left; reflexivity].
  all: right; exists item_id, it, d; repeat split; auto.
Qed.

(** X21. The dialogs keep the stock within the range of their spin boxes:
    if every stock quantity is between 0.00 and 99.99, it is so after
    adding an item, after editing an item and after any sequence of waste
    write-offs, under any fault schedule. *)
Theorem dialogs_keep_stock_in_range
        {C : Config} (page : InventoryPage.t) (waste_page : WasteLogPage.t)
        (input : ItemInput) (current_row : option Z) (wastes : list WasteInput)
        (s : Session) :
  clean s -> stock_in_range (persisted s) ->
  stock_in_range (persisted (snd (InventoryPage.show_add_dialog page input s)))
  /\ stock_in_range
       (persisted (snd (InventoryPage.on_item_double_click page current_row input s)))
  /\ stock_in_range (persisted (snd (WasteLogPage.run waste_page wastes s))).
Proof.
  intros Hc Hs. unfold stock_in_range in *. split; [|split].
  - destruct (show_add_dialog_persisted page input Hc)
      as [-> | (row & -> & Hq)]; [assumption|].
    unfold add_item_row. cbn [inventory_items]. apply Forall_app. split; auto.
  - destruct (on_item_double_click_persisted page current_row input Hc)
      as [-> | (item_id & it & d & _ & _ & Hex & _ & ->)]; [assumption|].
    unfold with_items. cbn [inventory_items].
    apply update_item_in_range; [assumption|].
    intros i. unfold InventoryPage.assign. simpl.
    apply AddItemDialog_exec_accepted in Hex as (_ & _ & _ & ->).
    destruct (enter_stock input); apply spin_setValue_range.
  - assert (Hnn : stock_not_negative (persisted s)).
    { unfold stock_not_negative. eapply Forall_impl; [|exact Hs]. simpl. lia. }
    destruct (run_lowers_stock waste_page wastes Hc Hnn) as [Hl _].
    cbv zeta in Hl.
    revert Hs Hl.
    generalize (inventory_items (persisted s)).
    generalize (inventory_items (persisted (snd (WasteLogPage.run waste_page wastes s)))).
    intros l' l Hs Hl. induction Hl as [|i j l l' [_ Hq] _ IH]; [constructor|].
    inversion Hs; subst. constructor; [lia | auto].
Qed.

End InventoryPageProperties.

Lemma find_update_item (item_id : Z) (f : InventoryItem.t -> InventoryItem.t)
      (l : list InventoryItem.t) (it : InventoryItem.t) :
  find (fun i => Z.eqb (InventoryItem.id i) item_id) l = Some it ->
  InventoryItem.id (f it) = InventoryItem.id it ->
  find (fun i => Z.eqb (InventoryItem.id i) item_id) (update_item item_id f l)
  = Some (f it).
Proof.
  intros Hf Hid. induction l as [|j l IH]; simpl in *; [discriminate|].
  destruct (Z.eqb (InventoryItem.id j) item_id) eqn:E; simpl.
  - injection Hf as ->. now rewrite Hid, E.
  - rewrite E. now apply IH.
Qed.

Section EditItem.
Context {I : InventoryConfig}.

(** X22. Editing sets the stock directly, for any user: [on_item_double_click]
    checks no role; when the item exists, the operator saves and the name
    shown is not empty, the edit is committed, the stock of the item
    becomes the value of the spin box (the typed value, or the current
    stock as the box shows it, both kept between 0.00 and 99.99), and no
    waste log row and no audit row is written. *)
Theorem edit_sets_stock_for_any_user
        (self : InventoryPage.t) (item_id : Z) (it : InventoryItem.t)
        (input : ItemInput) (s : Session) :
  clean s -> reliable s ->
  item_row (persisted s) item_id = Some it ->
  press_save input = true ->
  AddItemDialog.or_shown (type_name input) (InventoryItem.name it) <> [] ->
  let out := InventoryPage.on_item_double_click self (Some item_id) input s in
  fst out = Ok ItemSaved
  /\ quantity_of (persisted (snd out)) item_id
     = Some (match enter_stock input with
             | Some v => Qt.spin_setValue v
             | None => Qt.spin_setValue (InventoryItem.quantity it)
             end)
  /\ waste_logs (persisted (snd out)) = waste_logs (persisted s)
  /\ audit_trails (persisted (snd out)) = audit_trails (persisted s)
  /\ users (persisted (snd out)) = users (persisted s).
Proof.
  intros Hc Hr Hrow Hsave Hname. cbv zeta.
  assert (Hex : exists d,
             AddItemDialog.exec input (EditItemDialog.init it) = (true, d)
             /\ AddItemDialog.quantity d
                = match enter_stock input with
                  | Some v => Qt.spin_setValue v
                  | None => Qt.spin_setValue (InventoryItem.quantity it)
                  end).
  { unfold AddItemDialog.exec, AddItemDialog.accept, AddItemDialog.edit.
    rewrite Hsave. simpl.
    destruct (AddItemDialog.or_shown (type_name input) (InventoryItem.name it))
      as [|c n]; [contradiction|].
    eexists. split; [reflexivity|]. simpl. reflexivity. }
  destruct Hex as (d & Hex & Hq).
  destruct s as [p w fs]. unfold clean in Hc. simpl in Hc. subst w.
  unfold item_row in Hrow. cbn [persisted] in *.
  unfold InventoryPage.on_item_double_click, try_except, bind at 1, query_item_get.
  unfold_session. cbn [faults working persisted].
  unfold reliable in Hr. cbn [faults] in Hr.
  assert (Hfinal : forall fs', Forall (fun f => f = false) fs' ->
     let out := (let (r, s') :=
                   (if (true : bool) then
                      (set_item_columns item_id (InventoryPage.assign d) ;;;
                       session_commit ;;;
                       InventoryPage.load_inventory self ;;;
                       ret ItemSaved)
                    else ret ItemCancelled) (mkSession p p fs') in
                 match r with
                 | Ok a => (Ok a, s')
                 | Raise e => (Ok (ItemFailed e), s')
                 end) in
     fst out = Ok ItemSaved
     /\ persisted (snd out)
        = with_items p (update_item item_id (InventoryPage.assign d) (inventory_items p))).
  { intros fs' Hfs'. cbv zeta. unfold_inventory. unfold_session. simpl.
    walk; try solve [unreliable]; split; reflexivity. }
  assert (Hgoal : forall out,
     fst out = Ok ItemSaved
     /\ persisted (snd out)
        = with_items p (update_item item_id (InventoryPage.assign d) (inventory_items p)) ->
     fst out = Ok ItemSaved
     /\ quantity_of (persisted (snd out)) item_id
        = Some (match enter_stock input with
                | Some v => Qt.spin_setValue v
                | None => Qt.spin_setValue (InventoryItem.quantity it)
                end)
     /\ waste_logs (persisted (snd out)) = waste_logs p
     /\ audit_trails (persisted (snd out)) = audit_trails p
     /\ users (persisted (snd out)) = users p).
  { intros out [Ho Hp]. rewrite Hp. split; [exact Ho|].
    split; [|repeat split; reflexivity].
    unfold quantity_of, item_row, with_items. cbn [inventory_items].
    rewrite (@find_update_item item_id (InventoryPage.assign d) _ it Hrow)
      by reflexivity.
    simpl. now rewrite Hq. }
  destruct fs as [|f fs]; [|inversion Hr as [|? ? Hf Hfs]; subst f];
    cbn [fst snd working]; rewrite Hrow; rewrite Hex; apply Hgoal;
    apply Hfinal; auto.
Qed.

End EditItem.

(** ** The strength bar *)

Section StrengthBarProperties.
Context {U : UnicodeDb} {K : UnicodeCase} {KL : UnicodeCaseLaws U K}.

Lemma existsb_impl {A} (p q : A -> bool) (l : list A) :
  (forall x, p x = true -> q x = true) -> existsb p l = true -> existsb q l = true.
Proof.
  intros H Hp. apply existsb_exists in Hp as (x & Hx & Hpx).
  apply existsb_exists. exists x. auto.
Qed.

(** X23. The strength bar never fills up, and it is green for every
    password that the strength policy of [create_user] accepts: the value
    shown is at most 90, and a password that passes
    [validate_password_strength] scores at least 80 and gets the green
    chunk. *)
Theorem strength_bar_green_for_strong_passwords (password : str) :
  (fst (StrengthBar.update_password_strength password) <= 90)%Z
  /\ (fst (AuthManager.validate_password_strength password) = true ->
      (80 <= fst (StrengthBar.update_password_strength password))%Z
      /\ snd (StrengthBar.update_password_strength password) = Some (lit "#00a86b")).
Proof.
  unfold StrengthBar.update_password_strength, StrengthBar.points.
  split.
  - destruct password as [|c p]; [simpl; lia|]. cbn [fst].
    destruct (Nat.leb 8 _), (Nat.leb 12 _), (existsb islower _), (existsb isupper _),
      (existsb isdigit _), (existsb AuthManager.special_char _); lia.
  - unfold AuthManager.validate_password_strength, PASSWORD_MIN_LENGTH,
      Re.search_class.
    destruct (Nat.ltb (List.length password) 8) eqn:El; [discriminate|].
    destruct (existsb (in_range "a" "z") password) eqn:E1; [|discriminate].
    destruct (existsb (in_range "A" "Z") password) eqn:E2; [|discriminate].
    destruct (existsb is_decimal password) eqn:E3; [|discriminate].
    destruct (existsb AuthManager.special_char password) eqn:E4; [|discriminate].
    intros _. apply Nat.ltb_ge in El.
    apply (existsb_impl _ islower _ ascii_lower) in E1.
    apply (existsb_impl _ isupper _ ascii_upper) in E2.
    apply (existsb_impl _ isdigit _ decimal_isdigit) in E3.
    destruct password as [|c p]; [simpl in El; lia|].
    rewrite E1, E2, E3. cbn [fst snd].
    assert (H8 : Nat.leb 8 (List.length (c :: p)) = true) by now apply Nat.leb_le.
    rewrite H8.
    destruct (Nat.leb 12 (List.length (c :: p))); simpl; split; (lia || reflexivity).
Qed.

End StrengthBarProperties.

(* ================================================================== *)
(** ** The properties on the sample installation *)
(* ================================================================== *)

#[export] Instance sample_case_laws : UnicodeCaseLaws Sample.unicode Sample.unicode_case.
Proof.
  constructor; intros c Hc; exact Hc.
Qed.

Section ValidatorsOnSample.
Import Sample.

Lemma validate_username_accepts_witness :
  (3 <= List.length (lit "alice") <= 50)%nat
  /\ ReLang.up_to_newline ReLang.username_shape (lit "alice").
Proof.
  destruct (validate_username_accepts (lit "alice")) as [H _].
  apply H. reflexivity.
Defined.

Lemma validate_email_accepts_witness :
  ReLang.up_to_newline ReLang.email_shape (lit "alice@x.com").
Proof.
  destruct (validate_email_accepts (lit "alice@x.com")) as [H _].
  apply H. reflexivity.
Defined.

End ValidatorsOnSample.

Section UsersOnSample.
Import Sample.

(** dave is created in the shop and authenticates with his password. *)
Lemma created_user_can_authenticate_witness :
  let out := AuthManager.create_user (lit "dave") (lit "dave@x.com") (lit "Abcdef1!")
               (lit "Dave") ROLE_STAFF tt (get_session shop_db []) in
  exists u,
    fst (AuthManager.authenticate_user (lit "dave") (lit "Abcdef1!") (snd out))
    = Ok (Some u)
    /\ User.username u = lit "dave".
Proof.
  intros out. eexists. split.
  - eapply (@created_user_can_authenticate unicode bcrypt config sample_bcrypt_laws
             (get_session shop_db []) (lit "dave") (lit "dave@x.com")
             (lit "Abcdef1!") (lit "Dave") ROLE_STAFF tt _ _).
    + reflexivity.
    + reflexivity.
  - reflexivity.
Defined.

(** A second alice is refused and the keys stay distinct. *)
Lemma create_user_keeps_keys_distinct_witness :
  users_unique
    (persisted (snd (AuthManager.create_user (lit "alice") (lit "al@x.com")
                       (lit "Abcdef1!") (lit "Alice") ROLE_STAFF tt
                       (get_session shop_db [])))).
Proof.
  apply (@create_user_keeps_keys_distinct unicode bcrypt config
           (get_session shop_db [])).
  - reflexivity.
  - repeat split; simpl; (constructor; [intros [] | constructor]).
Defined.

End UsersOnSample.

Section LoginWindowOnSample.
Import Sample.

Lemma blank_login_touches_nothing_witness :
  let st := AuthManager.mkState None None in
  let s := get_session people_db [true] in
  LoginWindow.handle_login st (lit "   ") (lit "Abcdef1!") s
  = (Ok (LoginWindow.mkOutcome st None (lit "Please enter username and password")),
     s).
Proof.
  intros st s.
  apply (@blank_login_touches_nothing unicode bcrypt st (lit "   ") _ s).
  left. reflexivity.
Defined.

(** alice with a wrong password. *)
Lemma failed_login_leaves_no_trace_witness :
  let st := AuthManager.mkState None None in
  let s := get_session people_db [] in
  let out := LoginWindow.handle_login st (lit " alice ") (lit "Abcdef2!") s in
  fst out = Ok (LoginWindow.mkOutcome st None (lit "Invalid username or password"))
  /\ persisted (snd out) = people_db
  /\ working (snd out) = people_db.
Proof.
  intros st s.
  apply (@failed_login_leaves_no_trace unicode bcrypt st (lit " alice ") _ s).
  - vm_compute. discriminate.
  - vm_compute. discriminate.
  - reflexivity.
Defined.

End LoginWindowOnSample.

Section StartupOnSample.
Import Sample.

(** The first start of the shop. *)
Lemma bootstrap_admin_authenticates_witness :
  let s := get_session shop_db [] in
  let started := BrewMetricApp.initialize_database tt s in
  let admin := default_admin_row shop_db tt in
  fst started = Ok true
  /\ persisted (snd started) = add_user_row shop_db admin
  /\ is_admin admin = true
  /\ fst (AuthManager.authenticate_user (lit "admin") (lit "Admin@123456")
            (snd started))
     = Ok (Some admin).
Proof.
  intros s.
  apply (@bootstrap_admin_authenticates unicode bcrypt config sample_unicode_laws
           sample_bcrypt_laws s tt).
  - reflexivity.
  - constructor.
  - reflexivity.
  - reflexivity.
  - reflexivity.
Defined.

Lemma startup_succeeds_without_admin_witness :
  let s := get_session squatted_db [] in
  let started := BrewMetricApp.initialize_database tt s in
  fst started = Ok true
  /\ persisted (snd started) = squatted_db
  /\ find is_admin (users (persisted (snd started))) = None.
Proof.
  intros s.
  apply (@startup_succeeds_without_admin unicode bcrypt config sample_bcrypt_laws
           s tt).
  - reflexivity.
  - constructor.
  - reflexivity.
  - reflexivity.
Defined.

End StartupOnSample.

Section MainWindowOnSample.
Import Sample.

(** alice, a staff user, asks for the audit page and then the waste page. *)
Lemma audit_page_for_admin_only_witness :
  let w := fold_left MainWindow.switch_page [lit "audit"; lit "waste"]
             (MainWindow.init_ui (MainWindow.mk staff_user)) in
  ~ In (lit "audit") (MainWindow.nav_buttons w)
  /\ MainWindow.current_page w = Some (lit "waste").
Proof.
  intros w.
  destruct (audit_page_for_admin_only (MainWindow.mk staff_user)
              [lit "audit"; lit "waste"]) as (_ & _ & H & _).
  split.
  - apply H. vm_compute. discriminate.
  - reflexivity.
Defined.

Lemma logout_clears_current_user_witness :
  let s := get_session shop_db [true] in
  let st := AuthManager.mkState (Some staff_user) (Some LoginSession) in
  fst (MainWindow.handle_logout (MainWindow.mk staff_user) true st s)
  = Ok (AuthManager.mkState None None)
  /\ MainWindow.handle_logout (MainWindow.mk staff_user) false st s = (Ok st, s).
Proof.
  intros s st.
  destruct (@logout_clears_current_user (MainWindow.mk staff_user) true st s eq_refl)
    as (_ & Hyes).
  destruct (@logout_clears_current_user (MainWindow.mk staff_user) false st s eq_refl)
    as (Hno & _).
  split.
  - apply Hyes. reflexivity.
  - apply Hno. reflexivity.
Defined.

End MainWindowOnSample.

Section InventoryOnSample.
Import Sample.

(** Two write-offs of the tea, 2.00 and then 8.00 of the 3.00 left. *)
Lemma write_offs_only_lower_stock_witness :
  let s := get_session shop_db [] in
  let out := WasteLogPage.run (WasteLogPage.mk staff_user)
               [mkWasteInput 0 200 0 [] true; mkWasteInput 0 800 1 [] true] s in
  Forall2 lowered [tea] (inventory_items (persisted (snd out)))
  /\ stock_not_negative (persisted (snd out)).
Proof.
  intros s.
  apply (@write_offs_only_lower_stock config (WasteLogPage.mk staff_user)
           [mkWasteInput 0 200 0 [] true; mkWasteInput 0 800 1 [] true] s).
  - reflexivity.
  - constructor; [simpl; lia | constructor].
Defined.

Lemma write_offs_are_attributed_witness :
  let s := get_session shop_db [] in
  let out := WasteLogPage.run (WasteLogPage.mk staff_user)
               [mkWasteInput 0 200 0 [] true; mkWasteInput 0 800 1 [] true] s in
  exists new_logs,
    waste_logs (persisted (snd out)) = [] ++ new_logs
    /\ Forall (fun w => WasteLog.user_id w = 2%Z
                        /\ (0 <= WasteLog.quantity w <= 9999)%Z
                        /\ exists it, In it [tea]
                                      /\ InventoryItem.id it
                                         = WasteLog.inventory_item_id w)
              new_logs
    /\ NoDup (map WasteLog.id (waste_logs (persisted (snd out)))).
Proof.
  intros s.
  apply (@write_offs_are_attributed config (WasteLogPage.mk staff_user)
           [mkWasteInput 0 200 0 [] true; mkWasteInput 0 800 1 [] true] s).
  - reflexivity.
  - constructor.
Defined.

(** The tea is worth 5.00 x 2.50 before and 3.00 x 2.50 after. *)
Lemma write_offs_never_raise_value_witness :
  let s := get_session shop_db [] in
  let out := WasteLogPage.run (WasteLogPage.mk staff_user)
               [mkWasteInput 0 200 0 [] true] s in
  fst (InventoryQueries.get_total_inventory_value s) = Ok 125000%Z
  /\ fst (InventoryQueries.get_total_inventory_value (snd out)) = Ok 75000%Z
  /\ (75000 <= 125000)%Z.
Proof.
  intros s out. split; [reflexivity|]. split; [reflexivity|].
  apply (@write_offs_never_raise_value config (WasteLogPage.mk staff_user)
           [mkWasteInput 0 200 0 [] true] s 125000 75000).
  - reflexivity.
  - constructor; [simpl; lia | constructor].
  - constructor; [simpl; lia | constructor].
  - reflexivity.
  - reflexivity.
Defined.

Lemma active_queries_skip_deleted_rows_witness :
  let s := get_session stock_db [] in
  Permutation [milk; tea]
    (filter (fun i => negb (InventoryItem.is_deleted i)) (inventory_items (working s)))
  /\ Sorted name_le [milk; tea]
  /\ Permutation [tea]
       (filter (fun i => str_eqb (InventoryItem.category i) (lit "Tea")
                         && negb (InventoryItem.is_deleted i))
               (inventory_items (working s)))
  /\ Sorted name_le [tea]
  /\ (forall i, In i [tea] ->
        InventoryItem.is_deleted i = false /\ InventoryItem.category i = lit "Tea").
Proof.
  intros s.
  apply (@active_queries_skip_deleted_rows s true (lit "Tea") [milk; tea] [tea]).
  - reflexivity.
  - reflexivity.
Defined.

Lemma low_stock_items_lowest_first_witness :
  let s := get_session stock_db [] in
  (forall i, In i [tea] ->
     In i (inventory_items (working s))
     /\ InventoryItem.is_below_threshold i = true
     /\ InventoryItem.is_deleted i = false)
  /\ StronglySorted quantity_le [tea]
  /\ ((0 <= 10)%Z -> (List.length [tea] <= Z.to_nat 10)%nat)
  /\ (forall x, In x (inventory_items (working s)) ->
        InventoryItem.is_below_threshold x = true ->
        InventoryItem.is_deleted x = false ->
        In x [tea]
        \/ ((0 <= 10)%Z /\ List.length [tea] = Z.to_nat 10
            /\ forall y, In y [tea] -> quantity_le y x)).
Proof.
  intros s.
  apply (@low_stock_items_lowest_first s 10 [tea]).
  reflexivity.
Defined.

(** alice is refused, although [has_permission] grants her [add_item]. *)
Lemma add_item_is_for_admins_only_witness :
  let s := get_session shop_db [] in
  let input := mkItemInput (Some (lit "Boba")) None (Some 1200%Z) None None None None
                 true in
  AuthManager.has_permission (Some staff_user) (lit "add_item") = true
  /\ InventoryPage.show_add_dialog (InventoryPage.mk staff_user) input s
     = (Ok PermissionDenied, s).
Proof.
  intros s input.
  destruct (@add_item_is_for_admins_only inventory_config
              (InventoryPage.mk staff_user) input s) as (_ & H & _).
  apply H. reflexivity.
Defined.

Lemma dialogs_keep_stock_in_range_witness :
  let s := get_session shop_db [] in
  let input := mkItemInput (Some (lit "Boba")) None (Some 123456%Z) None None None None
                 true in
  stock_in_range
    (persisted (snd (InventoryPage.show_add_dialog (InventoryPage.mk admin_user)
                       input s)))
  /\ stock_in_range
       (persisted (snd (InventoryPage.on_item_double_click
                          (InventoryPage.mk staff_user) (Some 1%Z) input s)))
  /\ stock_in_range
       (persisted (snd (WasteLogPage.run (WasteLogPage.mk staff_user)
                          [mkWasteInput 0 800 0 [] true] s))).
Proof.
  intros s input.
  apply (@dialogs_keep_stock_in_range inventory_config config
           (InventoryPage.mk admin_user) (WasteLogPage.mk staff_user) input
           (Some 1%Z) [mkWasteInput 0 800 0 [] true] s).
  - reflexivity.
  - constructor; [simpl; lia | constructor].
Defined.

(** alice, a staff user, sets the stock of the tea to 1234.56: the box
    keeps 99.99. *)
Lemma edit_sets_stock_for_any_user_witness :
  let s := get_session shop_db [] in
  let input := mkItemInput None None (Some 123456%Z) None None None None true in
  let out := InventoryPage.on_item_double_click (InventoryPage.mk staff_user)
               (Some 1%Z) input s in
  fst out = Ok ItemSaved
  /\ quantity_of (persisted (snd out)) 1 = Some 9999%Z
  /\ waste_logs (persisted (snd out)) = []
  /\ audit_trails (persisted (snd out)) = []
  /\ users (persisted (snd out)) = [staff_user].
Proof.
  intros s input.
  apply (@edit_sets_stock_for_any_user inventory_config
           (InventoryPage.mk staff_user) 1 tea input s).
  - reflexivity.
  - constructor.
  - reflexivity.
  - reflexivity.
  - vm_compute. discriminate.
Defined.

End InventoryOnSample.

Section ExpiryOnSample.
Import Sample.

(** Seven days and 23 hours ahead is within 7 days. *)
Lemma expiring_soon_window_witness :
  Dated.is_expiring_soon dated_tea 0 7 = true.
Proof.
  destruct (expiring_soon_window dated_tea 0 7) as [[_ H] _].
  apply H. eexists. split; [reflexivity|]. unfold Dated.day. lia.
Defined.

(** The same row is not returned by the query for 7 days. *)
Lemma expiring_query_is_narrower_than_method_witness :
  Dated.is_expiring_soon dated_tea 0 7 = true
  /\ Dated.get_expiring_items [dated_tea] 0 0 7 = [].
Proof.
  destruct expiring_query_is_narrower_than_method as [_ H].
  apply (H dated_tea (7 * Dated.day + 23 * 3600000000)%Z 0%Z 7%Z).
  - reflexivity.
  - unfold Dated.day. lia.
  - lia.
Defined.

End ExpiryOnSample.

Section StrengthBarOnSample.
Import Sample.

Lemma strength_bar_green_for_strong_passwords_witness :
  (80 <= fst (StrengthBar.update_password_strength (lit "Abcdef1!")))%Z
  /\ snd (StrengthBar.update_password_strength (lit "Abcdef1!"))
     = Some (lit "#00a86b").
Proof.
  destruct (@strength_bar_green_for_strong_passwords unicode unicode_case
              sample_case_laws (lit "Abcdef1!")) as [_ H].
  apply H. reflexivity.
Defined.

End StrengthBarOnSample.
